(** * The incremental merge engine of [script.py], embedded in Rocq

    The Python program harvests JSON payloads and merges them into a
    persisted JSON store.  Every object it handles is either parsed from
    JSON or built by the program itself, so the data is modelled by a
    closed type of JSON-like values.  Floating-point numbers are left
    out of the model.

    In-place mutation is rendered by returning the updated value.  Every
    object reachable from the store or from a snapshot is a tree (no
    object is referenced twice), and an item of a snapshot that has been
    appended to a persisted list is not read through the snapshot again,
    so the aliasing created by [append] is never observed.  The one
    call in which it is observed, a keyed list merge that is handed one
    list object as both arguments, has a model of its own with the
    objects of the list in a store.

    Exceptions are rendered by [None] or by a constructor of their own.
    Console output and the sleeps between retries are taken to succeed
    and decide no result. *)

From Stdlib Require Import ZArith DecimalString.
From stdpp Require Import gmap strings list.

Local Open Scope string_scope.
Local Open Scope list_scope.
Local Open Scope Z_scope.

(** ** Values *)

Unset Elimination Schemes.
Inductive value : Type :=
  | VNone
  | VBool (b : bool)
  | VInt (n : Z)
  | VStr (s : string)
  | VList (l : list value)
  | VDict (d : list (string * value)).
Set Elimination Schemes.

(** A Python [dict] with string keys, in insertion order. *)
Abbreviation pydict := (list (string * value)).

Section value_induction.
Variable P : value → Prop.
Hypothesis Hnone : P VNone.
Hypothesis Hbool : ∀ b, P (VBool b).
Hypothesis Hint : ∀ n, P (VInt n).
Hypothesis Hstr : ∀ s, P (VStr s).
Hypothesis Hlist : ∀ l, Forall P l → P (VList l).
Hypothesis Hdict : ∀ d : pydict, Forall (λ kv, P kv.2) d → P (VDict d).

Fixpoint value_ind (v : value) : P v :=
  match v with
  | VNone => Hnone
  | VBool b => Hbool b
  | VInt n => Hint n
  | VStr s => Hstr s
  | VList l =>
      Hlist l
        ((fix elems (l : list value) : Forall P l :=
            match l with
            | [] => Forall_nil_2 P
            | x :: l' => Forall_cons_2 P x l' (value_ind x) (elems l')
            end) l)
  | VDict d =>
      Hdict d
        ((fix fields (d : pydict) : Forall (λ kv, P kv.2) d :=
            match d with
            | [] => Forall_nil_2 _
            | kv :: d' =>
                Forall_cons_2 (λ kv, P kv.2) kv d' (value_ind kv.2) (fields d')
            end) d)
  end.
End value_induction.

(** [isinstance(x, dict)] and [isinstance(x, list)]. *)
Definition is_dict (x : value) : bool :=
  match x with VDict _ => true | _ => false end.

Definition is_list (x : value) : bool :=
  match x with VList _ => true | _ => false end.

(** Python truthiness, as used by [not x], [x or y] and [bool(x)]. *)
Definition truthy (x : value) : bool :=
  match x with
  | VNone => false
  | VBool b => b
  | VInt n => negb (n =? 0)
  | VStr s => negb (String.eqb s "")
  | VList l => match l with [] => false | _ => true end
  | VDict d => match d with [] => false | _ => true end
  end.

(** [x or y] *)
Definition py_or (x y : value) : value := if truthy x then x else y.

(** ** Dictionaries *)

(** [k in d], [d[k]]: the entry stored under [k]. *)
Fixpoint dict_get (d : pydict) (k : string) : option value :=
  match d with
  | [] => None
  | (k', v) :: d' => if String.eqb k' k then Some v else dict_get d' k
  end.

(** [d.get(k)] and [d.get(k, dflt)] *)
Definition py_get (d : pydict) (k : string) : value :=
  default VNone (dict_get d k).

Definition py_get_or (d : pydict) (k : string) (dflt : value) : value :=
  default dflt (dict_get d k).

(** [d[k] = v]: an existing key keeps its position, a new key goes last. *)
Fixpoint dict_set (d : pydict) (k : string) (v : value) : pydict :=
  match d with
  | [] => [(k, v)]
  | (k', v') :: d' =>
      if String.eqb k' k then (k', v) :: d' else (k', v') :: dict_set d' k v
  end.

(** [d.pop(k, None)] *)
Fixpoint dict_pop (d : pydict) (k : string) : pydict :=
  match d with
  | [] => []
  | (k', v') :: d' =>
      if String.eqb k' k then d' else (k', v') :: dict_pop d' k
  end.

(** Keys of a dictionary are pairwise distinct, at every depth.  Every
    value parsed from JSON or built by the program satisfies this. *)
Fixpoint wf_value (v : value) : bool :=
  match v with
  | VList l => forallb wf_value l
  | VDict d =>
      bool_decide (NoDup d.*1) && forallb (λ kv, wf_value kv.2) d
  | _ => true
  end.

(** ** Python equality [==] and membership [in] *)

Definition bool_to_Z (b : bool) : Z := if b then 1 else 0.

Fixpoint py_eq (x y : value) {struct x} : bool :=
  match x, y with
  | VNone, VNone => true
  | VBool a, VBool b => Bool.eqb a b
  | VBool a, VInt n => bool_to_Z a =? n
  | VInt n, VBool b => n =? bool_to_Z b
  | VInt n, VInt m => n =? m
  | VStr s, VStr t => String.eqb s t
  | VList xs, VList ys =>
      (fix elems (xs ys : list value) : bool :=
         match xs, ys with
         | [], [] => true
         | x :: xs', y :: ys' => py_eq x y && elems xs' ys'
         | _, _ => false
         end) xs ys
  | VDict xd, VDict yd =>
      (length xd =? length yd)%nat
      && forallb (λ kv, match dict_get yd kv.1 with
                        | Some w => py_eq kv.2 w
                        | None => false
                        end) xd
  | _, _ => false
  end.

(** [x in l] *)
Definition py_in (x : value) (l : list value) : bool :=
  existsb (py_eq x) l.

(** ** [is_blank] and the fill-only scalar merge *)

(** [x in (None, "", [], {})] *)
Definition is_blank (x : value) : bool :=
  py_eq x VNone || py_eq x (VStr "") || py_eq x (VList []) || py_eq x (VDict []).

Definition merge_scalar_fill_only (existing_dict : pydict) (k : string)
    (new_val : value) : pydict :=
  if is_blank (py_get existing_dict k) && negb (is_blank new_val)
  then dict_set existing_dict k new_val
  else existing_dict.

(** ** The deep structural merge

    [merge_dict_fill_only(existing, new)] walks the items of [new] in
    order.  All its callers pass a mapping for [new].  The recursion is
    on [new], whose nested mappings are passed to the recursive calls. *)
Fixpoint merge_dict_value (new : value) (existing : pydict) {struct new} : pydict :=
  match new with
  | VDict items =>
      (fix each (items : pydict) (existing : pydict) {struct items} : pydict :=
         match items with
         | [] => existing
         | (k, v) :: rest =>
             each rest
               match v with
               | VDict _ =>
                   let existing :=
                     if is_dict (py_get existing k) then existing
                     else dict_set existing k (VDict []) in
                   match py_get existing k with
                   | VDict sub => dict_set existing k (VDict (merge_dict_value v sub))
                   | _ => existing
                   end
               | VList _ =>
                   if is_list (py_get existing k) then existing
                   else dict_set existing k (VList [])
               | _ => merge_scalar_fill_only existing k v
               end
         end) items existing
  | _ => existing
  end.

Definition merge_dict_fill_only (existing new : pydict) : pydict :=
  merge_dict_value (VDict new) existing.

(** How a walk over a list that may grow under it ends: it reaches the
    end of the list, an exception leaves it, or the rounds counted out
    here are used up first. *)
Inductive walk_end (A : Type) : Type :=
  | Finished (a : A)
  | Raised
  | Unfinished.
Arguments Finished {A} a.
Arguments Raised {A}.
Arguments Unfinished {A}.

(** ** Built-ins of the Python runtime

    [repr] of a [str] (quoting and escaping) and the per-process salted
    [hash] of a [str] belong to the interpreter, not to the program; they
    are taken as parameters.  Everything else is written out. *)
Section program.
Set Default Proof Using "Type".
Variable repr_str : string → string.
Variable hash_str : string → Z.
Variable hash_none : Z.

(** Decimal rendering of an [int]. *)
Definition str_of_Z (n : Z) : string := NilZero.string_of_int (Z.to_int n).

Fixpoint py_repr (v : value) : string :=
  match v with
  | VNone => "None"
  | VBool b => if b then "True" else "False"
  | VInt n => str_of_Z n
  | VStr s => repr_str s
  | VList l => "[" +:+ String.concat ", " (map py_repr l) +:+ "]"
  | VDict d =>
      "{"
      +:+ String.concat ", "
            (map (λ kv : string * value, repr_str kv.1 +:+ ": " +:+ py_repr kv.2) d)
      +:+ "}"
  end.

(** [str(x)], also what an f-string field [{x}] renders. *)
Definition py_str (v : value) : string :=
  match v with
  | VStr s => s
  | _ => py_repr v
  end.

(** [hash(x)]: CPython reduces an [int] modulo [2^61 - 1] keeping its
    sign and never answers [-1]; a [list] or a [dict] is unhashable
    ([TypeError], rendered by [None]). *)
Definition hash_int (n : Z) : Z :=
  let h := Z.sgn n * (Z.abs n mod (2 ^ 61 - 1)) in
  if h =? -1 then -2 else h.

Definition py_hash (v : value) : option Z :=
  match v with
  | VNone => Some hash_none
  | VBool b => Some (bool_to_Z b)
  | VInt n => Some (hash_int n)
  | VStr s => Some (hash_str s)
  | VList _ | VDict _ => None
  end.

(** ** Keyed list merge *)

(** [item_id not in (None, "")] *)
Definition usable_key (item_id : value) : bool :=
  negb (py_eq item_id VNone || py_eq item_id (VStr "")).

(** The first loop of [merge_list_by_key]: [idx] is the position of
    the head of [items] in the whole list. *)
Fixpoint index_by_key (key : string) (idx : nat) (items : list value)
    (index : gmap string nat) : gmap string nat :=
  match items with
  | [] => index
  | item :: rest =>
      index_by_key key (S idx) rest
        match item with
        | VDict d =>
            let item_id := py_get d key in
            if usable_key item_id then <[py_str item_id := idx]> index
            else index
        | _ => index
        end
  end.

(** [if item not in existing_list: existing_list.append(item)] *)
Definition append_if_absent (existing_list : list value) (item : value)
    : list value :=
  if py_in item existing_list then existing_list else existing_list ++ [item].

(** One round of the second loop.  [existing_list[i]] raises when [i]
    is out of range and [merge_dict_fill_only] raises on a target that
    is not a mapping; both are rendered by [None]. *)
Definition merge_item_by_key (key : string)
    (st : list value * gmap string nat) (item : value)
    : option (list value * gmap string nat) :=
  let '(existing_list, index) := st in
  match item with
  | VDict d =>
      let item_id := py_get d key in
      if usable_key item_id then
        let sid := py_str item_id in
        match index !! sid with
        | Some i =>
            match existing_list !! i with
            | Some (VDict target) =>
                Some (<[i := VDict (merge_dict_fill_only target d)]> existing_list,
                      index)
            | _ => None
            end
        | None =>
            Some (existing_list ++ [item], <[sid := length existing_list]> index)
        end
      else Some (append_if_absent existing_list item, index)
  | _ => Some (append_if_absent existing_list item, index)
  end.

Fixpoint merge_items_by_key (key : string) (new_list : list value)
    (st : list value * gmap string nat)
    : option (list value * gmap string nat) :=
  match new_list with
  | [] => Some st
  | item :: rest =>
      st' ← merge_item_by_key key st item;
      merge_items_by_key key rest st'
  end.

Definition merge_list_by_key (existing_list new_list : value) (key : string)
    : option (list value) :=
  let existing_list :=
    match existing_list with VList l => l | _ => [] end in
  match new_list with
  | VList new_list =>
      let index := index_by_key key 0 existing_list ∅ in
      fst <$> merge_items_by_key key new_list (existing_list, index)
  | _ => Some existing_list
  end.

(** ** Keyed list merge of one list object into itself

    In [merge_list_by_key(l, l, key)] both parameters name one list
    object: the loop [for item in new_list] walks the very list that
    [append] extends, and reads the mappings as
    [merge_dict_fill_only] has left them.  The objects of the list live
    in [cells]; the list is [slots], the addresses of its entries in
    order.  An appended entry is the address of the object at hand, not
    a copy of it. *)
Record shared_list : Type := mk_shared {
  cells : list value;
  slots : list nat
}.

(** The list as a value, and the list object whose entries are the
    distinct objects [l]. *)
Definition contents (s : shared_list) : list value :=
  omap (λ a, cells s !! a) (slots s).

Definition share (l : list value) : shared_list :=
  mk_shared l (seq 0 (length l)).

(** [item in existing_list] for the object [item] at address [a]: an
    entry matches when it is the same object or an equal one. *)
Definition obj_in (s : shared_list) (a : nat) (item : value) : bool :=
  existsb (λ b, (b =? a)%nat
                || match cells s !! b with
                   | Some x => py_eq item x
                   | None => false
                   end) (slots s).

(** [if item not in existing_list: existing_list.append(item)] *)
Definition append_object_if_absent (s : shared_list) (a : nat) (item : value)
    : shared_list :=
  if obj_in s a item then s else mk_shared (cells s) (slots s ++ [a]).

(** One round of the second loop, for the entry at address [a].
    [merge_dict_fill_only(target, item)] updates the object [target] in
    place; when [target] is the object [item] itself every test of the
    merge compares a value with itself, so nothing is written. *)
Definition merge_object_by_key (key : string)
    (st : shared_list * gmap string nat) (a : nat)
    : option (shared_list * gmap string nat) :=
  let '(s, index) := st in
  match cells s !! a with
  | Some (VDict d) =>
      let item_id := py_get d key in
      if usable_key item_id then
        let sid := py_str item_id in
        match index !! sid with
        | Some i =>
            match slots s !! i with
            | Some t =>
                match cells s !! t with
                | Some (VDict target) =>
                    if (t =? a)%nat then Some (s, index)
                    else
                      Some (mk_shared
                              (<[t := VDict (merge_dict_fill_only target d)]>
                                 (cells s))
                              (slots s),
                            index)
                | _ => None
                end
            | None => None
            end
        | None =>
            Some (mk_shared (cells s) (slots s ++ [a]),
                  <[sid := length (slots s)]> index)
        end
      else Some (append_object_if_absent s a (VDict d), index)
  | Some item => Some (append_object_if_absent s a item, index)
  | None => None
  end.

(** [for item in new_list] from position [p] on: the iterator hands out
    the entry at [p] as long as the list, as it is then, has one. *)
Fixpoint merge_objects_by_key (rounds : nat) (key : string) (p : nat)
    (st : shared_list * gmap string nat)
    : walk_end (shared_list * gmap string nat) :=
  match slots st.1 !! p with
  | None => Finished st
  | Some a =>
      match rounds with
      | O => Unfinished
      | S rounds' =>
          match merge_object_by_key key st a with
          | Some st' => merge_objects_by_key rounds' key (S p) st'
          | None => Raised
          end
      end
  end.

Definition merge_list_by_key_shared (rounds : nat) (s : shared_list)
    (key : string) : walk_end shared_list :=
  let index := index_by_key key 0 (contents s) ∅ in
  match merge_objects_by_key rounds key 0 (s, index) with
  | Finished st => Finished st.1
  | Raised => Raised
  | Unfinished => Unfinished
  end.

(** ** Fingerprint list merge *)

(** The [for k in ("id", "notice_id", "_id", "update_id")] loop. *)
Fixpoint first_id_field (item : pydict) (ks : list string) : option string :=
  match ks with
  | [] => None
  | k :: ks' =>
      let v := py_get item k in
      if negb (is_blank v) then Some (k +:+ ":" +:+ py_str v)
      else first_id_field item ks'
  end.

Definition fingerprint (item : value) : option string :=
  match item with
  | VDict d =>
      match first_id_field d ["id"; "notice_id"; "_id"; "update_id"] with
      | Some fp => Some fp
      | None =>
          let ts :=
            py_or (py_get d "published_at")
              (py_or (py_get d "publishedAt")
                 (py_or (py_get d "created_at")
                    (py_or (py_get d "createdAt") (VStr "")))) in
          let body :=
            py_or (py_get d "content")
              (py_or (py_get d "message")
                 (py_or (py_get d "description") (VStr ""))) in
          h ← py_hash body;
          Some (py_str ts +:+ "|" +:+ str_of_Z h)
      end
  | _ => Some (py_str item)
  end.

(** The dict comprehension [{fingerprint(item): i for i, item in ...}]. *)
Fixpoint index_by_fingerprint (i : nat) (items : list value)
    (idx : gmap string nat) : option (gmap string nat) :=
  match items with
  | [] => Some idx
  | item :: rest =>
      fp ← fingerprint item;
      index_by_fingerprint (S i) rest (<[fp := i]> idx)
  end.

Definition merge_item_by_fingerprint (st : list value * gmap string nat)
    (item : value) : option (list value * gmap string nat) :=
  let '(existing_list, idx) := st in
  fp ← fingerprint item;
  match idx !! fp with
  | Some i =>
      target ← existing_list !! i;
      match target, item with
      | VDict t, VDict d =>
          Some (<[i := VDict (merge_dict_fill_only t d)]> existing_list, idx)
      | _, _ => Some st
      end
  | None => Some (existing_list ++ [item], <[fp := length existing_list]> idx)
  end.

Fixpoint merge_items_by_fingerprint (new_list : list value)
    (st : list value * gmap string nat)
    : option (list value * gmap string nat) :=
  match new_list with
  | [] => Some st
  | item :: rest =>
      st' ← merge_item_by_fingerprint st item;
      merge_items_by_fingerprint rest st'
  end.

Definition merge_list_by_fingerprint (existing_list new_list : value)
    : option (list value) :=
  let existing_list :=
    match existing_list with VList l => l | _ => [] end in
  match new_list with
  | VList new_list =>
      idx ← index_by_fingerprint 0 existing_list ∅;
      fst <$> merge_items_by_fingerprint new_list (existing_list, idx)
  | _ => Some existing_list
  end.

(** ** Entity merge *)

(** [len(d.get(k, [])) if isinstance(d.get(k), list) else 0] *)
Definition list_len_of (d : pydict) (k : string) : Z :=
  match py_get d k with
  | VList l => Z.of_nat (length l)
  | _ => 0
  end.

(** The three count assignments shared by both branches of the lesson
    loop; [lesson_count] adds the two values just stored. *)
Definition recount (lesson : pydict) : pydict :=
  let video_count := list_len_of lesson "videos" in
  let lesson := dict_set lesson "video_count" (VInt video_count) in
  let note_count := list_len_of lesson "notes" in
  let lesson := dict_set lesson "note_count" (VInt note_count) in
  dict_set lesson "lesson_count" (VInt (video_count + note_count)).

(** One round of the lesson loop of [merge_course]. *)
Definition merge_lesson (st : list value * gmap string nat) (lesson : value)
    : option (list value * gmap string nat) :=
  let '(existing_lessons, lesson_idx) := st in
  match lesson with
  | VDict d =>
      let lid := py_get d "lesson_id" in
      if usable_key lid then
        let lid := py_str lid in
        match lesson_idx !! lid with
        | Some i =>
            match existing_lessons !! i with
            | Some (VDict target) =>
                let target := merge_dict_fill_only target d in
                videos ← merge_list_by_key (py_get_or target "videos" (VList []))
                           (py_get_or d "videos" (VList [])) "id";
                let target := dict_set target "videos" (VList videos) in
                notes ← merge_list_by_key (py_get_or target "notes" (VList []))
                          (py_get_or d "notes" (VList [])) "id";
                let target := dict_set target "notes" (VList notes) in
                Some (<[i := VDict (recount target)]> existing_lessons, lesson_idx)
            | _ => None
            end
        | None =>
            Some (existing_lessons ++ [VDict (recount d)],
                  <[lid := length existing_lessons]> lesson_idx)
        end
      else Some (append_if_absent existing_lessons lesson, lesson_idx)
  | _ => Some (append_if_absent existing_lessons lesson, lesson_idx)
  end.

Fixpoint merge_lessons (new_lessons : list value)
    (st : list value * gmap string nat)
    : option (list value * gmap string nat) :=
  match new_lessons with
  | [] => Some st
  | lesson :: rest =>
      st' ← merge_lesson st lesson;
      merge_lessons rest st'
  end.

(** [x + y] on the numbers that [sum] meets here ([bool] is an [int]);
    anything else is a [TypeError]. *)
Definition py_num (v : value) : option Z :=
  match v with
  | VInt n => Some n
  | VBool b => Some (bool_to_Z b)
  | _ => None
  end.

(** [sum((l.get("lesson_count") or 0) for l in lessons if isinstance(l, dict))] *)
Fixpoint sum_lesson_counts (lessons : list value) (acc : Z) : option Z :=
  match lessons with
  | [] => Some acc
  | VDict d :: rest =>
      n ← py_num (py_or (py_get d "lesson_count") (VInt 0));
      sum_lesson_counts rest (acc + n)
  | _ :: rest => sum_lesson_counts rest acc
  end.

(** The body of [if classroom_ok:]. *)
Definition merge_classroom_section (existing_course new_course : pydict)
    : option pydict :=
  classroom ← merge_list_by_key (py_get_or existing_course "classroom" (VList []))
                (py_get_or new_course "classroom" (VList [])) "id";
  let existing_course := dict_set existing_course "classroom" (VList classroom) in
  let existing_lessons :=
    match py_get_or existing_course "lessons" (VList []) with
    | VList l => l
    | _ => []
    end in
  let new_lessons :=
    match py_get_or new_course "lessons" (VList []) with
    | VList l => l
    | _ => []
    end in
  let lesson_idx := index_by_key "lesson_id" 0 existing_lessons ∅ in
  st ← merge_lessons new_lessons (existing_lessons, lesson_idx);
  let existing_lessons := st.1 in
  let existing_course := dict_set existing_course "lessons" (VList existing_lessons) in
  total ← sum_lesson_counts existing_lessons 0;
  Some (dict_set existing_course "lesson_count" (VInt total)).

(** The body of [if updates_ok:]. *)
Definition merge_updates_section (existing_course new_course : pydict)
    : option pydict :=
  announcements ←
    merge_list_by_fingerprint (py_get_or existing_course "announcements" (VList []))
      (py_get_or new_course "announcements" (VList []));
  Some (dict_set existing_course "announcements" (VList announcements)).

(** [{k: v for k, v in new_course.items() if k != "_ok"}] *)
Definition without_ok (new_course : pydict) : pydict :=
  filter (λ kv, kv.1 ≠ "_ok") new_course.

Definition merge_course (existing_course new_course : pydict) : option pydict :=
  let existing_course := merge_dict_fill_only existing_course (without_ok new_course) in
  match py_or (py_get new_course "_ok") (VDict []) with
  | VDict ok =>
      let classroom_ok := truthy (py_get ok "classroom") in
      let updates_ok := truthy (py_get ok "updates") in
      existing_course ←
        (if classroom_ok then merge_classroom_section existing_course new_course
         else Some existing_course);
      if updates_ok then merge_updates_section existing_course new_course
      else Some existing_course
  | _ => None
  end.

(** [upsert_course] after [course_id = str(course_id)]: the loop over
    the records, and the final [append] when it finds no match.
    [c.get] raises on a record that is not a mapping. *)
Fixpoint upsert_loop (master_json : list value) (course_id : string)
    (new_course : pydict) : option (list value) :=
  match master_json with
  | [] => Some [VDict new_course]
  | VDict c :: rest =>
      if String.eqb (py_str (py_get c "course_id")) course_id then
        c' ← merge_course c new_course;
        Some (VDict c' :: rest)
      else
        rest' ← upsert_loop rest course_id new_course;
        Some (VDict c :: rest')
  | _ :: _ => None
  end.

Definition upsert_course (master_json : list value) (course_id : value)
    (new_course : pydict) : option (list value) :=
  upsert_loop master_json (py_str course_id) new_course.

(** ** Retrying fetcher *)

Definition ensure_list (x : value) : list value :=
  match x with
  | VList l => l
  | VDict _ => [x]
  | _ => []
  end.

(** What one [session.get] can do: raise a [requests.RequestException],
    or answer with a status code and a body on which [r.json()] either
    yields a value or raises. *)
Inductive attempt_outcome : Type :=
  | Raises
  | Responds (code : Z) (json : option value).

(** The network is a state machine: each [session.get] sees the state
    left by the previous one.  The sleeps do not change any result. *)
Variable network : Type.
Variable session_get : string → network → attempt_outcome * network.
Variable MAX_RETRIES : Z.

Definition transient (code : Z) : bool :=
  (code =? 500) || (code =? 502) || (code =? 503) || (code =? 504).

(** How a call of [safe_get] ends: it gives a value back, a pair or
    Python's [None], or an [OverflowError] leaves it. *)
Inductive safe_get_end : Type :=
  | Gives (r : option (value * bool))
  | Overflows.

(** [wait = min(BACKOFF_CAP, BACKOFF_BASE * (2 ** (attempt - 1))) + ...]:
    [BACKOFF_BASE] is a [float], so the product converts the integer
    [2 ** (attempt - 1)] to a [float], and that conversion raises
    [OverflowError] from [2 ** 1024] on, whatever the configured base.
    The delay itself, a float, decides no result. *)
Definition wait_overflows (attempt : Z) : bool := 1024 <=? attempt - 1.

(** The loop [for attempt in range(1, MAX_RETRIES + 1)] with [remaining]
    rounds to go.  On a transient failure the delay is computed first,
    before the test [attempt < MAX_RETRIES]; the [OverflowError] of that
    computation is no [requests.RequestException] and is not caught.
    Leaving the loop without a [return] makes the function return
    Python's [None], which is not a pair: that is [Gives None]. *)
Fixpoint safe_get_loop (remaining : nat) (attempt : Z) (url : string)
    (w : network) : safe_get_end * network :=
  match remaining with
  | O => (Gives None, w)
  | S remaining' =>
      let '(outcome, w) := session_get url w in
      match outcome with
      | Responds code json =>
          if transient code then
            if wait_overflows attempt then (Overflows, w)
            else if attempt <? MAX_RETRIES
            then safe_get_loop remaining' (attempt + 1) url w
            else (Gives (Some (VNone, false)), w)
          else if negb (code =? 200) then (Gives (Some (VNone, false)), w)
          else
            match json with
            | Some data => (Gives (Some (data, true)), w)
            | None => (Gives (Some (VNone, false)), w)
            end
      | Raises =>
          if wait_overflows attempt then (Overflows, w)
          else if attempt <? MAX_RETRIES
          then safe_get_loop remaining' (attempt + 1) url w
          else (Gives (Some (VNone, false)), w)
      end
  end.

Definition safe_get (url : string) (w : network) : safe_get_end * network :=
  safe_get_loop (Z.to_nat MAX_RETRIES) 1 url w.

(** ** Resource resolver *)

(** Code that talks to the network and may raise. *)
Definition fetching (A : Type) : Type := network → option (A * network).

Definition fetch_ret {A} (a : A) : fetching A := λ w, Some (a, w).

Definition fetch_bind {A B} (m : fetching A) (f : A → fetching B)
    : fetching B :=
  λ w, match m w with
       | Some (a, w') => f a w'
       | None => None
       end.

Notation "x ←@ y ; z" := (fetch_bind y (λ x, z))
  (at level 20, y at level 100, z at level 200).
Notation "' x ←@ y ; z" := (fetch_bind y (λ x, z))
  (at level 20, x pattern, y at level 100, z at level 200).

(** [data, ok = safe_get(url)]: unpacking fails on a result that is no
    pair, and an exception of [safe_get] goes on to the caller. *)
Definition safe_get_pair (url : string) : fetching (value * bool) :=
  λ w, match safe_get url w with
       | (Gives (Some r), w') => Some (r, w')
       | (Gives None, _) => None
       | (Overflows, _) => None
       end.

Variable API_BASE : string.

(** [str(x) if x is not None else None] *)
Definition str_or_none (x : value) : value :=
  match x with
  | VNone => VNone
  | _ => VStr (py_str x)
  end.

(** [vd.get(k, dflt) if vd_ok else off] *)
Definition detail_field (vd : pydict) (vd_ok : bool) (k : string)
    (dflt off : value) : value :=
  if vd_ok then py_get_or vd k dflt else off.

(** The secondary lookup shared by videos and notes:
    [vd_data, vd_ok = (None, False)], then [safe_get] when the id is
    truthy, then [vd = vd_data if isinstance(vd_data, dict) else {}]. *)
Definition fetch_detail (item_id : value) : fetching (pydict * bool) :=
  if truthy item_id then
    '(vd_data, vd_ok) ←@ safe_get_pair (API_BASE +:+ "/video/" +:+ py_str item_id);
    fetch_ret (match vd_data with VDict vd => vd | _ => [] end, vd_ok)
  else fetch_ret ([], false).

Definition video_record (v vd : pydict) (vd_ok : bool) : value :=
  let vid := py_get v "id" in
  VDict
    [("id", str_or_none vid);
     ("name", py_get_or v "name" (VStr ""));
     ("published_at", py_get_or v "published_at" (VStr ""));
     ("thumb", py_get_or v "thumb" (VStr ""));
     ("type", py_get_or v "type" (VStr ""));
     ("pdfs", match py_get v "pdfs" with VNone => VList [] | pdfs => pdfs end);
     ("m3u", detail_field vd vd_ok "video_url" (VStr "") (VStr ""));
     ("yt", detail_field vd vd_ok "hd_video_url" (VStr "") (VStr ""));
     ("video_pdfs", detail_field vd vd_ok "pdfs" VNone VNone)].

Definition note_record (n nd : pydict) (nd_ok : bool) : value :=
  let nid := py_get n "id" in
  VDict
    [("id", str_or_none nid);
     ("name", py_get_or n "name" (VStr ""));
     ("published_at", py_get_or n "published_at" (VStr ""));
     ("thumb", py_get_or n "thumb" (VStr ""));
     ("type", py_get_or n "type" (VStr "pdf"));
     ("resolved_url", detail_field nd nd_ok "video_url" (VStr "") (VStr ""));
     ("yt", detail_field nd nd_ok "hd_video_url" (VStr "") (VStr ""));
     ("pdfs", detail_field nd nd_ok "pdfs" VNone VNone)].

(** The loops [for v in ensure_list(lesson_data.get("videos"))] and
    [for n in ensure_list(lesson_data.get("notes"))]; [record] is the
    literal appended and [out] the list built so far. *)
Fixpoint fetch_items (record : pydict → pydict → bool → value)
    (items : list value) (out : list value) : fetching (list value) :=
  match items with
  | [] => fetch_ret out
  | VDict v :: rest =>
      '(vd, vd_ok) ←@ fetch_detail (py_get v "id");
      fetch_items record rest (out ++ [record v vd vd_ok])
  | _ :: rest => fetch_items record rest out
  end.

Definition lesson_record (cls lesson_data : pydict) (lesson_id : value)
    (videos_out notes_out : list value) : value :=
  VDict
    [("lesson_id",
      VStr (match py_get lesson_data "id" with
            | VNone => py_str lesson_id
            | id => py_str id
            end));
     ("lesson_name",
      py_or (py_get_or lesson_data "name" (VStr ""))
        (py_get_or cls "name" (VStr "")));
     ("teacher", py_get_or lesson_data "teacher" (VDict []));
     ("video_count", VInt (Z.of_nat (length videos_out)));
     ("note_count", VInt (Z.of_nat (length notes_out)));
     ("lesson_count",
      VInt (Z.of_nat (length videos_out) + Z.of_nat (length notes_out)));
     ("videos", VList videos_out);
     ("notes", VList notes_out)].

(** The loop [for cls in classroom]; [lessons] is [out["lessons"]]. *)
Fixpoint fetch_lessons (classroom : list value) (lessons : list value)
    : fetching (list value) :=
  match classroom with
  | [] => fetch_ret lessons
  | VDict cls :: rest =>
      let lesson_id := py_get cls "id" in
      if negb (truthy lesson_id) then fetch_lessons rest lessons
      else
        r ←@ safe_get_pair (API_BASE +:+ "/lesson/" +:+ py_str lesson_id);
        match r with
        | (VDict lesson_data, true) =>
            videos_out ←@ fetch_items video_record
                            (ensure_list (py_get lesson_data "videos")) [];
            notes_out ←@ fetch_items note_record
                           (ensure_list (py_get lesson_data "notes")) [];
            fetch_lessons rest
              (lessons
               ++ [lesson_record cls lesson_data lesson_id videos_out notes_out])
        | _ => fetch_lessons rest lessons
        end
  | _ :: rest => fetch_lessons rest lessons
  end.

(** [out["_ok"][flag] = bool(ok)] *)
Definition set_ok_flag (out : pydict) (flag : string) (ok : bool) : pydict :=
  match py_get out "_ok" with
  | VDict flags => dict_set out "_ok" (VDict (dict_set flags flag (VBool ok)))
  | _ => out
  end.

(** [fetched_at] is the clock reading [datetime.now(...).isoformat()]. *)
Definition fetch_course_details (course : pydict) (rank total : Z)
    (fetched_at : string) : fetching pydict :=
  let cid := py_get course "id" in
  let cname := py_or (py_get course "title") (VStr "") in
  let out : pydict :=
    [("ranking", VInt rank);
     ("course_id", str_or_none cid);
     ("course_name", cname);
     ("category_id", py_get course "category_id");
     ("start_at", py_get course "start_at");
     ("end_at", py_get course "end_at");
     ("image_large", py_get course "image_large");
     ("image_thumb", py_get course "image_thumb");
     ("classroom", VList []);
     ("lessons", VList []);
     ("announcements", VList []);
     ("lesson_count", VInt 0);
     ("fetched_at", VStr fetched_at);
     ("_ok", VDict [("classroom", VBool false); ("updates", VBool false)])] in
  '(classroom_data, classroom_ok) ←@
    safe_get_pair (API_BASE +:+ "/classroom/" +:+ py_str cid);
  let out := set_ok_flag out "classroom" classroom_ok in
  out ←@ match classroom_data with
         | VDict payload =>
             if classroom_ok then
               let classroom := ensure_list (py_get payload "classroom") in
               let out := dict_set out "classroom" (VList classroom) in
               lessons ←@ fetch_lessons classroom [];
               fetch_ret (dict_set out "lessons" (VList lessons))
             else fetch_ret out
         | _ => fetch_ret out
         end;
  '(updates_data, updates_ok) ←@
    safe_get_pair (API_BASE +:+ "/updates/" +:+ py_str cid);
  let out := set_ok_flag out "updates" updates_ok in
  let out :=
    if updates_ok
    then dict_set out "announcements" (VList (ensure_list updates_data))
    else out in
  let lessons :=
    match py_get_or out "lessons" (VList []) with
    | VList l => l
    | _ => []
    end in
  match sum_lesson_counts lessons 0 with
  | Some total => fetch_ret (dict_set out "lesson_count" (VInt total))
  | None => λ _, None
  end.

(** ** Store and top-level pipeline *)

(** The store file, seen through [json.load]: absent, holding JSON, or
    holding text that does not parse. *)
Inductive store_file : Type :=
  | FileMissing
  | FileJson (data : value)
  | FileGarbage.

Record files : Type := mk_files {
  master_file : store_file;
  skip_push : option string
}.

(** The loop of [load_master_json] that rewrites [course_id]. *)
Definition canonical_course_id (c : value) : value :=
  match c with
  | VDict d =>
      match py_get d "course_id" with
      | VNone => c
      | id => VDict (dict_set d "course_id" (VStr (py_str id)))
      end
  | _ => c
  end.

(** [None] renders the [RuntimeError]. *)
Definition load_master_json (fs : files) : option (list value) :=
  match master_file fs with
  | FileMissing => Some []
  | FileJson (VList data) => Some (map canonical_course_id data)
  | FileJson _ => None
  | FileGarbage => None
  end.

(** [json.dump(data, f, ensure_ascii=False, indent=2)] writes every
    string of [data], the keys included, as it is into a file opened
    with [encoding="utf-8"].  A string with a lone surrogate, which
    [r.json()] and [json.load] accept, cannot be encoded, and the write
    raises [UnicodeEncodeError]; which strings can be encoded is a
    matter of their characters, not of the program. *)
Variable utf8_encodable : string → bool.

Fixpoint json_writable (v : value) : bool :=
  match v with
  | VStr s => utf8_encodable s
  | VList l => forallb json_writable l
  | VDict d => forallb (λ kv, utf8_encodable kv.1 && json_writable kv.2) d
  | _ => true
  end.

(** [None] renders the [UnicodeEncodeError]: the temporary file is left
    behind, half written, and [os.replace] is not reached, so the store
    file is what it was.  Otherwise the temporary file is renamed over
    the store file, and only the store file is left changed. *)
Definition save_master_json (data : list value) (fs : files) : option files :=
  if json_writable (VList data)
  then Some (mk_files (FileJson (VList data)) (skip_push fs))
  else None.

Definition write_skip_push (fs : files) : files :=
  mk_files (master_file fs) (Some "1").

(** How [main] ends. *)
Inductive termination : Type :=
  | Returned
  | SystemExit (code : Z)
  | Uncaught.

(** The calls of [main] that a property of the pipeline may speak of. *)
Inductive call : Type :=
  | CallUpsert (course_id : value)
  | CallSave (data : list value)
  | CallSkipPush.

(** [any(r.get("_ok", {}).get("classroom") or r.get("_ok", {}).get("updates")
         for r in results)]; [.get] raises on flags that are no mapping. *)
Fixpoint any_ok_anywhere (results : list pydict) : option bool :=
  match results with
  | [] => Some false
  | r :: rest =>
      match py_get_or r "_ok" (VDict []) with
      | VDict ok =>
          if truthy (py_or (py_get ok "classroom") (py_get ok "updates"))
          then Some true
          else any_ok_anywhere rest
      | _ => None
      end
  end.

(** The loop [for r in results] with its [upsert_course] calls. *)
Fixpoint upsert_all (results : list pydict) (master_json : list value)
    (log : list call) : option (list value) * list call :=
  match results with
  | [] => (Some master_json, log)
  | r :: rest =>
      let cid := py_get r "course_id" in
      if truthy cid then
        match upsert_course master_json cid r with
        | Some master_json' => upsert_all rest master_json' (log ++ [CallUpsert cid])
        | None => (None, log ++ [CallUpsert cid])
        end
      else upsert_all rest master_json log
  end.

(** [c.pop("_ok", None)] on every mapping of the store. *)
Definition strip_ok (c : value) : value :=
  match c with
  | VDict d => VDict (dict_pop d "_ok")
  | _ => c
  end.

(** [main] from the outage check on: [results] are the snapshots the
    thread pool collected, in completion order. *)
Definition main_after_harvest (master_json : list value) (results : list pydict)
    (fs : files) : termination * files * list call :=
  match any_ok_anywhere results with
  | None => (Uncaught, fs, [])
  | Some false => (SystemExit 0, write_skip_push fs, [CallSkipPush])
  | Some true =>
      match upsert_all results master_json [] with
      | (None, log) => (Uncaught, fs, log)
      | (Some master_json, log) =>
          let master_json := map strip_ok master_json in
          match save_master_json master_json fs with
          | Some fs' => (Returned, fs', log ++ [CallSave master_json])
          | None => (Uncaught, fs, log ++ [CallSave master_json])
          end
      end
  end.

(** The keyword patterns are built from the environment; [title_matches]
    is [any(p.search(title) for p in keyword_patterns)] on the lowered
    title, and [raises] the [AttributeError] of [.lower()] on a truthy
    title that is no string. *)
Variable title_matches : string → bool.

Fixpoint filter_courses (batches : list value) : option (list pydict) :=
  match batches with
  | [] => Some []
  | VDict item :: rest =>
      match py_or (py_get item "title") (VStr "") with
      | VStr title =>
          rest' ← filter_courses rest;
          Some (if title_matches title then item :: rest' else rest')
      | _ => None
      end
  | _ :: rest => filter_courses rest
  end.

(** The thread pool: [harvest] runs [fetch_course_details] on every
    filtered course and hands back the snapshots in completion order. *)
Variable BATCHES_URL : string.
Variable harvest : list pydict → list pydict.

Definition main (w : network) (fs : files) : termination * files * list call :=
  match safe_get BATCHES_URL w with
  | (Overflows, _) => (Uncaught, fs, [])
  | (Gives None, _) => (Uncaught, fs, [])
  | (Gives (Some (batches_data, batches_ok)), _) =>
      let batches := ensure_list batches_data in
      if negb batches_ok || negb (truthy (VList batches)) then
        (SystemExit 0, write_skip_push fs, [CallSkipPush])
      else
        match filter_courses batches with
        | None => (Uncaught, fs, [])
        | Some [] =>
            match load_master_json fs with
            | Some data =>
                match save_master_json data fs with
                | Some fs' => (Returned, fs', [CallSave data])
                | None => (Uncaught, fs, [CallSave data])
                end
            | None => (Uncaught, fs, [])
            end
        | Some filtered_courses =>
            match load_master_json fs with
            | Some master_json =>
                main_after_harvest master_json (harvest filtered_courses) fs
            | None => (Uncaught, fs, [])
            end
        end
  end.

(** * Vocabulary of the properties *)

(** What one round of the loop of [merge_dict_fill_only] does to
    [existing] for the item [(k, v)] of [new]. *)
Definition merge_field (existing : pydict) (k : string) (v : value) : pydict :=
  match v with
  | VDict items =>
      let existing :=
        if is_dict (py_get existing k) then existing
        else dict_set existing k (VDict []) in
      match py_get existing k with
      | VDict sub => dict_set existing k (VDict (merge_dict_fill_only sub items))
      | _ => existing
      end
  | VList _ =>
      if is_list (py_get existing k) then existing
      else dict_set existing k (VList [])
  | _ => merge_scalar_fill_only existing k v
  end.

(** [as_list x] is the list the merges work on when handed [x]. *)
Definition as_list (x : value) : list value :=
  match x with VList l => l | _ => [] end.

(** [filled_from news x y]: [y] is [x] after any number of deep
    structural merges with mappings taken from [news]. *)
Inductive filled_from (news : list value) : value → value → Prop :=
  | filled_same x : filled_from news x x
  | filled_more x t d :
      filled_from news x (VDict t) →
      VDict d ∈ news →
      filled_from news x (VDict (merge_dict_fill_only t d)).

(** Every entry of the index points at a mapping of the list. *)
Definition index_sound (existing_list : list value) (index : gmap string nat) : Prop :=
  ∀ sid i, index !! sid = Some i → ∃ t, existing_list !! i = Some (VDict t).

(** The state of the second loop after the items [done] of [news]:
    position by position the list is [existing ++ origin] enriched, where
    [origin] are the appended items, in the order of [news]. *)
Definition keyed_merge_inv (news existing done : list value)
    (st : list value * gmap string nat) : Prop :=
  index_sound st.1 st.2
  ∧ ∃ origin,
      origin `sublist_of` done
      ∧ Forall2 (filled_from news) (existing ++ origin) st.1.

(** The key under which the index knows an item: [str(item.get(key))]
    when the item is a mapping and that value is usable. *)
Definition item_key (key : string) (item : value) : option string :=
  match item with
  | VDict d =>
      if usable_key (py_get d key) then Some (py_str (py_get d key)) else None
  | _ => None
  end.

(** Every entry of the fingerprint index points into the list. *)
Definition fp_index_inv (l : list value) (idx : gmap string nat) : Prop :=
  ∀ fp j, idx !! fp = Some j → (j < length l)%nat.

(** Every entry that [d] stores under [k] satisfies [p]. *)
Definition field_ok (p : value → bool) (k : string) (d : pydict) : bool :=
  forallb (λ kv, if String.eqb kv.1 k then p kv.2 else true) d.

Definition is_scalar (v : value) : bool := negb (is_dict v) && negb (is_list v).

(** A persisted entity record has a classroom list, a lessons list and
    a derived count. *)
Definition has_classroom_sections (record : pydict) : bool :=
  is_list (py_get record "classroom")
  && is_list (py_get record "lessons")
  && negb (is_blank (py_get record "lesson_count")).

(** A snapshot carries its classroom entries and its lessons as lists
    (possibly empty) and its count as a number. *)
Definition snapshot_sections (new_course : pydict) : bool :=
  field_ok is_list "classroom" new_course
  && field_ok is_list "lessons" new_course
  && field_ok is_scalar "lesson_count" new_course.

(** The section-success flag [bool(ok.get(section))] of a snapshot;
    [None] when [_ok] holds something on which [.get] raises. *)
Definition ok_flag (new_course : pydict) (section : string) : option bool :=
  match py_or (py_get new_course "_ok") (VDict []) with
  | VDict ok => Some (truthy (py_get ok section))
  | _ => None
  end.

(** The network after [n] calls of [session.get] on [url], and what the
    next call does. *)
Fixpoint run_attempts (n : nat) (url : string) (w : network) : network :=
  match n with
  | O => w
  | S n' => run_attempts n' url (session_get url w).2
  end.

Definition outcome_at (n : nat) (url : string) (w : network) : attempt_outcome :=
  (session_get url (run_attempts n url w)).1.

(** A transient failure: a server-error status or a transport error. *)
Definition retryable (o : attempt_outcome) : bool :=
  match o with
  | Raises => true
  | Responds code _ => transient code
  end.

(** What [safe_get] returns on an outcome that is not retried. *)
Definition settle (o : attempt_outcome) : value * bool :=
  match o with
  | Responds code (Some data) => if code =? 200 then (data, true) else (VNone, false)
  | _ => (VNone, false)
  end.

(** Both section-success flags of a collected snapshot are false. *)
Definition both_flags_off (r : pydict) : bool :=
  match py_get_or r "_ok" (VDict []) with
  | VDict ok =>
      negb (truthy (py_get ok "classroom")) && negb (truthy (py_get ok "updates"))
  | _ => false
  end.

(** The snapshot that [fetch_course_details] returns, as a function of
    what the network gave. *)
Definition snapshot_of (course : pydict) (rank : Z) (fetched_at : string)
    (classroom lessons announcements : list value) (total : Z)
    (classroom_ok updates_ok : bool) : pydict :=
  [("ranking", VInt rank);
   ("course_id", str_or_none (py_get course "id"));
   ("course_name", py_or (py_get course "title") (VStr ""));
   ("category_id", py_get course "category_id");
   ("start_at", py_get course "start_at");
   ("end_at", py_get course "end_at");
   ("image_large", py_get course "image_large");
   ("image_thumb", py_get course "image_thumb");
   ("classroom", VList classroom);
   ("lessons", VList lessons);
   ("announcements", VList announcements);
   ("lesson_count", VInt total);
   ("fetched_at", VStr fetched_at);
   ("_ok", VDict [("classroom", VBool classroom_ok); ("updates", VBool updates_ok)])].

(** The counts of a lesson record agree with its lists ([list_len_of]
    is the length the program itself takes: 0 when the field is no
    list).  Entries of a lessons list that are no mapping are no lesson
    records. *)
Definition lesson_counts_ok (lesson : value) : Prop :=
  match lesson with
  | VDict d =>
      py_get d "video_count" = VInt (list_len_of d "videos")
      ∧ py_get d "note_count" = VInt (list_len_of d "notes")
      ∧ py_get d "lesson_count"
        = VInt (list_len_of d "videos" + list_len_of d "notes")
  | _ => True
  end.

Definition lesson_count_of (lesson : value) : Z :=
  match lesson with
  | VDict d => match py_get d "lesson_count" with VInt n => n | _ => 0 end
  | _ => 0
  end.

(** The sum of [lesson_count] over the lessons. *)
Definition lesson_total (lessons : list value) : Z :=
  foldr (λ lesson acc, lesson_count_of lesson + acc) 0 lessons.

(** The lessons of a record and its entity-level count. *)
Definition lessons_of (record : pydict) : list value :=
  as_list (py_get record "lessons").

Definition record_counts_ok (record : pydict) : Prop :=
  Forall lesson_counts_ok (lessons_of record)
  ∧ py_get record "lesson_count" = VInt (lesson_total (lessons_of record)).

(** A stored identifier is canonical when it is a string, or [None]
    when the source gave none. *)
Definition id_canonical (v : value) : bool :=
  match v with
  | VStr _ | VNone => true
  | _ => false
  end.

Definition is_str (v : value) : bool :=
  match v with VStr _ => true | _ => false end.

Definition item_id_canonical (item : value) : bool :=
  match item with
  | VDict d => id_canonical (py_get d "id")
  | _ => true
  end.

Definition lesson_ids_canonical (lesson : value) : bool :=
  match lesson with
  | VDict d =>
      is_str (py_get d "lesson_id")
      && forallb item_id_canonical (as_list (py_get d "videos"))
      && forallb item_id_canonical (as_list (py_get d "notes"))
  | _ => true
  end.

(** The entity id, the lesson ids and the ids of videos and notes. *)
Definition built_ids_canonical (record : pydict) : bool :=
  id_canonical (py_get record "course_id")
  && forallb lesson_ids_canonical (lessons_of record).

(** All identifiers of a snapshot, those of the classroom entries and
    of the announcement items included. *)
Definition all_ids_canonical (record : pydict) : bool :=
  built_ids_canonical record
  && forallb item_id_canonical (as_list (py_get record "classroom"))
  && forallb item_id_canonical (as_list (py_get record "announcements")).

(** The index built from [l]: an entry for [sid] points at an item of
    [l] whose key is [sid], and every key of [l] has an entry. *)
Definition index_exact (key : string) (l : list value) (index : gmap string nat)
    : Prop :=
  ∀ sid i, index !! sid = Some i → ∃ x, l !! i = Some x ∧ item_key key x = Some sid.

Definition index_covers (key : string) (items : list value)
    (index : gmap string nat) : Prop :=
  ∀ x sid, x ∈ items → item_key key x = Some sid → is_Some (index !! sid).

(** ** Vocabulary of the further properties *)

(** The condition under which one round of [merge_dict_fill_only] for
    the item [(k, v)] writes nothing into [x]. *)
Definition absorbed (x : pydict) (k : string) (v : value) : Prop :=
  match v with
  | VDict items =>
      ∃ sub, dict_get x k = Some (VDict sub)
             ∧ merge_dict_fill_only sub items = sub
  | VList _ => is_list (py_get x k) = true
  | _ => is_blank (py_get x k) && negb (is_blank v) = false
  end.

(** What the deep structural merge leaves under a key for which [new]
    holds [v], given what [existing] holds there. *)
Definition merged_field (existing : pydict) (k : string) (v : value) : value :=
  match v with
  | VDict items =>
      VDict (merge_dict_fill_only
               (match py_get existing k with VDict sub => sub | _ => [] end)
               items)
  | VList _ =>
      if is_list (py_get existing k) then py_get existing k else VList []
  | _ =>
      if is_blank (py_get existing k) && negb (is_blank v) then v
      else py_get existing k
  end.

(** The canonical keys of the entries of a list, in order. *)
Definition keys_of (key : string) (l : list value) : list string :=
  omap (item_key key) l.

(** The value under [key] is a scalar in every mapping of the list. *)
Definition scalar_keys (key : string) (l : list value) : bool :=
  forallb (λ x, match x with
                | VDict d => is_scalar (py_get d key)
                | _ => true
                end) l.

(** The state of the second loop of [merge_list_by_key]: the index
    knows exactly the keys of the list, each key occurs once, and the
    keys in [seen] are among them. *)
Definition unique_keys_inv (key : string) (seen : list string)
    (st : list value * gmap string nat) : Prop :=
  index_exact key st.1 st.2
  ∧ index_covers key st.1 st.2
  ∧ NoDup (keys_of key st.1)
  ∧ ∀ sid, sid ∈ seen → is_Some (st.2 !! sid).

(** The state of the loop of [merge_list_by_fingerprint] after the
    items [done] of [news]. *)
Definition fp_merge_inv (news existing done : list value)
    (st : list value * gmap string nat) : Prop :=
  fp_index_inv st.1 st.2
  ∧ ∃ origin,
      origin `sublist_of` done
      ∧ Forall2 (filled_from news) (existing ++ origin) st.1.

(** The identifier fields that [fingerprint] tries, in its order, and
    the field it settles on for a mapping: the first one whose value is
    not blank. *)
Definition id_fields : list string := ["id"; "notice_id"; "_id"; "update_id"].

Fixpoint first_id (item : pydict) (ks : list string) : option (string * value) :=
  match ks with
  | [] => None
  | k :: ks' =>
      if is_blank (py_get item k) then first_id item ks'
      else Some (k, py_get item k)
  end.

(** The fields that the two section merges of [merge_course] assign. *)
Definition section_keys : list string :=
  ["classroom"; "lessons"; "lesson_count"; "announcements"].

(** [r] has the fields of [d] in the order of [d], then possibly more;
    and no repeated field when [d] has none. *)
Definition keeps_fields (d r : pydict) : Prop :=
  ∃ added, r.*1 = d.*1 ++ added ∧ (NoDup d.*1 → NoDup r.*1).

(** The three lists of a snapshot are lists. *)
Definition snapshot_lists (new_course : pydict) : bool :=
  field_ok is_list "classroom" new_course
  && field_ok is_list "lessons" new_course
  && field_ok is_list "announcements" new_course.

Definition entries (record : pydict) (k : string) : list value :=
  as_list (py_get record k).

(** The id under which [upsert_course] knows a record of the store:
    [str(c.get("course_id"))]. *)
Definition record_id (c : value) : option string :=
  match c with
  | VDict d => Some (py_str (py_get d "course_id"))
  | _ => None
  end.

Definition store_ids (master_json : list value) : list string :=
  omap record_id master_json.

(** A snapshot as [main] hands it to [upsert_course]: a mapping without
    repeated field whose [course_id] is the scalar [course_id]. *)
Definition upsert_args (course_id : value) (new_course : pydict) : Prop :=
  NoDup new_course.*1
  ∧ py_get new_course "course_id" = course_id
  ∧ is_scalar course_id = true.

(** A record of the store without repeated field, as every mapping
    parsed from JSON is; a record without the transient flags; a
    snapshot as the resolver builds it. *)
Definition record_fields_unique (c : value) : Prop :=
  ∀ d, c = VDict d → NoDup d.*1.

Definition no_flags (c : value) : Prop :=
  ∀ d, c = VDict d → dict_get d "_ok" = None.

Definition harvested (r : pydict) : Prop :=
  NoDup r.*1 ∧ is_scalar (py_get r "course_id") = true.

Definition is_upsert (c : call) : Prop := ∃ course_id, c = CallUpsert course_id.

(** [c'] is the record [c] as [load_master_json] hands it on: the same
    fields in the same order, [course_id] as a string when it is
    known. *)
Definition reloaded (c c' : value) : Prop :=
  match c with
  | VDict d =>
      ∃ d', c' = VDict d'
            ∧ d'.*1 = d.*1
            ∧ (∀ k, k ≠ "course_id" → dict_get d' k = dict_get d k)
            ∧ py_get d' "course_id" = str_or_none (py_get d "course_id")
  | _ => c' = c
  end.

(** No request gets a 200 response with a body that parses. *)
Definition network_down : Prop :=
  ∀ url w data, (session_get url w).1 ≠ Responds 200 (Some data).

(** The title that the keyword filter of [main] looks at, and the
    mappings of the catalogue. *)
Definition title_of (item : pydict) : value :=
  py_or (py_get item "title") (VStr "").

Definition wanted (item : pydict) : bool :=
  match title_of item with
  | VStr title => title_matches title
  | _ => false
  end.

Definition as_dict (x : value) : option pydict :=
  match x with VDict d => Some d | _ => None end.

(** A record built by [record] from the listed item [v] and some
    detail lookup, and a lesson built from the classroom entry [cls]. *)
Definition built_by (record : pydict → pydict → bool → value) (v : pydict)
    (rec : value) : Prop :=
  ∃ vd vd_ok, rec = record v vd vd_ok.

Definition lesson_built_from (cls : pydict) (lesson : value) : Prop :=
  truthy (py_get cls "id") = true
  ∧ ∃ lesson_data videos notes,
      lesson = lesson_record cls lesson_data (py_get cls "id") videos notes
      ∧ Forall2 (built_by video_record)
          (omap as_dict (ensure_list (py_get lesson_data "videos"))) videos
      ∧ Forall2 (built_by note_record)
          (omap as_dict (ensure_list (py_get lesson_data "notes"))) notes.

(** The fields of a snapshot, in the order of the literal. *)
Definition snapshot_fields : list string :=
  ["ranking"; "course_id"; "course_name"; "category_id"; "start_at"; "end_at";
   "image_large"; "image_thumb"; "classroom"; "lessons"; "announcements";
   "lesson_count"; "fetched_at"; "_ok"].

(** How the lesson loop of [merge_course] leaves a lesson [x] of the
    record, once the snapshot lessons with the keys [processed] went
    through it: a lesson with one of these keys has been recounted, a
    lesson with another key is a lesson of [old] as it was, and a
    lesson without a key is one of [old] or one of [news] as it was. *)
Definition lesson_settled (old news : list value) (processed : list string)
    (x : value) : Prop :=
  match item_key "lesson_id" x with
  | Some sid =>
      (sid ∈ processed → lesson_counts_ok x) ∧ (sid ∉ processed → x ∈ old)
  | None => x ∈ old ∨ x ∈ news
  end.

(** An item, a lesson and a snapshot as the resolver builds them: a
    mapping without repeated field whose identifier is canonical. *)
Definition item_built (item : value) : Prop :=
  ∀ d, item = VDict d → NoDup d.*1 ∧ id_canonical (py_get d "id") = true.

Definition lesson_built (lesson : value) : Prop :=
  ∀ d, lesson = VDict d →
       NoDup d.*1
       ∧ is_str (py_get d "lesson_id") = true
       ∧ Forall item_built (as_list (py_get d "videos"))
       ∧ Forall item_built (as_list (py_get d "notes")).

Definition snapshot_built (r : pydict) : Prop :=
  NoDup r.*1
  ∧ id_canonical (py_get r "course_id") = true
  ∧ Forall lesson_built (lessons_of r).

(** A record of the store whose entity id, lesson ids and video and
    note ids are canonical, and one of which only the lessons are known
    to be so. *)
Definition record_ids_canonical (c : value) : Prop :=
  ∀ d, c = VDict d → built_ids_canonical d = true.

Definition lessons_canonical (c : value) : Prop :=
  ∀ d, c = VDict d → forallb lesson_ids_canonical (lessons_of d) = true.

(** ** Sample data *)

(** A stand-in for [repr] on strings that need no escaping, and a
    constant for the salted hash. *)
Definition quote_repr (s : string) : string := "'" +:+ s +:+ "'".
Definition flat_hash (s : string) : Z := 0.

Definition distinct_items : list value :=
  [VDict [("id", VInt 1); ("a", VStr "x")];
   VDict [("id", VStr "2"); ("a", VStr "")];
   VInt 7;
   VDict [("n", VNone)]].

(** Two entries with the same id: the second one is [existing_list[index["1"]]],
    and merging the first one into it fills its blank field. *)
Definition twin_items : list value :=
  [VDict [("id", VInt 1); ("a", VStr "x")];
   VDict [("id", VInt 1); ("a", VStr "")]].

Definition twin_items_merged : list value :=
  [VDict [("id", VInt 1); ("a", VStr "x")];
   VDict [("id", VInt 1); ("a", VStr "x")]].

(** The id of the second entry is the string form of the id of the
    first, a list. *)
Definition alias_items : list value :=
  [VDict [("id", VList [VInt 1; VInt 2])];
   VDict [("id", VStr "[1, 2]")]].

Definition persisted_course : pydict :=
  [("course_id", VStr "5");
   ("course_name", VStr "");
   ("classroom", VList [VDict [("id", VStr "c1")]]);
   ("lessons",
    VList [VDict [("lesson_id", VStr "L1"); ("video_count", VInt 1);
                  ("note_count", VInt 0); ("lesson_count", VInt 1);
                  ("videos", VList [VDict [("id", VStr "v1")]]);
                  ("notes", VList [])]]);
   ("announcements", VList []);
   ("lesson_count", VInt 1)].

Definition updates_only_snapshot : pydict :=
  [("course_id", VStr "5");
   ("course_name", VStr "72 bpsc prelims");
   ("classroom", VList []);
   ("lessons", VList []);
   ("announcements", VList [VDict [("id", VInt 9); ("content", VStr "hello")]]);
   ("lesson_count", VInt 0);
   ("_ok", VDict [("classroom", VBool false); ("updates", VBool true)])].

(** Two server errors, then a 200 response with a body that parses. *)
Definition flaky_session (url : string) (calls : nat) : attempt_outcome * nat :=
  (if (calls <? 2)%nat then Responds 503 None
   else Responds 200 (Some (VDict [("classroom", VList [])])),
   S calls).

Definition failed_snapshot : pydict :=
  [("course_id", VStr "5");
   ("classroom", VList []);
   ("lessons", VList []);
   ("announcements", VList []);
   ("lesson_count", VInt 0);
   ("_ok", VDict [("classroom", VBool false); ("updates", VBool false)])].

Definition store_before : files :=
  mk_files (FileJson (VList [VDict persisted_course])) None.

Definition catalog_entry : pydict :=
  [("id", VInt 5); ("title", VStr "72 bpsc prelims")].

(** The source supplies numbers for the ids of the classroom entry, of
    the lesson and of the announcement. *)
Definition numeric_ids_session (url : string) (calls : nat)
    : attempt_outcome * nat :=
  (if String.eqb url "https://api/classroom/5" then
     Responds 200 (Some (VDict [("classroom", VList [VDict [("id", VInt 7)]])]))
   else if String.eqb url "https://api/lesson/7" then
     Responds 200 (Some (VDict [("id", VInt 7); ("name", VStr "Intro")]))
   else if String.eqb url "https://api/updates/5" then
     Responds 200 (Some (VList [VDict [("id", VInt 9); ("content", VStr "hello")]]))
   else Responds 404 None,
   S calls).

Definition numeric_ids_snapshot : pydict :=
  [("ranking", VInt 1);
   ("course_id", VStr "5");
   ("course_name", VStr "72 bpsc prelims");
   ("category_id", VNone);
   ("start_at", VNone);
   ("end_at", VNone);
   ("image_large", VNone);
   ("image_thumb", VNone);
   ("classroom", VList [VDict [("id", VInt 7)]]);
   ("lessons",
    VList [VDict [("lesson_id", VStr "7"); ("lesson_name", VStr "Intro");
                  ("teacher", VDict []); ("video_count", VInt 0);
                  ("note_count", VInt 0); ("lesson_count", VInt 0);
                  ("videos", VList []); ("notes", VList [])]]);
   ("announcements", VList [VDict [("id", VInt 9); ("content", VStr "hello")]]);
   ("lesson_count", VInt 0);
   ("fetched_at", VStr "2026-01-01T00:00:00+00:00");
   ("_ok", VDict [("classroom", VBool true); ("updates", VBool true)])].

(** [numeric_ids_snapshot] as the store file holds it after a run that
    started from no store file: the snapshot without its flags. *)
Definition numeric_ids_persisted : pydict :=
  [("ranking", VInt 1);
   ("course_id", VStr "5");
   ("course_name", VStr "72 bpsc prelims");
   ("category_id", VNone);
   ("start_at", VNone);
   ("end_at", VNone);
   ("image_large", VNone);
   ("image_thumb", VNone);
   ("classroom", VList [VDict [("id", VInt 7)]]);
   ("lessons",
    VList [VDict [("lesson_id", VStr "7"); ("lesson_name", VStr "Intro");
                  ("teacher", VDict []); ("video_count", VInt 0);
                  ("note_count", VInt 0); ("lesson_count", VInt 0);
                  ("videos", VList []); ("notes", VList [])]]);
   ("announcements", VList [VDict [("id", VInt 9); ("content", VStr "hello")]]);
   ("lesson_count", VInt 0);
   ("fetched_at", VStr "2026-01-01T00:00:00+00:00")].

(** A later snapshot with the classroom flag set: one more video and a
    note for lesson [L1], and a new lesson [L2]. *)
Definition classroom_snapshot : pydict :=
  [("course_id", VStr "5");
   ("classroom", VList [VDict [("id", VStr "c1")]; VDict [("id", VStr "c2")]]);
   ("lessons",
    VList [VDict [("lesson_id", VStr "L1"); ("video_count", VInt 1);
                  ("note_count", VInt 1); ("lesson_count", VInt 2);
                  ("videos", VList [VDict [("id", VStr "v2")]]);
                  ("notes", VList [VDict [("id", VStr "n1")]])];
           VDict [("lesson_id", VStr "L2"); ("video_count", VInt 0);
                  ("note_count", VInt 0); ("lesson_count", VInt 0);
                  ("videos", VList []); ("notes", VList [])]]);
   ("announcements", VList []);
   ("lesson_count", VInt 2);
   ("_ok", VDict [("classroom", VBool true); ("updates", VBool false)])].

(** The network of the end-to-end scenario: one classroom entry [c1],
    its lesson [L1] with one video [v1], whose detail gives the playback
    address; the updates endpoint fails. *)
Definition scenario_session (url : string) (calls : nat) : attempt_outcome * nat :=
  (if String.eqb url "https://api/classroom/5" then
     Responds 200 (Some (VDict [("classroom", VList [VDict [("id", VStr "c1")]])]))
   else if String.eqb url "https://api/lesson/c1" then
     Responds 200
       (Some (VDict [("id", VStr "L1"); ("name", VStr "Intro");
                     ("videos",
                      VList [VDict [("id", VStr "v1"); ("name", VStr "Lec1")]]);
                     ("notes", VList [])]))
   else if String.eqb url "https://api/video/v1" then
     Responds 200 (Some (VDict [("video_url", VStr "m3u://x")]))
   else Responds 404 None,
   S calls).

Definition scenario_record (with_flags : bool) : pydict :=
  [("ranking", VInt 1);
   ("course_id", VStr "5");
   ("course_name", VStr "72 bpsc prelims");
   ("category_id", VNone);
   ("start_at", VNone);
   ("end_at", VNone);
   ("image_large", VNone);
   ("image_thumb", VNone);
   ("classroom", VList [VDict [("id", VStr "c1")]]);
   ("lessons",
    VList [VDict [("lesson_id", VStr "L1"); ("lesson_name", VStr "Intro");
                  ("teacher", VDict []); ("video_count", VInt 1);
                  ("note_count", VInt 0); ("lesson_count", VInt 1);
                  ("videos",
                   VList [VDict [("id", VStr "v1"); ("name", VStr "Lec1");
                                 ("published_at", VStr ""); ("thumb", VStr "");
                                 ("type", VStr ""); ("pdfs", VList []);
                                 ("m3u", VStr "m3u://x"); ("yt", VStr "");
                                 ("video_pdfs", VNone)]]);
                  ("notes", VList [])]]);
   ("announcements", VList []);
   ("lesson_count", VInt 1);
   ("fetched_at", VStr "2026-01-01T00:00:00+00:00")]
  ++ (if with_flags
      then [("_ok", VDict [("classroom", VBool true); ("updates", VBool false)])]
      else []).

(** The persisted record after [updates_only_snapshot] and after
    [classroom_snapshot] were merged into it. *)
Definition persisted_after_updates : pydict :=
  [("course_id", VStr "5");
   ("course_name", VStr "72 bpsc prelims");
   ("classroom", VList [VDict [("id", VStr "c1")]]);
   ("lessons",
    VList [VDict [("lesson_id", VStr "L1"); ("video_count", VInt 1);
                  ("note_count", VInt 0); ("lesson_count", VInt 1);
                  ("videos", VList [VDict [("id", VStr "v1")]]);
                  ("notes", VList [])]]);
   ("announcements", VList [VDict [("id", VInt 9); ("content", VStr "hello")]]);
   ("lesson_count", VInt 1)].

Definition persisted_after_classroom : pydict :=
  [("course_id", VStr "5");
   ("course_name", VStr "");
   ("classroom", VList [VDict [("id", VStr "c1")]; VDict [("id", VStr "c2")]]);
   ("lessons",
    VList [VDict [("lesson_id", VStr "L1"); ("video_count", VInt 2);
                  ("note_count", VInt 1); ("lesson_count", VInt 3);
                  ("videos",
                   VList [VDict [("id", VStr "v1")]; VDict [("id", VStr "v2")]]);
                  ("notes", VList [VDict [("id", VStr "n1")]])];
           VDict [("lesson_id", VStr "L2"); ("video_count", VInt 0);
                  ("note_count", VInt 0); ("lesson_count", VInt 0);
                  ("videos", VList []); ("notes", VList [])]]);
   ("announcements", VList []);
   ("lesson_count", VInt 3)].

(** A stored record whose lesson [L0] carries counts that disagree
    with its lists: one video, but a [video_count] of 5. *)
Definition stale_lesson : value :=
  VDict [("lesson_id", VStr "L0"); ("video_count", VInt 5);
         ("note_count", VInt 0); ("lesson_count", VInt 5);
         ("videos", VList [VDict [("id", VStr "v0")]]);
         ("notes", VList [])].

Definition stale_course : pydict :=
  [("course_id", VStr "5");
   ("classroom", VList []);
   ("lessons", VList [stale_lesson]);
   ("announcements", VList []);
   ("lesson_count", VInt 5)].

(** [stale_course] after [classroom_snapshot] was merged into it. *)
Definition stale_course_merged : pydict :=
  [("course_id", VStr "5");
   ("classroom", VList [VDict [("id", VStr "c1")]; VDict [("id", VStr "c2")]]);
   ("lessons",
    VList [stale_lesson;
           VDict [("lesson_id", VStr "L1"); ("video_count", VInt 1);
                  ("note_count", VInt 1); ("lesson_count", VInt 2);
                  ("videos", VList [VDict [("id", VStr "v2")]]);
                  ("notes", VList [VDict [("id", VStr "n1")]])];
           VDict [("lesson_id", VStr "L2"); ("video_count", VInt 0);
                  ("note_count", VInt 0); ("lesson_count", VInt 0);
                  ("videos", VList []); ("notes", VList [])]]);
   ("announcements", VList []);
   ("lesson_count", VInt 7)].

(** A server that answers every request with a server error. *)
Definition down_session (url : string) (calls : nat) : attempt_outcome * nat :=
  (Responds 503 None, S calls).

(** A stored teacher name, and a snapshot that carries the teacher as
    an empty mapping. *)
Definition named_teacher : pydict := [("teacher", VStr "Mr X")].
Definition blank_teacher : pydict := [("teacher", VDict [])].

(** * Properties *)

(** ** Dictionaries *)

Lemma dict_get_set_eq (d : pydict) k v : dict_get (dict_set d k v) k = Some v.
Proof.
  induction d as [|[k' v'] d IH]; simpl.
  - by rewrite String.eqb_refl.
  - destruct (String.eqb k' k) eqn:E; simpl; by rewrite E.
Qed.

Lemma dict_get_set_ne (d : pydict) k k' v :
  k' ≠ k → dict_get (dict_set d k v) k' = dict_get d k'.
Proof.
  intros Hne. induction d as [|[k0 v0] d IH]; simpl.
  - destruct (String.eqb k k') eqn:E; [|done].
    apply String.eqb_eq in E. congruence.
  - destruct (String.eqb k0 k) eqn:E; simpl; [|by rewrite IH].
    apply String.eqb_eq in E. subst k0.
    destruct (String.eqb k k') eqn:E'; [|done].
    apply String.eqb_eq in E'. congruence.
Qed.

Lemma py_get_set_eq (d : pydict) k v : py_get (dict_set d k v) k = v.
Proof. unfold py_get. by rewrite dict_get_set_eq. Qed.

Lemma py_get_set_ne (d : pydict) k k' v :
  k' ≠ k → py_get (dict_set d k v) k' = py_get d k'.
Proof. intros. unfold py_get. by rewrite dict_get_set_ne. Qed.

Lemma dict_set_same (d : pydict) k v : dict_get d k = Some v → dict_set d k v = d.
Proof.
  induction d as [|[k' v'] d IH]; simpl; [done|].
  destruct (String.eqb k' k); [congruence|].
  intros H. by rewrite IH.
Qed.

Lemma dict_set_length (d : pydict) k v :
  length (dict_set d k v) = if dict_get d k is Some _ then length d else S (length d).
Proof.
  induction d as [|[k' v'] d IH]; simpl; [done|].
  destruct (String.eqb k' k); simpl; [done|].
  rewrite IH. by destruct (dict_get d k).
Qed.

(** ** Blankness *)

Lemma is_blank_iff x :
  is_blank x = true ↔ x = VNone ∨ x = VStr "" ∨ x = VList [] ∨ x = VDict [].
Proof.
  unfold is_blank. split.
  - destruct x as [|b|n|s|l|d]; simpl; try done; intros H.
    + by left.
    + right; left. destruct s; [done|discriminate].
    + right; right; left. destruct l; [done|discriminate].
    + right; right; right. destruct d; [done|discriminate].
  - intros [->|[->|[->| ->]]]; done.
Qed.

Lemma is_blank_scalar_number x :
  x = VInt 0 ∨ x = VBool false → is_blank x = false.
Proof. by intros [-> | ->]. Qed.

(** ** Fill-only scalar merge *)

Lemma merge_scalar_fill_only_get (d : pydict) k n :
  py_get (merge_scalar_fill_only d k n) k
  = if is_blank (py_get d k) && negb (is_blank n) then n else py_get d k.
Proof.
  unfold merge_scalar_fill_only.
  destruct (is_blank (py_get d k) && negb (is_blank n)); [|done].
  apply py_get_set_eq.
Qed.

Lemma merge_scalar_fill_only_other (d : pydict) k k' n :
  k' ≠ k → dict_get (merge_scalar_fill_only d k n) k' = dict_get d k'.
Proof.
  intros Hne. unfold merge_scalar_fill_only.
  destruct (is_blank (py_get d k) && negb (is_blank n)); [|done].
  by apply dict_get_set_ne.
Qed.

(** ** Deep structural merge: one field at a time *)

Lemma merge_dict_fill_only_nil (existing : pydict) :
  merge_dict_fill_only existing [] = existing.
Proof. done. Qed.

Lemma merge_dict_fill_only_cons (existing : pydict) k v (rest : pydict) :
  merge_dict_fill_only existing ((k, v) :: rest)
  = merge_dict_fill_only (merge_field existing k v) rest.
Proof. unfold merge_dict_fill_only. simpl. by destruct v. Qed.

Lemma merge_field_other (existing : pydict) k k' v :
  k' ≠ k → dict_get (merge_field existing k v) k' = dict_get existing k'.
Proof.
  intros Hne. unfold merge_field. destruct v as [|b|n|s|l|items];
    try by apply merge_scalar_fill_only_other.
  - destruct (is_list (py_get existing k)); [done|]. by apply dict_get_set_ne.
  - destruct (is_dict (py_get existing k)) eqn:E.
    + destruct (py_get existing k); try done. by apply dict_get_set_ne.
    + rewrite py_get_set_eq. by rewrite !dict_get_set_ne.
Qed.

(** ** Keyed list merge: structure of the result *)

Lemma filled_from_is_dict news x y :
  filled_from news x y → is_dict y = true → is_dict x = true.
Proof. induction 1; auto. Qed.

Lemma filled_from_atom news x y :
  filled_from news x y → is_dict x = false → y = x.
Proof.
  intros H Hx. destruct H as [|x t d H _]; [done|].
  apply filled_from_is_dict in H; [congruence|done].
Qed.

Lemma Forall2_update_r {A B} (R : A → B → Prop) l k i x y :
  Forall2 R l k → l !! i = Some x → R x y → Forall2 R l (<[i:=y]> k).
Proof.
  intros HF Hl HR. rewrite <-(list_insert_id l i x Hl).
  by apply Forall2_insert.
Qed.

Lemma index_sound_insert l index sid i t :
  index_sound l index → l !! i = Some (VDict t) →
  index_sound l (<[sid:=i]> index).
Proof.
  intros Hs Hl sid' j. rewrite lookup_insert. case_decide; [|apply Hs].
  intros [= <-]. eauto.
Qed.

Lemma index_sound_snoc l index x :
  index_sound l index → index_sound (l ++ [x]) index.
Proof.
  intros Hs sid i Hi. destruct (Hs sid i Hi) as [t Ht]. exists t.
  rewrite lookup_app_l; [done|]. by eapply lookup_lt_Some.
Qed.

Lemma index_sound_update l index i t :
  index_sound l index → index_sound (<[i:=VDict t]> l) index.
Proof.
  intros Hs sid j Hj. destruct (Hs sid j Hj) as [t' Ht'].
  destruct (decide (i = j)) as [->|Hne].
  - exists t. rewrite list_lookup_insert_eq; [done|]. by eapply lookup_lt_Some.
  - exists t'. by rewrite list_lookup_insert_ne.
Qed.

Lemma index_by_key_sound key before items index :
  index_sound (before ++ items) index →
  index_sound (before ++ items) (index_by_key key (length before) items index).
Proof.
  revert before index. induction items as [|item items IH]; intros before index Hs;
    [done|].
  simpl. specialize (IH (before ++ [item])).
  rewrite length_app, Nat.add_1_r, <-!app_assoc in IH. simpl in IH.
  apply IH. destruct item as [| | | | |d]; try done.
  destruct (usable_key (py_get d key)); [|done].
  apply index_sound_insert with d; [done|].
  by rewrite list_lookup_middle.
Qed.

Lemma append_if_absent_cases l x :
  append_if_absent l x = l ∨ append_if_absent l x = l ++ [x].
Proof. unfold append_if_absent. destruct (py_in x l); auto. Qed.

Lemma merge_item_by_key_inv key news existing done st item :
  item ∈ news →
  keyed_merge_inv news existing done st →
  ∃ st', merge_item_by_key key st item = Some st'
         ∧ keyed_merge_inv news existing (done ++ [item]) st'.
Proof.
  intros Hin [Hs (origin & Hsub & HF)]. destruct st as [l index]. simpl in *.
  assert (Hkeep : ∀ index',
    index_sound (append_if_absent l item) index' →
    keyed_merge_inv news existing (done ++ [item]) (append_if_absent l item, index')).
  { intros index' Hs'. split; [done|]. simpl.
    destruct (append_if_absent_cases l item) as [-> | ->].
    - exists origin. split; [by apply sublist_inserts_r|done].
    - exists (origin ++ [item]). split; [by apply sublist_app|].
      rewrite app_assoc. apply Forall2_app; [done|].
      repeat constructor. }
  assert (Hidx : index_sound (append_if_absent l item) index).
  { destruct (append_if_absent_cases l item) as [-> | ->];
      [done|by apply index_sound_snoc]. }
  unfold merge_item_by_key.
  destruct item as [| | | | |d]; try (eexists; split; [done|by apply Hkeep]).
  destruct (usable_key (py_get d key)); [|eexists; split; [done|by apply Hkeep]].
  destruct (index !! py_str (py_get d key)) as [i|] eqn:Hi.
  - destruct (Hs _ _ Hi) as [t Ht]. rewrite Ht. eexists. split; [done|].
    split; simpl; [by apply index_sound_update|].
    exists origin. split; [by apply sublist_inserts_r|].
    destruct (Forall2_lookup_r _ _ _ _ _ HF Ht) as (x & Hx & Hfilled).
    eapply Forall2_update_r; [done..|]. by constructor.
  - eexists. split; [done|]. split; simpl.
    + apply index_sound_insert with d; [by apply index_sound_snoc|].
      by rewrite list_lookup_middle.
    + exists (origin ++ [VDict d]). split; [by apply sublist_app|].
      rewrite app_assoc. apply Forall2_app; [done|]. repeat constructor.
Qed.

Lemma merge_items_by_key_inv key news existing rest : ∀ done st,
  news = done ++ rest →
  keyed_merge_inv news existing done st →
  ∃ st', merge_items_by_key key rest st = Some st'
         ∧ keyed_merge_inv news existing news st'.
Proof.
  induction rest as [|item rest IH]; intros done st Hnews Hinv.
  - rewrite app_nil_r in Hnews. subst. by exists st.
  - destruct (merge_item_by_key_inv key news existing done st item)
      as (st1 & Hst1 & Hinv1); [|done|].
    { rewrite Hnews. apply elem_of_app. right. by left. }
    destruct (IH (done ++ [item]) st1) as (st' & Hst' & Hinv');
      [by rewrite <-app_assoc|done|].
    exists st'. split; [|done]. simpl. by rewrite Hst1.
Qed.

Lemma merge_list_by_key_as_list existing_list new_list key :
  merge_list_by_key existing_list new_list key
  = merge_list_by_key (VList (as_list existing_list)) (VList (as_list new_list)) key.
Proof.
  unfold merge_list_by_key.
  destruct new_list; simpl; try done; by destruct existing_list.
Qed.

(** ** Well-formed values and Python equality *)

Lemma wf_value_dict d :
  wf_value (VDict d) = true →
  NoDup d.*1 ∧ Forall (λ kv, wf_value kv.2 = true) d.
Proof.
  simpl. intros [Hnd Hall]%andb_prop. split.
  - by apply bool_decide_eq_true in Hnd.
  - apply Forall_forall. intros kv Hkv.
    apply (proj1 (forallb_forall _ _) Hall), list_elem_of_In, Hkv.
Qed.

Lemma wf_value_list l :
  wf_value (VList l) = true → Forall (λ x, wf_value x = true) l.
Proof.
  simpl. intros Hall. apply Forall_forall. intros x Hx.
  apply (proj1 (forallb_forall _ _) Hall), list_elem_of_In, Hx.
Qed.

Lemma dict_get_NoDup (d : pydict) k v :
  NoDup d.*1 → (k, v) ∈ d → dict_get d k = Some v.
Proof.
  induction d as [|[k' v'] d IH]; intros Hnd Hin; [by apply elem_of_nil in Hin|].
  simpl in *. apply NoDup_cons in Hnd as [Hk' Hnd].
  apply elem_of_cons in Hin as [[= <- <-]|Hin].
  - by rewrite String.eqb_refl.
  - destruct (String.eqb k' k) eqn:E; [|by apply IH].
    apply String.eqb_eq in E. subst k'. destruct Hk'.
    apply list_elem_of_fmap. by exists (k, v).
Qed.

Lemma py_eq_refl x : wf_value x = true → py_eq x x = true.
Proof.
  induction x as [|b|n|s|l IH|d IH] using value_ind; intros Hwf; simpl.
  - done.
  - by destruct b.
  - apply Z.eqb_refl.
  - apply String.eqb_refl.
  - apply wf_value_list in Hwf.
    induction IH as [|x l Hx _ IHl]; [done|].
    apply Forall_cons in Hwf as [Hwx Hwl]. by rewrite Hx, IHl.
  - apply wf_value_dict in Hwf as [Hnd Hwf].
    rewrite Nat.eqb_refl. simpl. apply forallb_forall. intros [k v] Hkv.
    apply list_elem_of_In in Hkv. simpl.
    rewrite (dict_get_NoDup d k v Hnd Hkv).
    rewrite Forall_forall in IH. rewrite Forall_forall in Hwf.
    apply (IH (k, v) Hkv), (Hwf (k, v) Hkv).
Qed.

Lemma py_in_elem x l : wf_value x = true → x ∈ l → py_in x l = true.
Proof.
  intros Hwf Hin. apply existsb_exists. exists x.
  split; [by apply list_elem_of_In|by apply py_eq_refl].
Qed.

(** ** Merging a mapping into itself *)

Lemma merge_field_self (d : pydict) k v :
  dict_get d k = Some v →
  (∀ sub, v = VDict sub → merge_dict_fill_only sub sub = sub) →
  merge_field d k v = d.
Proof.
  intros Hget Hsub. assert (Hpy : py_get d k = v) by (unfold py_get; by rewrite Hget).
  unfold merge_field. destruct v as [|b|n|s|l|sub];
    try (unfold merge_scalar_fill_only; rewrite Hpy;
         by destruct (is_blank _)).
  - by rewrite Hpy.
  - rewrite Hpy. simpl. rewrite Hpy, (Hsub sub eq_refl).
    by apply dict_set_same.
Qed.

Lemma merge_dict_fill_only_self (d : pydict) :
  wf_value (VDict d) = true → merge_dict_fill_only d d = d.
Proof.
  remember (VDict d) as x eqn:Hx. revert d Hx.
  induction x as [| | | | |d' IH] using value_ind; intros d [= ->] Hwf.
  apply wf_value_dict in Hwf as [Hnd Hwf].
  assert (Hitems : ∀ items : pydict, items ⊆ d → merge_dict_fill_only d items = d).
  { induction items as [|[k v] items IHi]; intros Hsub; [done|].
    rewrite merge_dict_fill_only_cons.
    assert (Hkv : (k, v) ∈ d) by (apply Hsub; by left).
    rewrite merge_field_self;
      [apply IHi; intros kv Hkv'; apply Hsub; by right
      |by apply dict_get_NoDup|].
    intros sub ->. rewrite Forall_forall in IH. rewrite Forall_forall in Hwf.
    apply (IH (k, VDict sub) Hkv sub eq_refl), (Hwf (k, VDict sub) Hkv). }
  by apply Hitems.
Qed.

(** ** Keyed list merge of a list into itself *)

Lemma index_by_key_absent key sid items : ∀ idx index,
  sid ∉ omap (item_key key) items →
  index_by_key key idx items index !! sid = index !! sid.
Proof.
  induction items as [|item items IH]; intros idx index Hnot; [done|].
  simpl in *. destruct (item_key key item) as [sid'|] eqn:Hk.
  - apply not_elem_of_cons in Hnot as [Hne Hnot]. rewrite IH; [|done].
    destruct item as [| | | | |d]; try done. simpl in Hk.
    destruct (usable_key (py_get d key)); [|done].
    injection Hk as <-. by rewrite lookup_insert_ne.
  - rewrite IH; [|done]. destruct item as [| | | | |d]; try done.
    simpl in Hk. by destruct (usable_key (py_get d key)).
Qed.

Lemma index_by_key_lookup key sid items : ∀ idx index j item,
  NoDup (omap (item_key key) items) →
  items !! j = Some item →
  item_key key item = Some sid →
  index_by_key key idx items index !! sid = Some (idx + j)%nat.
Proof.
  induction items as [|x items IH]; intros idx index j item Hnd Hj Hk; [done|].
  simpl in Hnd. destruct j as [|j]; simpl in *.
  - injection Hj as ->. rewrite Hk in Hnd. apply NoDup_cons in Hnd as [Hnot _].
    rewrite index_by_key_absent; [|done].
    destruct item as [| | | | |d]; try done. simpl in Hk.
    destruct (usable_key (py_get d key)); [|done].
    injection Hk as <-. by rewrite lookup_insert_eq, Nat.add_0_r.
  - rewrite (IH (S idx) _ j item); [f_equal; lia| |done..].
    destruct (item_key key x); [by apply NoDup_cons in Hnd as [_ ?]|done].
Qed.

Lemma merge_item_by_key_self key l item :
  wf_value (VList l) = true →
  NoDup (omap (item_key key) l) →
  item ∈ l →
  merge_item_by_key key (l, index_by_key key 0 l ∅) item
  = Some (l, index_by_key key 0 l ∅).
Proof.
  intros Hwf Hnd Hin. apply wf_value_list in Hwf.
  assert (Hwi : wf_value item = true) by (by eapply (proj1 (Forall_forall _ _) Hwf)).
  assert (Hsame : append_if_absent l item = l).
  { unfold append_if_absent. by rewrite py_in_elem. }
  unfold merge_item_by_key. destruct item as [| | | | |d]; try by rewrite Hsame.
  destruct (usable_key (py_get d key)) eqn:Hu; [|by rewrite Hsame].
  apply list_elem_of_lookup in Hin as [j Hj].
  rewrite (index_by_key_lookup key _ l 0 ∅ j (VDict d) Hnd Hj);
    [|simpl; by rewrite Hu].
  simpl. rewrite Hj, merge_dict_fill_only_self; [|done].
  by rewrite list_insert_id.
Qed.

Lemma merge_items_by_key_self key l rest :
  wf_value (VList l) = true →
  NoDup (omap (item_key key) l) →
  rest ⊆ l →
  merge_items_by_key key rest (l, index_by_key key 0 l ∅)
  = Some (l, index_by_key key 0 l ∅).
Proof.
  intros Hwf Hnd. induction rest as [|item rest IH]; intros Hsub; [done|].
  cbn [merge_items_by_key].
  rewrite merge_item_by_key_self; [|done|done|apply Hsub; by left].
  cbn [mbind option_bind]. apply IH. intros x Hx. apply Hsub. by right.
Qed.

(** ** Fingerprint list merge *)

Lemma fingerprint_atom item :
  is_dict item = false → fingerprint item = Some (py_str item).
Proof. by destruct item. Qed.

Lemma index_by_fingerprint_inv items : ∀ before idx idx',
  fp_index_inv (before ++ items) idx →
  index_by_fingerprint (length before) items idx = Some idx' →
  fp_index_inv (before ++ items) idx'
  ∧ (∀ fp, is_Some (idx !! fp) → is_Some (idx' !! fp))
  ∧ (∀ item fp, item ∈ items → fingerprint item = Some fp → is_Some (idx' !! fp)).
Proof.
  induction items as [|x items IH]; intros before idx idx' Hinv Hrun.
  - injection Hrun as <-. split_and!; [done..|]. intros ?? []%elem_of_nil.
  - simpl in Hrun. destruct (fingerprint x) as [fpx|] eqn:Hx; [|done].
    simpl in Hrun. specialize (IH (before ++ [x]) (<[fpx:=length before]> idx) idx').
    rewrite length_app, Nat.add_1_r, <-!app_assoc in IH. simpl in IH.
    destruct IH as (Hinv' & Hmono & Hcov); [|done|].
    { intros fp j. rewrite lookup_insert. case_decide; [|apply Hinv].
      intros [= <-]. rewrite length_app. simpl. lia. }
    split_and!; [done| |].
    + intros fp Hfp. apply Hmono. rewrite lookup_insert. by case_decide.
    + intros item fp [->|Hin]%elem_of_cons Hfp; [|by eapply Hcov].
      apply Hmono. rewrite Hx in Hfp. injection Hfp as ->.
      by rewrite lookup_insert_eq.
Qed.

Lemma merge_item_by_fingerprint_inv l idx item st' :
  fp_index_inv l idx →
  merge_item_by_fingerprint (l, idx) item = Some st' →
  fp_index_inv st'.1 st'.2
  ∧ (∀ fp, is_Some (idx !! fp) → is_Some (st'.2 !! fp))
  ∧ (∀ fp, fingerprint item = Some fp → is_Some (st'.2 !! fp)).
Proof.
  intros Hinv Hrun. unfold merge_item_by_fingerprint in Hrun.
  destruct (fingerprint item) as [fp|] eqn:Hfp; [|done]. simpl in Hrun.
  destruct (idx !! fp) as [i|] eqn:Hi.
  - destruct (l !! i) as [target|]; [|done]. simpl in Hrun.
    assert (Hupd : ∀ y, fp_index_inv (<[i:=y]> l) idx).
    { intros y fp' j Hj. rewrite length_insert. by eapply Hinv. }
    assert (Hhit : ∀ fp', Some fp = Some fp' → is_Some (idx !! fp')).
    { intros fp' [= <-]. by rewrite Hi. }
    destruct target, item; injection Hrun as <-; simpl; split_and!; done.
  - injection Hrun as <-. simpl. split_and!.
    + intros fp' j. rewrite lookup_insert, length_app. simpl.
      case_decide; [intros [= <-]; lia|]. intros Hj%Hinv. lia.
    + intros fp' Hfp'. rewrite lookup_insert. by case_decide.
    + intros fp' [= <-]. by rewrite lookup_insert_eq.
Qed.

Lemma merge_items_by_fingerprint_inv news : ∀ l idx st',
  fp_index_inv l idx →
  merge_items_by_fingerprint news (l, idx) = Some st' →
  fp_index_inv st'.1 st'.2
  ∧ (∀ fp, is_Some (idx !! fp) → is_Some (st'.2 !! fp))
  ∧ (∀ item fp, item ∈ news → fingerprint item = Some fp → is_Some (st'.2 !! fp)).
Proof.
  induction news as [|x news IH]; intros l idx st' Hinv Hrun.
  - injection Hrun as <-. split_and!; [done..|]. intros ?? []%elem_of_nil.
  - cbn [merge_items_by_fingerprint] in Hrun.
    destruct (merge_item_by_fingerprint (l, idx) x) as [[l1 idx1]|] eqn:Hx; [|done].
    cbn [mbind option_bind] in Hrun.
    destruct (merge_item_by_fingerprint_inv _ _ _ _ Hinv Hx) as (Hinv1 & Hmono1 & Hcov1).
    destruct (IH _ _ _ Hinv1 Hrun) as (Hinv' & Hmono & Hcov).
    split_and!; [done|by auto|].
    intros item fp [->|Hin]%elem_of_cons Hfp; [|by eapply Hcov].
    by apply Hmono, Hcov1.
Qed.

Lemma merge_items_by_fingerprint_app xs ys st :
  merge_items_by_fingerprint (xs ++ ys) st
  = merge_items_by_fingerprint xs st ≫= merge_items_by_fingerprint ys.
Proof.
  revert st. induction xs as [|x xs IH]; intros st; [done|].
  cbn [app merge_items_by_fingerprint].
  destruct (merge_item_by_fingerprint st x); [apply IH|done].
Qed.

(** A non-mapping item whose string form is already in the index
    leaves the state of the loop as it is. *)
Lemma merge_item_by_fingerprint_known l idx b :
  fp_index_inv l idx →
  is_dict b = false →
  is_Some (idx !! py_str b) →
  merge_item_by_fingerprint (l, idx) b = Some (l, idx).
Proof.
  intros Hinv Hb [i Hi]. unfold merge_item_by_fingerprint.
  rewrite fingerprint_atom; [|done]. simpl. rewrite Hi.
  destruct (lookup_lt_is_Some_2 l i (Hinv _ _ Hi)) as [target ->]. simpl.
  destruct target, b; done.
Qed.

(** ** Entity merge: the section guard *)

Lemma field_ok_cons p k k' v (d : pydict) :
  field_ok p k ((k', v) :: d)
  = (if String.eqb k' k then p v else true) && field_ok p k d.
Proof. done. Qed.

Lemma field_ok_without_ok p k new_course :
  field_ok p k new_course = true → field_ok p k (without_ok new_course) = true.
Proof.
  unfold field_ok, without_ok. intros H. apply forallb_forall. intros kv Hkv.
  apply (proj1 (forallb_forall _ _) H).
  apply list_elem_of_In. apply list_elem_of_In in Hkv.
  by apply list_elem_of_filter in Hkv as [_ ?].
Qed.

Lemma merge_field_list_kept (existing : pydict) k v :
  is_list (py_get existing k) = true → is_list v = true →
  merge_field existing k v = existing.
Proof. intros He Hv. destruct v; try done. simpl. by rewrite He. Qed.

Lemma merge_field_scalar_kept (existing : pydict) k v :
  is_blank (py_get existing k) = false → is_scalar v = true →
  merge_field existing k v = existing.
Proof.
  intros He Hv. destruct v; try done; simpl;
    unfold merge_scalar_fill_only; by rewrite He.
Qed.

Lemma merge_dict_fill_only_keeps_list k new_course : ∀ existing,
  is_list (py_get existing k) = true →
  field_ok is_list k new_course = true →
  dict_get (merge_dict_fill_only existing new_course) k = dict_get existing k.
Proof.
  induction new_course as [|[k' v] rest IH]; intros existing He Hnew; [done|].
  rewrite field_ok_cons in Hnew. apply andb_prop in Hnew as [Hv Hrest].
  rewrite merge_dict_fill_only_cons.
  destruct (String.eqb k' k) eqn:E.
  - apply String.eqb_eq in E. subst k'.
    rewrite merge_field_list_kept; [by apply IH|done..].
  - apply String.eqb_neq in E.
    assert (Hsame : dict_get (merge_field existing k' v) k = dict_get existing k)
      by (apply merge_field_other; congruence).
    rewrite IH; [done| |done]. unfold py_get. by rewrite Hsame.
Qed.

Lemma merge_dict_fill_only_keeps_scalar k new_course : ∀ existing,
  is_blank (py_get existing k) = false →
  field_ok is_scalar k new_course = true →
  dict_get (merge_dict_fill_only existing new_course) k = dict_get existing k.
Proof.
  induction new_course as [|[k' v] rest IH]; intros existing He Hnew; [done|].
  rewrite field_ok_cons in Hnew. apply andb_prop in Hnew as [Hv Hrest].
  rewrite merge_dict_fill_only_cons.
  destruct (String.eqb k' k) eqn:E.
  - apply String.eqb_eq in E. subst k'.
    rewrite merge_field_scalar_kept; [by apply IH|done..].
  - apply String.eqb_neq in E.
    assert (Hsame : dict_get (merge_field existing k' v) k = dict_get existing k)
      by (apply merge_field_other; congruence).
    rewrite IH; [done| |done]. unfold py_get. by rewrite Hsame.
Qed.

(** What [merge_course] comes to when the classroom flag is false. *)
Lemma merge_course_classroom_off existing new_course :
  ok_flag new_course "classroom" = Some false →
  merge_course existing new_course
  = let filled := merge_dict_fill_only existing (without_ok new_course) in
    if ok_flag new_course "updates" is Some true
    then merge_updates_section filled new_course
    else Some filled.
Proof.
  unfold ok_flag, merge_course.
  destruct (py_or (py_get new_course "_ok") (VDict [])); try done.
  intros [= ->]. simpl. by destruct (truthy (py_get d "updates")).
Qed.

(** ** Retrying fetcher *)

Lemma safe_get_loop_step remaining attempt url w :
  safe_get_loop (S remaining) attempt url w
  = let o := (session_get url w).1 in
    let w' := (session_get url w).2 in
    if retryable o then
      if wait_overflows attempt then (Overflows, w')
      else if attempt <? MAX_RETRIES
      then safe_get_loop remaining (attempt + 1) url w'
      else (Gives (Some (VNone, false)), w')
    else (Gives (Some (settle o)), w').
Proof.
  simpl. destruct (session_get url w) as [[|code json] w']; simpl; [done|].
  destruct (transient code) eqn:Ht; [done|].
  destruct (code =? 200) eqn:E; simpl; by destruct json.
Qed.

Lemma wait_overflows_spec attempt :
  wait_overflows attempt = true ↔ 1025 ≤ attempt.
Proof. unfold wait_overflows. rewrite Z.leb_le. lia. Qed.

Lemma wait_in_range attempt : attempt ≤ 1024 → wait_overflows attempt = false.
Proof. intros H. unfold wait_overflows. apply Z.leb_gt. lia. Qed.

Lemma settle_off o : (settle o).2 = false → (settle o).1 = VNone.
Proof. unfold settle. by destruct o as [|c [d|]]; [|destruct (c =? 200)|]. Qed.

Lemma safe_get_loop_returns url n : ∀ attempt w,
  attempt + Z.of_nat n = MAX_RETRIES →
  MAX_RETRIES ≤ 1024 →
  ∃ r w', safe_get_loop (S n) attempt url w = (Gives (Some r), w')
          ∧ (r.2 = false → r.1 = VNone).
Proof.
  induction n as [|n IH]; intros attempt w Hn Hmax;
    rewrite safe_get_loop_step; cbv zeta;
    (destruct (retryable _); [|eexists _, _; split; [done|apply settle_off]]);
    rewrite wait_in_range by lia.
  - assert ((attempt <? MAX_RETRIES) = false) as -> by lia. by eexists _, _.
  - assert ((attempt <? MAX_RETRIES) = true) as -> by lia. apply IH; lia.
Qed.

(** The first outcome that is no transient failure decides, when the
    attempts before it are numbered below 1025. *)
Lemma safe_get_loop_settles url n : ∀ attempt w (k : nat),
  attempt + Z.of_nat n = MAX_RETRIES →
  (k ≤ n)%nat →
  attempt + Z.of_nat k ≤ 1025 →
  (∀ j, (j < k)%nat → retryable (outcome_at j url w) = true) →
  retryable (outcome_at k url w) = false →
  safe_get_loop (S n) attempt url w
  = (Gives (Some (settle (outcome_at k url w))), run_attempts (S k) url w).
Proof.
  induction n as [|n IH]; intros attempt w k Hn Hk Hlow Hbefore Hat;
    rewrite safe_get_loop_step; cbv zeta.
  - assert (k = 0%nat) as -> by lia. unfold outcome_at in Hat. simpl in Hat.
    by rewrite Hat.
  - destruct k as [|k].
    + unfold outcome_at in Hat. simpl in Hat. by rewrite Hat.
    + pose proof (Hbefore 0%nat ltac:(lia)) as H0. unfold outcome_at in H0.
      simpl in H0. rewrite H0, wait_in_range by lia.
      assert ((attempt <? MAX_RETRIES) = true) as -> by lia.
      apply (IH (attempt + 1) _ k); [lia|lia|lia| |done].
      intros j Hj. apply (Hbefore (S j)). lia.
Qed.

Lemma safe_get_loop_exhausts url n : ∀ attempt w,
  attempt + Z.of_nat n = MAX_RETRIES →
  MAX_RETRIES ≤ 1024 →
  (∀ j, (j ≤ n)%nat → retryable (outcome_at j url w) = true) →
  safe_get_loop (S n) attempt url w
  = (Gives (Some (VNone, false)), run_attempts (S n) url w).
Proof.
  induction n as [|n IH]; intros attempt w Hn Hmax Hall;
    rewrite safe_get_loop_step; cbv zeta;
    pose proof (Hall 0%nat ltac:(lia)) as H0; unfold outcome_at in H0;
    simpl in H0; rewrite H0, wait_in_range by lia.
  - by assert ((attempt <? MAX_RETRIES) = false) as -> by lia.
  - assert ((attempt <? MAX_RETRIES) = true) as -> by lia.
    apply (IH (attempt + 1)); [lia|done|]. intros j Hj. apply (Hall (S j)). lia.
Qed.

(** Transient failures up to the attempt numbered 1025: the delay of
    that attempt cannot be computed. *)
Lemma safe_get_loop_overflows url n : ∀ attempt w (k : nat),
  (k ≤ n)%nat →
  attempt + Z.of_nat n ≤ MAX_RETRIES →
  attempt + Z.of_nat k = 1025 →
  (∀ j, (j ≤ k)%nat → retryable (outcome_at j url w) = true) →
  safe_get_loop (S n) attempt url w = (Overflows, run_attempts (S k) url w).
Proof.
  induction n as [|n IH]; intros attempt w k Hk Hn Hat Hall;
    rewrite safe_get_loop_step; cbv zeta;
    pose proof (Hall 0%nat ltac:(lia)) as H0; unfold outcome_at in H0;
    simpl in H0; rewrite H0.
  - assert (k = 0%nat) as -> by lia.
    by rewrite (proj2 (wait_overflows_spec attempt)) by lia.
  - destruct k as [|k].
    + by rewrite (proj2 (wait_overflows_spec attempt)) by lia.
    + rewrite wait_in_range by lia.
      assert ((attempt <? MAX_RETRIES) = true) as -> by lia.
      apply (IH (attempt + 1) _ k); [lia|lia|lia|].
      intros j Hj. apply (Hall (S j)). lia.
Qed.

(** ** Outage gating *)

Lemma any_ok_anywhere_all_off results :
  Forall (λ r, both_flags_off r = true) results →
  any_ok_anywhere results = Some false.
Proof.
  induction 1 as [|r results Hr _ IH]; [done|]. simpl.
  unfold both_flags_off in Hr.
  destruct (py_get_or r "_ok" (VDict [])) as [| | | | |ok]; try done.
  apply andb_prop in Hr as [Hc%negb_true_iff Hu%negb_true_iff].
  unfold py_or. by rewrite Hc, Hu.
Qed.

Lemma filter_courses_nonempty batches c cs :
  filter_courses batches = Some (c :: cs) → truthy (VList batches) = true.
Proof. by destruct batches. Qed.

(** ** Resource resolver: shape of a snapshot *)

Lemma fetch_bind_Some {A B} (m : fetching A) (f : A → fetching B) w b w' :
  fetch_bind m f w = Some (b, w') →
  ∃ a w1, m w = Some (a, w1) ∧ f a w1 = Some (b, w').
Proof.
  unfold fetch_bind. destruct (m w) as [[a w1]|]; [|done]. by exists a, w1.
Qed.

Lemma fetch_course_details_shape course rank total fetched_at w out w' :
  fetch_course_details course rank total fetched_at w = Some (out, w') →
  ∃ classroom lessons announcements count classroom_ok updates_ok,
    out = snapshot_of course rank fetched_at classroom lessons announcements
            count classroom_ok updates_ok
    ∧ sum_lesson_counts lessons 0 = Some count
    ∧ (lessons = [] ∨ ∃ w1 w2, fetch_lessons classroom [] w1 = Some (lessons, w2)).
Proof.
  unfold fetch_course_details. intros H.
  apply fetch_bind_Some in H as ([classroom_data classroom_ok] & w1 & _ & H).
  apply fetch_bind_Some in H as (out1 & w2 & Hout1 & H).
  apply fetch_bind_Some in H as ([updates_data updates_ok] & w3 & _ & H).
  assert (Hshape : ∃ classroom lessons,
    out1 = snapshot_of course rank fetched_at classroom lessons [] 0 classroom_ok false
    ∧ (lessons = [] ∨ ∃ w1 w2, fetch_lessons classroom [] w1 = Some (lessons, w2))).
  { destruct classroom_data as [| | | | |payload], classroom_ok;
      try (injection Hout1 as <- <-; exists [], []; split; [done|by left]).
    apply fetch_bind_Some in Hout1 as (lessons & w4 & Hl & Hout1).
    injection Hout1 as <- <-. eexists _, lessons. split; [done|]. right. eauto. }
  destruct Hshape as (classroom & lessons & -> & Hlessons).
  destruct updates_ok; simpl in H;
    destruct (sum_lesson_counts lessons 0) as [count|] eqn:Hsum; try done;
    injection H as <- <-;
    eexists classroom, lessons, _, count, classroom_ok, _;
    (split; [reflexivity|by split]).
Qed.

(** ** Derived counts *)

Lemma list_len_of_set_ne (d : pydict) k k' v :
  k' ≠ k → list_len_of (dict_set d k v) k' = list_len_of d k'.
Proof. intros. unfold list_len_of. by rewrite py_get_set_ne. Qed.

Lemma recount_ok (d : pydict) : lesson_counts_ok (VDict (recount d)).
Proof.
  unfold recount. simpl. split_and!.
  - rewrite !py_get_set_ne, py_get_set_eq by done.
    by rewrite !list_len_of_set_ne.
  - rewrite py_get_set_ne, py_get_set_eq by done.
    by rewrite !list_len_of_set_ne.
  - rewrite py_get_set_eq. by rewrite !list_len_of_set_ne.
Qed.

Lemma sum_lesson_counts_ok lessons : ∀ acc,
  Forall lesson_counts_ok lessons →
  sum_lesson_counts lessons acc = Some (acc + lesson_total lessons).
Proof.
  induction lessons as [|lesson lessons IH]; intros acc Hall.
  - simpl. f_equal. lia.
  - apply Forall_cons in Hall as [Hl Hall].
    destruct lesson as [| | | | |d]; simpl;
      try (rewrite IH by done; f_equal; lia).
    destruct Hl as (_ & _ & ->). unfold py_or. simpl.
    destruct (_ =? 0) eqn:E; simpl; rewrite IH by done; f_equal; lia.
Qed.

Lemma lesson_record_counts_ok cls lesson_data lesson_id videos_out notes_out :
  lesson_counts_ok (lesson_record cls lesson_data lesson_id videos_out notes_out).
Proof. done. Qed.

(** ** Resource resolver: what every produced record satisfies *)

Lemma fetch_items_all (Q : value → Prop) record items :
  (∀ v vd ok, Q (record v vd ok)) →
  ∀ out w r w',
    Forall Q out → fetch_items record items out w = Some (r, w') → Forall Q r.
Proof.
  intros HQ. induction items as [|item items IH]; intros out w r w' Hout Hrun.
  - by injection Hrun as <- <-.
  - destruct item as [| | | | |v]; simpl in Hrun; try by eapply IH.
    apply fetch_bind_Some in Hrun as ([vd ok] & w1 & _ & Hrun).
    eapply IH; [|done]. apply Forall_app. split; [done|]. by repeat constructor.
Qed.

Lemma fetch_lessons_all (Qv Qn P : value → Prop) classroom :
  (∀ v vd ok, Qv (video_record v vd ok)) →
  (∀ n nd ok, Qn (note_record n nd ok)) →
  (∀ cls lesson_data lesson_id videos_out notes_out,
     Forall Qv videos_out → Forall Qn notes_out →
     P (lesson_record cls lesson_data lesson_id videos_out notes_out)) →
  ∀ lessons w out w',
    Forall P lessons → fetch_lessons classroom lessons w = Some (out, w') →
    Forall P out.
Proof.
  intros HQv HQn HP.
  induction classroom as [|cls classroom IH]; intros lessons w out w' Hl Hrun.
  - by injection Hrun as <- <-.
  - destruct cls as [| | | | |cls]; simpl in Hrun; try by eapply IH.
    destruct (truthy (py_get cls "id")); simpl in Hrun; [|by eapply IH].
    apply fetch_bind_Some in Hrun as ([lesson_data lesson_ok] & w1 & _ & Hrun).
    destruct lesson_data as [| | | | |lesson_data], lesson_ok; try by eapply IH.
    apply fetch_bind_Some in Hrun as (videos_out & w2 & Hv & Hrun).
    apply fetch_bind_Some in Hrun as (notes_out & w3 & Hn & Hrun).
    eapply IH; [|done]. apply Forall_app. split; [done|].
    repeat constructor. apply HP.
    + by eapply fetch_items_all.
    + by eapply fetch_items_all.
Qed.

Lemma fetch_course_details_counts course rank total fetched_at w out w' :
  fetch_course_details course rank total fetched_at w = Some (out, w') →
  record_counts_ok out.
Proof.
  intros (classroom & lessons & announcements & count & cok & uok
          & -> & Hsum & Hlessons)%fetch_course_details_shape.
  assert (Hall : Forall lesson_counts_ok lessons).
  { destruct Hlessons as [->|(w1 & w2 & Hrun)]; [done|].
    eapply (fetch_lessons_all (λ _, True) (λ _, True)); [done..| |done|done].
    intros. apply lesson_record_counts_ok. }
  split; [done|]. rewrite sum_lesson_counts_ok in Hsum by done.
  injection Hsum as <-. done.
Qed.

(** ** Resource resolver: it returns *)

Section resolver_returns.
Hypothesis Hbudget : 1 ≤ MAX_RETRIES ≤ 1024.

Lemma safe_get_pair_returns url w :
  ∃ r w', safe_get_pair url w = Some (r, w').
Proof using Hbudget.
  unfold safe_get_pair, safe_get.
  destruct (Z.to_nat MAX_RETRIES) as [|n] eqn:Hn; [lia|].
  destruct (safe_get_loop_returns url n 1 w) as (r & w' & -> & _); [lia|lia|].
  by exists r, w'.
Qed.

Lemma fetch_bind_returns {A B} (m : fetching A) (f : A → fetching B) w :
  (∃ a w1, m w = Some (a, w1)) →
  (∀ a w1, ∃ b w', f a w1 = Some (b, w')) →
  ∃ b w', fetch_bind m f w = Some (b, w').
Proof.
  intros (a & w1 & Hm) Hf. unfold fetch_bind. rewrite Hm. apply Hf.
Qed.

Lemma fetch_detail_returns item_id w :
  ∃ r w', fetch_detail item_id w = Some (r, w').
Proof using Hbudget.
  unfold fetch_detail. destruct (truthy item_id); [|by eexists _, _].
  apply fetch_bind_returns; [apply safe_get_pair_returns|].
  intros [vd_data vd_ok] w1. by eexists _, _.
Qed.

Lemma fetch_items_returns record items : ∀ out w,
  ∃ r w', fetch_items record items out w = Some (r, w').
Proof using Hbudget.
  induction items as [|item items IH]; intros out w; [by eexists _, _|].
  destruct item; simpl; try apply IH.
  apply fetch_bind_returns; [apply fetch_detail_returns|].
  intros [vd vd_ok] w1. apply IH.
Qed.

Lemma fetch_lessons_returns classroom : ∀ lessons w,
  ∃ out w', fetch_lessons classroom lessons w = Some (out, w').
Proof using Hbudget.
  induction classroom as [|cls classroom IH]; intros lessons w; [by eexists _, _|].
  destruct cls as [| | | | |cls]; simpl; try apply IH.
  destruct (truthy (py_get cls "id")); simpl; [|apply IH].
  apply fetch_bind_returns; [apply safe_get_pair_returns|].
  intros [lesson_data lesson_ok] w1.
  destruct lesson_data, lesson_ok; try apply IH.
  apply fetch_bind_returns; [apply fetch_items_returns|]. intros videos_out w2.
  apply fetch_bind_returns; [apply fetch_items_returns|]. intros notes_out w3.
  apply IH.
Qed.

Lemma fetch_course_details_returns course rank total fetched_at w :
  ∃ out w', fetch_course_details course rank total fetched_at w = Some (out, w').
Proof using Hbudget.
  unfold fetch_course_details.
  apply fetch_bind_returns; [apply safe_get_pair_returns|].
  intros [classroom_data classroom_ok] w1.
  set (out0 := set_ok_flag _ "classroom" classroom_ok).
  assert (Hfirst : ∃ out1 w2 classroom lessons,
    match classroom_data with
    | VDict payload =>
        if classroom_ok then
          lessons ←@ fetch_lessons (ensure_list (py_get payload "classroom")) [];
          fetch_ret
            (dict_set
               (dict_set out0 "classroom"
                  (VList (ensure_list (py_get payload "classroom"))))
               "lessons" (VList lessons))
        else fetch_ret out0
    | _ => fetch_ret out0
    end w1 = Some (out1, w2)
    ∧ out1 = snapshot_of course rank fetched_at classroom lessons [] 0
               classroom_ok false
    ∧ Forall lesson_counts_ok lessons).
  { destruct classroom_data as [| | | | |payload], classroom_ok;
      try (by eexists _, _, [], []).
    destruct (fetch_lessons_returns (ensure_list (py_get payload "classroom")) [] w1)
      as (lessons & w2 & Hrun).
    exists (snapshot_of course rank fetched_at
              (ensure_list (py_get payload "classroom")) lessons [] 0 true false),
      w2, (ensure_list (py_get payload "classroom")), lessons.
    split_and!; [|done|].
    - unfold fetch_bind. by rewrite Hrun.
    - eapply (fetch_lessons_all (λ _, True) (λ _, True)); [done..| |done|done].
      intros. apply lesson_record_counts_ok. }
  destruct Hfirst as (out1 & w2 & classroom & lessons & Hrun & -> & Hall).
  unfold fetch_bind at 1. rewrite Hrun.
  apply fetch_bind_returns; [apply safe_get_pair_returns|].
  intros [updates_data updates_ok] w3.
  destruct updates_ok; simpl; rewrite sum_lesson_counts_ok by done;
    by eexists _, _.
Qed.

End resolver_returns.

(** ** Entity merge with the classroom flag set *)

Lemma merge_list_by_key_returns existing_list new_list key :
  ∃ r, merge_list_by_key existing_list new_list key = Some r.
Proof.
  rewrite merge_list_by_key_as_list. unfold merge_list_by_key.
  set (existing := as_list existing_list). set (news := as_list new_list).
  destruct (merge_items_by_key_inv key news existing news []
              (existing, index_by_key key 0 existing ∅))
    as (st' & -> & _); [done| |by eexists].
  split; simpl.
  - apply (index_by_key_sound key [] existing). by intros sid i.
  - exists []. split; [done|]. rewrite app_nil_r.
    apply Forall_Forall2_diag, Forall_true. by constructor.
Qed.

Lemma as_list_get_or (d : pydict) k :
  match py_get_or d k (VList []) with VList l => l | _ => [] end
  = as_list (py_get d k).
Proof. unfold py_get_or, py_get. by destruct (dict_get d k). Qed.

Lemma merge_field_list_field (existing : pydict) k k' v l :
  py_get (merge_field existing k' v) k = VList l →
  l = [] ∨ py_get existing k = VList l.
Proof.
  destruct (decide (k = k')) as [<-|Hne].
  - unfold merge_field.
    destruct v as [|b|n|s|l'|items];
      try (unfold merge_scalar_fill_only;
           destruct (_ && _); [by rewrite py_get_set_eq|by right]).
    + destruct (is_list (py_get existing k)); [by right|].
      rewrite py_get_set_eq. intros [= <-]. by left.
    + destruct (is_dict (py_get existing k)) eqn:E.
      * destruct (py_get existing k); try done. by rewrite py_get_set_eq.
      * rewrite py_get_set_eq. by rewrite py_get_set_eq.
  - unfold py_get at 1. rewrite merge_field_other by done. by right.
Qed.

Lemma merge_dict_fill_only_list_field k new_course : ∀ existing l,
  py_get (merge_dict_fill_only existing new_course) k = VList l →
  l = [] ∨ py_get existing k = VList l.
Proof.
  induction new_course as [|[k' v] rest IH]; intros existing l H; [by right|].
  rewrite merge_dict_fill_only_cons in H.
  apply IH in H as [->|H]; [by left|]. by apply merge_field_list_field in H.
Qed.

Lemma lessons_of_filled (P : value → Prop) existing new_course :
  Forall P (lessons_of existing) →
  Forall P (lessons_of (merge_dict_fill_only existing new_course)).
Proof.
  unfold lessons_of. intros H.
  destruct (py_get (merge_dict_fill_only existing new_course) "lessons")
    as [| | | |l|] eqn:E; try done.
  apply merge_dict_fill_only_list_field in E as [->|E]; [done|].
  by rewrite E in H.
Qed.

Lemma merge_lesson_inv st lesson :
  index_sound st.1 st.2 →
  Forall lesson_counts_ok st.1 →
  lesson_counts_ok lesson →
  ∃ st', merge_lesson st lesson = Some st'
         ∧ index_sound st'.1 st'.2
         ∧ Forall lesson_counts_ok st'.1.
Proof.
  destruct st as [l idx]. simpl. intros Hs Hall Hl.
  assert (Hkeep : ∃ st', Some (append_if_absent l lesson, idx) = Some st'
                         ∧ index_sound st'.1 st'.2
                         ∧ Forall lesson_counts_ok st'.1).
  { eexists. split; [done|]. simpl.
    destruct (append_if_absent_cases l lesson) as [-> | ->]; [done|].
    split; [by apply index_sound_snoc|].
    apply Forall_app. split; [done|]. by repeat constructor. }
  unfold merge_lesson. destruct lesson as [| | | | |d]; try done.
  destruct (usable_key (py_get d "lesson_id")); [|done].
  destruct (idx !! py_str (py_get d "lesson_id")) as [i|] eqn:Hi.
  - destruct (Hs _ _ Hi) as [target ->].
    destruct (merge_list_by_key_returns
                (py_get_or (merge_dict_fill_only target d) "videos" (VList []))
                (py_get_or d "videos" (VList [])) "id") as [videos ->].
    cbn [mbind option_bind].
    destruct (merge_list_by_key_returns
                (py_get_or
                   (dict_set (merge_dict_fill_only target d) "videos" (VList videos))
                   "notes" (VList []))
                (py_get_or d "notes" (VList [])) "id") as [notes ->].
    cbn [mbind option_bind]. eexists. split; [done|]. simpl.
    split; [by apply index_sound_update|].
    apply Forall_insert; [done|]. apply recount_ok.
  - eexists. split; [done|]. simpl. split.
    + apply index_sound_insert with (recount d); [by apply index_sound_snoc|].
      by rewrite list_lookup_middle.
    + apply Forall_app. split; [done|]. apply Forall_singleton, recount_ok.
Qed.

Lemma merge_lessons_inv new_lessons : ∀ st,
  index_sound st.1 st.2 →
  Forall lesson_counts_ok st.1 →
  Forall lesson_counts_ok new_lessons →
  ∃ st', merge_lessons new_lessons st = Some st'
         ∧ Forall lesson_counts_ok st'.1.
Proof.
  induction new_lessons as [|lesson rest IH]; intros st Hs Hall Hnew;
    [by exists st|].
  apply Forall_cons in Hnew as [Hl Hrest].
  destruct (merge_lesson_inv st lesson Hs Hall Hl) as (st1 & Hst1 & Hs1 & Hall1).
  destruct (IH st1 Hs1 Hall1 Hrest) as (st' & Hst' & Hall').
  exists st'. split; [|done]. cbn [merge_lessons]. by rewrite Hst1.
Qed.

Lemma merge_classroom_section_counts existing_course new_course :
  Forall lesson_counts_ok (lessons_of existing_course) →
  Forall lesson_counts_ok (lessons_of new_course) →
  ∃ r, merge_classroom_section existing_course new_course = Some r
       ∧ record_counts_ok r.
Proof.
  intros Hex Hnew. unfold merge_classroom_section.
  destruct (merge_list_by_key_returns
              (py_get_or existing_course "classroom" (VList []))
              (py_get_or new_course "classroom" (VList [])) "id") as [classroom ->].
  cbn [mbind option_bind]. rewrite !as_list_get_or.
  rewrite py_get_set_ne by done.
  fold (lessons_of existing_course). fold (lessons_of new_course).
  destruct (merge_lessons_inv (lessons_of new_course)
              (lessons_of existing_course,
               index_by_key "lesson_id" 0 (lessons_of existing_course) ∅))
    as ([lessons idx] & -> & Hall); [|done|done|].
  { apply (index_by_key_sound "lesson_id" [] (lessons_of existing_course)).
    by intros sid i. }
  cbn [mbind option_bind fst]. simpl in Hall.
  rewrite sum_lesson_counts_ok by done. cbn [mbind option_bind].
  eexists. split; [done|]. unfold record_counts_ok, lessons_of.
  rewrite py_get_set_eq, py_get_set_ne, py_get_set_eq by done. done.
Qed.

Lemma merge_course_classroom_on existing new_course :
  ok_flag new_course "classroom" = Some true →
  merge_course existing new_course
  = (r ← merge_classroom_section
           (merge_dict_fill_only existing (without_ok new_course)) new_course;
     if ok_flag new_course "updates" is Some true
     then merge_updates_section r new_course
     else Some r).
Proof.
  unfold ok_flag, merge_course.
  destruct (py_or (py_get new_course "_ok") (VDict [])); try done.
  intros [= ->]. simpl.
  destruct (merge_classroom_section _ _); [|done]. simpl.
  by destruct (truthy (py_get d "updates")).
Qed.

Lemma merge_updates_section_counts r new_course r' :
  record_counts_ok r →
  merge_updates_section r new_course = Some r' →
  record_counts_ok r'.
Proof.
  unfold merge_updates_section. intros Hr H.
  destruct (merge_list_by_fingerprint _ _) as [announcements|]; [|done].
  injection H as <-. unfold record_counts_ok, lessons_of in *.
  by rewrite !py_get_set_ne.
Qed.

(** ** Identifiers *)

Lemma str_or_none_canonical x : id_canonical (str_or_none x) = true.
Proof. by destruct x. Qed.

Lemma str_or_none_known x : x ≠ VNone → str_or_none x = VStr (py_str x).
Proof. by destruct x. Qed.

Lemma forallb_Forall {A} (p : A → bool) l :
  Forall (λ x, p x = true) l → forallb p l = true.
Proof. induction 1 as [|x l Hx _ IH]; [done|]. simpl. by rewrite Hx, IH. Qed.

Lemma lesson_record_ids_canonical cls lesson_data lesson_id videos_out notes_out :
  Forall (λ x, item_id_canonical x = true) videos_out →
  Forall (λ x, item_id_canonical x = true) notes_out →
  lesson_ids_canonical
    (lesson_record cls lesson_data lesson_id videos_out notes_out) = true.
Proof.
  intros Hv Hn. unfold lesson_record, lesson_ids_canonical.
  change (py_get _ "lesson_id") with
    (VStr (match py_get lesson_data "id" with
           | VNone => py_str lesson_id
           | id => py_str id
           end)).
  change (py_get _ "videos") with (VList videos_out).
  change (py_get _ "notes") with (VList notes_out).
  simpl. by rewrite !forallb_Forall.
Qed.

Lemma fetch_course_details_ids course rank total fetched_at w out w' :
  fetch_course_details course rank total fetched_at w = Some (out, w') →
  py_get out "course_id" = str_or_none (py_get course "id")
  ∧ built_ids_canonical out = true.
Proof.
  intros (classroom & lessons & announcements & count & cok & uok
          & -> & Hsum & Hlessons)%fetch_course_details_shape.
  split; [done|]. unfold built_ids_canonical.
  change (py_get _ "course_id") with (str_or_none (py_get course "id")).
  rewrite str_or_none_canonical. simpl. apply forallb_Forall.
  destruct Hlessons as [->|(w1 & w2 & Hrun)]; [done|].
  eapply (fetch_lessons_all (λ x, item_id_canonical x = true)
            (λ x, item_id_canonical x = true)); [| | |done|done].
  - intros v vd ok. apply str_or_none_canonical.
  - intros n nd ok. apply str_or_none_canonical.
  - apply lesson_record_ids_canonical.
Qed.

Lemma canonical_course_id_ok c d :
  canonical_course_id c = VDict d → id_canonical (py_get d "course_id") = true.
Proof.
  destruct c as [| | | | |d0]; try done. simpl.
  destruct (py_get d0 "course_id") eqn:E; intros [= <-];
    by rewrite ?E, ?py_get_set_eq.
Qed.

(** ** Keyed list merge: what the index knows *)

Lemma index_by_key_exact key items : ∀ before index,
  index_exact key (before ++ items) index →
  index_exact key (before ++ items) (index_by_key key (length before) items index).
Proof.
  induction items as [|item items IH]; intros before index He; [done|].
  simpl. specialize (IH (before ++ [item])).
  rewrite length_app, Nat.add_1_r, <-!app_assoc in IH. simpl in IH.
  apply IH. destruct item as [| | | | |d]; try done.
  destruct (usable_key (py_get d key)) eqn:Hu; [|done].
  intros sid i. rewrite lookup_insert. case_decide as Hsid; [|apply He].
  intros [= <-]. exists (VDict d). rewrite list_lookup_middle by done.
  split; [done|]. simpl. by rewrite Hu, Hsid.
Qed.

Lemma index_by_key_covers key items : ∀ idx index,
  (∀ sid, is_Some (index !! sid) →
          is_Some (index_by_key key idx items index !! sid))
  ∧ index_covers key items (index_by_key key idx items index).
Proof.
  induction items as [|item items IH]; intros idx index.
  - split; [done|]. intros x sid []%elem_of_nil.
  - simpl. set (index' := match item with VDict _ => _ | _ => _ end).
    destruct (IH (S idx) index') as [Hmono Hcov].
    assert (Hstep : ∀ sid, is_Some (index !! sid) → is_Some (index' !! sid)).
    { intros sid Hsid. unfold index'. destruct item as [| | | | |d]; try done.
      destruct (usable_key (py_get d key)); [|done].
      rewrite lookup_insert. by case_decide. }
    split; [by auto|].
    intros x sid [->|Hin]%elem_of_cons Hk; [|by eapply Hcov].
    apply Hmono. unfold index'. destruct item as [| | | | |d]; try done.
    simpl in Hk. destruct (usable_key (py_get d key)); [|done].
    injection Hk as <-. by rewrite lookup_insert_eq.
Qed.

(** ** Fingerprint list merge: it returns *)

Lemma index_by_fingerprint_returns items : ∀ i idx,
  Forall (λ x, is_Some (fingerprint x)) items →
  is_Some (index_by_fingerprint i items idx).
Proof.
  induction items as [|x items IH]; intros i idx Hall; [done|].
  apply Forall_cons in Hall as [[fp Hfp] Hall]. simpl. rewrite Hfp. simpl.
  by apply IH.
Qed.

Lemma merge_items_by_fingerprint_returns news : ∀ l idx,
  fp_index_inv l idx →
  Forall (λ x, is_Some (fingerprint x)) news →
  is_Some (merge_items_by_fingerprint news (l, idx)).
Proof.
  induction news as [|x news IH]; intros l idx Hinv Hall; [done|].
  apply Forall_cons in Hall as [[fp Hfp] Hall].
  assert (Hstep : is_Some (merge_item_by_fingerprint (l, idx) x)).
  { unfold merge_item_by_fingerprint. rewrite Hfp. simpl.
    destruct (idx !! fp) as [i|] eqn:Hi; [|done].
    destruct (lookup_lt_is_Some_2 l i (Hinv _ _ Hi)) as [target ->]. simpl.
    by destruct target, x. }
  destruct Hstep as [[l1 idx1] Hstep]. cbn [merge_items_by_fingerprint].
  rewrite Hstep. cbn [mbind option_bind]. apply IH; [|done].
  by destruct (merge_item_by_fingerprint_inv _ _ _ _ Hinv Hstep) as [? _].
Qed.

Lemma merge_list_by_fingerprint_returns existing news :
  Forall (λ x, is_Some (fingerprint x)) (existing ++ news) →
  is_Some (merge_list_by_fingerprint (VList existing) (VList news)).
Proof.
  intros [Hex Hnew]%Forall_app. unfold merge_list_by_fingerprint.
  destruct (index_by_fingerprint_returns existing 0 ∅ Hex) as [idx Hidx].
  rewrite Hidx. cbn [mbind option_bind].
  destruct (index_by_fingerprint_inv existing [] ∅ idx) as (Hinv & _);
    [by intros fp j|done|].
  destruct (merge_items_by_fingerprint_returns news existing idx Hinv Hnew)
    as [st ->]. done.
Qed.

(** ** The sections of a record are kept by the pipeline *)

Lemma merge_course_classroom_off_fields existing new_course r :
  has_classroom_sections existing = true →
  snapshot_sections new_course = true →
  ok_flag new_course "classroom" = Some false →
  r = merge_dict_fill_only existing (without_ok new_course)
  ∨ merge_course existing new_course = Some r →
  dict_get r "classroom" = dict_get existing "classroom"
  ∧ dict_get r "lessons" = dict_get existing "lessons"
  ∧ dict_get r "lesson_count" = dict_get existing "lesson_count".
Proof.
  intros [[Hc Hl]%andb_prop Hn%negb_true_iff]%andb_prop.
  intros [[Hsc Hsl]%andb_prop Hsn]%andb_prop Hflag.
  set (filled := merge_dict_fill_only existing (without_ok new_course)).
  assert (Hfilled :
    dict_get filled "classroom" = dict_get existing "classroom"
    ∧ dict_get filled "lessons" = dict_get existing "lessons"
    ∧ dict_get filled "lesson_count" = dict_get existing "lesson_count").
  { split_and!.
    - by apply merge_dict_fill_only_keeps_list, field_ok_without_ok.
    - by apply merge_dict_fill_only_keeps_list, field_ok_without_ok.
    - by apply merge_dict_fill_only_keeps_scalar, field_ok_without_ok. }
  intros [->|Hr]; [done|].
  rewrite merge_course_classroom_off in Hr; [|done]. fold filled in Hr. simpl in Hr.
  destruct (ok_flag new_course "updates") as [[]|]; try by injection Hr as <-.
  unfold merge_updates_section in Hr.
  destruct (merge_list_by_fingerprint _ _) as [announcements|]; [|done].
  injection Hr as <-. by rewrite !dict_get_set_ne.
Qed.

Lemma has_classroom_sections_fields (r existing : pydict) :
  dict_get r "classroom" = dict_get existing "classroom" →
  dict_get r "lessons" = dict_get existing "lessons" →
  dict_get r "lesson_count" = dict_get existing "lesson_count" →
  has_classroom_sections r = has_classroom_sections existing.
Proof.
  intros Hc Hl Hn. unfold has_classroom_sections, py_get. by rewrite Hc, Hl, Hn.
Qed.

Lemma merge_classroom_section_sections existing_course new_course r :
  merge_classroom_section existing_course new_course = Some r →
  has_classroom_sections r = true.
Proof.
  unfold merge_classroom_section. intros H.
  destruct (merge_list_by_key _ _ "id") as [classroom|]; [|done].
  cbn [mbind option_bind] in H.
  destruct (merge_lessons _ _) as [[lessons idx]|]; [|done].
  cbn [mbind option_bind fst] in H.
  destruct (sum_lesson_counts lessons 0) as [total|]; [|done].
  injection H as <-. unfold has_classroom_sections.
  rewrite py_get_set_eq.
  rewrite (py_get_set_ne _ "lesson_count" "classroom"),
    (py_get_set_ne _ "lessons" "classroom"), py_get_set_eq by done.
  by rewrite (py_get_set_ne _ "lesson_count" "lessons"), py_get_set_eq.
Qed.

(** A snapshot built by the resolver has the sections the section
    guard asks of a snapshot and of a record, so a snapshot appended to
    the store is a record with its sections; and the entity merge keeps
    them. *)
Lemma fetch_course_details_sections course rank total fetched_at w out w' :
  fetch_course_details course rank total fetched_at w = Some (out, w') →
  snapshot_sections out = true
  ∧ has_classroom_sections out = true
  ∧ ∃ classroom_ok, ok_flag out "classroom" = Some classroom_ok.
Proof.
  intros (classroom & lessons & announcements & count & cok & uok
          & -> & _)%fetch_course_details_shape.
  split_and!; [done..|]. by exists cok.
Qed.

Lemma merge_course_keeps_sections existing new_course r :
  has_classroom_sections existing = true →
  snapshot_sections new_course = true →
  merge_course existing new_course = Some r →
  has_classroom_sections r = true.
Proof.
  intros Hrecord Hsnapshot Hr.
  destruct (ok_flag new_course "classroom") as [[]|] eqn:Hflag.
  - rewrite merge_course_classroom_on in Hr by done.
    destruct (merge_classroom_section _ _) as [merged|] eqn:Hm; [|done].
    cbn [mbind option_bind] in Hr.
    apply merge_classroom_section_sections in Hm.
    destruct (ok_flag new_course "updates") as [[]|];
      try by injection Hr as <-.
    unfold merge_updates_section in Hr.
    destruct (merge_list_by_fingerprint _ _) as [announcements|]; [|done].
    injection Hr as <-. rewrite <-Hm.
    apply has_classroom_sections_fields; by rewrite dict_get_set_ne.
  - destruct (merge_course_classroom_off_fields existing new_course r)
      as (Hc & Hl & Hn); [done..|by right|].
    by rewrite (has_classroom_sections_fields r existing).
  - unfold ok_flag in Hflag. unfold merge_course in Hr.
    by destruct (py_or (py_get new_course "_ok") (VDict [])).
Qed.

(** * Main theorems *)

(** C1. When the classroom flag of the snapshot is false, the entity
    merge comes down to the deep structural merge followed, if the
    updates flag is set, by the announcements merge, and whatever it
    returns stores under [classroom], [lessons] and [lesson_count]
    exactly the values the record stored before; the per-lesson counts
    are part of the [lessons] value.  With the updates flag off the
    merge returns. *)
Theorem merge_course_section_guard (existing new_course : pydict)
    (Hrecord : has_classroom_sections existing = true)
    (Hsnapshot : snapshot_sections new_course = true)
    (Hflag : ok_flag new_course "classroom" = Some false) :
  let filled := merge_dict_fill_only existing (without_ok new_course) in
  merge_course existing new_course
  = (if ok_flag new_course "updates" is Some true
     then merge_updates_section filled new_course
     else Some filled)
  ∧ ∀ r, (r = filled ∨ merge_course existing new_course = Some r) →
         dict_get r "classroom" = dict_get existing "classroom"
         ∧ dict_get r "lessons" = dict_get existing "lessons"
         ∧ dict_get r "lesson_count" = dict_get existing "lesson_count".
Proof.
  intros filled. split; [by apply merge_course_classroom_off|].
  intros r Hr. by apply (merge_course_classroom_off_fields existing new_course).
Qed.

(** C2. When every collected snapshot has both flags false, the
    pipeline writes the outage signal and exits with status 0: it makes
    no [upsert_course] call (hence no entity merge) and no
    [save_master_json] call, and the store file is what it was.  The
    same holds for [main] as a whole once it has reached the scheduler. *)
Theorem outage_skips_merge_and_save (master_json : list value)
    (results : list pydict) (fs : files)
    (Houtage : Forall (λ r, both_flags_off r = true) results) :
  main_after_harvest master_json results fs
  = (SystemExit 0, write_skip_push fs, [CallSkipPush])
  ∧ master_file (write_skip_push fs) = master_file fs
  ∧ (∀ w batches_data w' c cs,
       safe_get BATCHES_URL w = (Gives (Some (batches_data, true)), w') →
       filter_courses (ensure_list batches_data) = Some (c :: cs) →
       load_master_json fs = Some master_json →
       harvest (c :: cs) = results →
       main w fs = (SystemExit 0, write_skip_push fs, [CallSkipPush])).
Proof.
  assert (Hafter : main_after_harvest master_json results fs
                   = (SystemExit 0, write_skip_push fs, [CallSkipPush])).
  { unfold main_after_harvest. by rewrite any_ok_anywhere_all_off. }
  split_and!; [done..|].
  intros w batches_data w' c cs Hget Hfilter Hload Hharvest.
  unfold main.
  rewrite Hget, (filter_courses_nonempty _ _ _ Hfilter), Hfilter, Hload, Hharvest.
  done.
Qed.

(** C3. The fill-only scalar merge stores the new value [n] under the
    field exactly when the existing value [e] (what [.get] answers, so
    [None] for an absent field) is blank and [n] is not; otherwise the
    whole mapping is left as it was, and in both cases every other field
    reads as before. *)
Theorem merge_scalar_fill_only_spec (existing : pydict) (k : string) (n : value) :
  let e := py_get existing k in
  let stores := is_blank e && negb (is_blank n) in
  py_get (merge_scalar_fill_only existing k n) k = (if stores then n else e)
  ∧ (if stores
     then merge_scalar_fill_only existing k n = dict_set existing k n
     else merge_scalar_fill_only existing k n = existing)
  ∧ ∀ k', k' ≠ k →
      dict_get (merge_scalar_fill_only existing k n) k' = dict_get existing k'.
Proof.
  cbv zeta. split; [apply merge_scalar_fill_only_get|]. split.
  - unfold merge_scalar_fill_only.
    by destruct (is_blank (py_get existing k) && negb (is_blank n)).
  - intros k' Hne. by apply merge_scalar_fill_only_other.
Qed.

(** C7. Where [safe_get] breaks the promise of its docstring, which
    says that it returns [(json_data_or_None, ok_bool)].  With a budget of zero or fewer
    attempts the loop body never runs and the function returns Python's
    [None], which is no pair, without sending a request.  With a budget
    of 1025 attempts or more and a server whose first 1025 answers are
    transient failures, the delay of attempt 1025 cannot be computed and
    an [OverflowError] leaves the function after 1025 requests. *)
Theorem safe_get_breaks_contract (url : string) (w : network) :
  (MAX_RETRIES ≤ 0 → safe_get url w = (Gives None, w))
  ∧ (1025 ≤ MAX_RETRIES →
     (∀ j, (j < 1025)%nat → retryable (outcome_at j url w) = true) →
     safe_get url w = (Overflows, run_attempts 1025 url w)).
Proof.
  unfold safe_get. split.
  - intros Hle. by assert (Z.to_nat MAX_RETRIES = 0%nat) as -> by lia.
  - intros Hge Hall.
    destruct (Z.to_nat MAX_RETRIES) as [|n] eqn:Hn; [lia|].
    apply (safe_get_loop_overflows url n 1 w 1024); [lia|lia|lia|].
    intros j Hj. apply Hall. lia.
Qed.

(** C8. Exactly [None], the empty string, the empty list and the empty
    mapping are blank; [0] and [False] are not, so the fill-only scalar
    merge never replaces a stored [0] or [False] and does store a fetched
    [0] or [False] into a blank field. *)
Theorem is_blank_exact :
  (∀ x, is_blank x = true
        ↔ x = VNone ∨ x = VStr "" ∨ x = VList [] ∨ x = VDict [])
  ∧ is_blank (VInt 0) = false
  ∧ is_blank (VBool false) = false
  ∧ (∀ (existing : pydict) k n,
       py_get existing k = VInt 0 ∨ py_get existing k = VBool false →
       merge_scalar_fill_only existing k n = existing)
  ∧ (∀ (existing : pydict) k n,
       is_blank (py_get existing k) = true →
       n = VInt 0 ∨ n = VBool false →
       py_get (merge_scalar_fill_only existing k n) k = n).
Proof.
  split; [apply is_blank_iff|]. do 2 (split; [done|]). split.
  - intros existing k n H. unfold merge_scalar_fill_only.
    by rewrite (is_blank_scalar_number _ H).
  - intros existing k n He Hn. rewrite merge_scalar_fill_only_get, He.
    by rewrite (is_blank_scalar_number _ Hn).
Qed.

(** C9. The fingerprint of a non-mapping item is its string form.
    Hence a non-mapping item [b] that comes after a non-mapping item [a]
    with the same string form (in the existing list or earlier in the
    new list) is not appended: the merge gives what it gives without
    [b].  So the string ["1"] is identified with the integer [1].  The
    merge returns whenever every item has a fingerprint, as every
    non-mapping item has. *)
Theorem fingerprint_merge_identifies_string_forms :
  (∀ item, is_dict item = false → fingerprint item = Some (py_str item))
  ∧ (∀ existing news a b,
       is_dict a = false → is_dict b = false →
       py_str a = py_str b →
       a ∈ existing ++ news →
       merge_list_by_fingerprint (VList existing) (VList (news ++ [b]))
       = merge_list_by_fingerprint (VList existing) (VList news))
  ∧ merge_list_by_fingerprint (VList [VInt 1]) (VList [VStr "1"]) = Some [VInt 1]
  ∧ (∀ existing news,
       Forall (λ x, is_Some (fingerprint x)) (existing ++ news) →
       is_Some (merge_list_by_fingerprint (VList existing) (VList news))).
Proof.
  split; [apply fingerprint_atom|].
  split; [|split; [done|apply merge_list_by_fingerprint_returns]].
  intros existing news a b Ha Hb Hstr Hin. unfold merge_list_by_fingerprint.
  destruct (index_by_fingerprint 0 existing ∅) as [idx|] eqn:Hidx; [|done].
  cbn [mbind option_bind]. rewrite merge_items_by_fingerprint_app.
  destruct (index_by_fingerprint_inv existing [] ∅ idx) as (Hinv & _ & Hcov);
    [by intros fp j|done|]. simpl in Hinv.
  destruct (merge_items_by_fingerprint news (existing, idx)) as [[l idx']|] eqn:Hrun;
    [|done].
  destruct (merge_items_by_fingerprint_inv _ _ _ _ Hinv Hrun) as (Hinv' & Hmono & Hcov').
  cbn [mbind option_bind merge_items_by_fingerprint].
  rewrite merge_item_by_fingerprint_known; [done..|].
  rewrite <-Hstr. simpl.
  apply elem_of_app in Hin as [Hin|Hin].
  - apply Hmono. eapply Hcov; [done|]. by apply fingerprint_atom.
  - eapply Hcov'; [done|]. by apply fingerprint_atom.
Qed.

(** C10. Keyed list merge always returns, and its result is a list
    [kept ++ appended]: [kept] has the entries of the existing list,
    each at its position and changed at most by deep structural merges
    with items of the new list; [appended] comes after them and consists
    of items of the new list, in the order of the new list (a mapping
    among them possibly enriched by later items with the same key). *)
Theorem merge_list_by_key_keeps_order (existing_list new_list : value)
    (key : string) :
  ∃ kept appended origin,
    merge_list_by_key existing_list new_list key = Some (kept ++ appended)
    ∧ Forall2 (filled_from (as_list new_list)) (as_list existing_list) kept
    ∧ origin `sublist_of` as_list new_list
    ∧ Forall2 (filled_from (as_list new_list)) origin appended.
Proof.
  rewrite merge_list_by_key_as_list.
  set (existing := as_list existing_list). set (news := as_list new_list).
  unfold merge_list_by_key.
  destruct (merge_items_by_key_inv key news existing news []
              (existing, index_by_key key 0 existing ∅))
    as ([l index] & Hrun & _ & origin & Hsub & HF); [done| |].
  { split; simpl.
    - apply (index_by_key_sound key [] existing). by intros sid i.
    - exists []. split; [done|]. rewrite app_nil_r.
      apply Forall_Forall2_diag, Forall_true. by constructor. }
  simpl in HF. apply Forall2_app_inv_l in HF as (kept & appended & Hk & Ha & ->).
  exists kept, appended, origin. by rewrite Hrun.
Qed.

(** * Further properties of the code *)

(** ** Deep structural merge, field by field *)

Lemma dict_get_not_key (d : pydict) k : k ∉ d.*1 → dict_get d k = None.
Proof.
  induction d as [|[k' v] d IH]; [done|]. simpl.
  intros [Hne Hnot]%not_elem_of_cons.
  destruct (String.eqb k' k) eqn:E; [|by apply IH].
  apply String.eqb_eq in E. congruence.
Qed.

Lemma dict_get_is_key (d : pydict) k v : dict_get d k = Some v → k ∈ d.*1.
Proof.
  induction d as [|[k' v'] d IH]; [done|]. simpl.
  destruct (String.eqb k' k) eqn:E.
  - apply String.eqb_eq in E. subst. intros _. by left.
  - intros H. right. by apply IH.
Qed.

Lemma dict_set_keys (d : pydict) k v :
  (dict_set d k v).*1 = if dict_get d k is Some _ then d.*1 else d.*1 ++ [k].
Proof.
  induction d as [|[k' v'] d IH]; [done|]. cbn [dict_set dict_get].
  destruct (String.eqb k' k) eqn:E; [done|].
  rewrite !fmap_cons, IH. by destruct (dict_get d k).
Qed.

Lemma merge_field_get (existing : pydict) k v :
  py_get (merge_field existing k v) k = merged_field existing k v.
Proof.
  unfold merge_field, merged_field.
  destruct v as [|b|n|s|l|items]; try apply merge_scalar_fill_only_get.
  - destruct (is_list (py_get existing k)); [done|]. apply py_get_set_eq.
  - destruct (is_dict (py_get existing k)) eqn:E.
    + destruct (py_get existing k); try done. by rewrite py_get_set_eq.
    + rewrite py_get_set_eq, py_get_set_eq.
      by destruct (py_get existing k).
Qed.

Lemma merge_dict_fill_only_other (new : pydict) : ∀ (existing : pydict) k,
  k ∉ new.*1 →
  dict_get (merge_dict_fill_only existing new) k = dict_get existing k.
Proof.
  induction new as [|[k' v] rest IH]; intros existing k Hk; [done|].
  simpl in Hk. apply not_elem_of_cons in Hk as [Hne Hk].
  rewrite merge_dict_fill_only_cons, IH by done.
  by apply merge_field_other.
Qed.

Lemma merge_dict_fill_only_get (new : pydict) : ∀ (existing : pydict) k v,
  NoDup new.*1 →
  dict_get new k = Some v →
  py_get (merge_dict_fill_only existing new) k = merged_field existing k v.
Proof.
  induction new as [|[k' v'] rest IH]; intros existing k v Hnd Hget; [done|].
  simpl in Hnd, Hget. apply NoDup_cons in Hnd as [Hk' Hnd].
  rewrite merge_dict_fill_only_cons.
  destruct (String.eqb k' k) eqn:E.
  - apply String.eqb_eq in E. subst k'. injection Hget as ->.
    unfold py_get at 1. rewrite merge_dict_fill_only_other by done.
    apply merge_field_get.
  - apply String.eqb_neq in E. rewrite (IH _ k v) by done.
    unfold merged_field, py_get. by rewrite merge_field_other.
Qed.

(** ** Deep structural merge: keys *)

Lemma dict_get_key_Some (d : pydict) k : k ∈ d.*1 → is_Some (dict_get d k).
Proof.
  induction d as [|[k' v] d IH]; [by intros ?%elem_of_nil|].
  cbn [dict_get]. rewrite fmap_cons. simpl.
  destruct (String.eqb k' k) eqn:E; [done|].
  intros [->|Hin]%elem_of_cons; [|by apply IH].
  by rewrite String.eqb_refl in E.
Qed.

Lemma dict_set_keys_cases (d : pydict) k w :
  ((dict_set d k w).*1 = d.*1)
  ∨ ((k ∉ d.*1) ∧ (dict_set d k w).*1 = d.*1 ++ [k]).
Proof.
  rewrite dict_set_keys. destruct (dict_get d k) eqn:E; [by left|].
  right. split; [|done]. intros [v Hv]%dict_get_key_Some. congruence.
Qed.

Lemma merge_field_keys (existing : pydict) k v :
  ((merge_field existing k v).*1 = existing.*1)
  ∨ ((k ∉ existing.*1) ∧ (merge_field existing k v).*1 = existing.*1 ++ [k]).
Proof.
  unfold merge_field. destruct v as [|b|n|s|l|items].
  1-4: unfold merge_scalar_fill_only; destruct (_ && _);
       [apply dict_set_keys_cases|by left].
  - destruct (is_list (py_get existing k)); [by left|apply dict_set_keys_cases].
  - destruct (is_dict (py_get existing k)) eqn:E.
    + destruct (py_get existing k) as [| | | | |sub] eqn:Hg; try done.
      left. rewrite dict_set_keys. unfold py_get in Hg.
      by destruct (dict_get existing k).
    + rewrite py_get_set_eq, dict_set_keys, dict_get_set_eq.
      apply dict_set_keys_cases.
Qed.

Lemma merge_dict_fill_only_keys (new : pydict) : ∀ existing : pydict,
  ∃ added,
    (merge_dict_fill_only existing new).*1 = existing.*1 ++ added
    ∧ added ⊆ new.*1
    ∧ (NoDup existing.*1 → NoDup (existing.*1 ++ added)).
Proof.
  induction new as [|[k v] rest IH]; intros existing.
  - exists []. rewrite app_nil_r. split_and!; [done| |done].
    intros x []%elem_of_nil.
  - rewrite merge_dict_fill_only_cons.
    destruct (IH (merge_field existing k v)) as (added & Hkeys & Hsub & Hnd).
    destruct (merge_field_keys existing k v) as [Hk|[Hnot Hk]]; rewrite Hk in *.
    + exists added. split_and!; [done| |done].
      intros x Hx. right. by apply Hsub.
    + exists (k :: added). rewrite <-app_assoc in *. simpl in *.
      split_and!; [done| |].
      * intros x [->|Hx]%elem_of_cons; [by left|]. right. by apply Hsub.
      * intros Hex. apply Hnd. rewrite NoDup_app. split_and!; [done| |].
        -- intros x Hx [->|[]%elem_of_nil]%elem_of_cons. done.
        -- apply NoDup_singleton.
Qed.

(** ** Deep structural merge: merging twice *)

Lemma absorbed_no_write (x : pydict) k v : absorbed x k v → merge_field x k v = x.
Proof.
  unfold absorbed, merge_field. destruct v as [|b|n|s|l|items];
    try (intros H; unfold merge_scalar_fill_only; by rewrite H).
  intros (sub & Hget & Hfix). unfold py_get. rewrite Hget. simpl.
  rewrite Hget. simpl. rewrite Hfix. by apply dict_set_same.
Qed.

Lemma absorbed_same_field (x x' : pydict) k v :
  dict_get x' k = dict_get x k → absorbed x k v → absorbed x' k v.
Proof.
  intros H. unfold absorbed, py_get. rewrite H. done.
Qed.

Lemma fill_only_settles e v :
  is_blank (if is_blank e && negb (is_blank v) then v else e)
  && negb (is_blank v) = false.
Proof.
  destruct (is_blank e) eqn:E, (is_blank v) eqn:E'; simpl; by rewrite ?E, ?E'.
Qed.

Lemma merge_field_absorbs (existing : pydict) k v :
  (∀ items, v = VDict items →
     ∀ sub, merge_dict_fill_only (merge_dict_fill_only sub items) items
            = merge_dict_fill_only sub items) →
  absorbed (merge_field existing k v) k v.
Proof.
  intros IH. pose proof (merge_field_get existing k v) as Hget.
  unfold absorbed. unfold merged_field in Hget.
  destruct v as [|b|n|s|l|items]; rewrite ?Hget;
    try apply fill_only_settles.
  - by destruct (is_list (py_get existing k)) eqn:E.
  - eexists. split; [|by apply (IH items eq_refl)].
    unfold py_get in Hget.
    destruct (dict_get (merge_field existing k (VDict items)) k) eqn:E;
      [by rewrite <-Hget|done].
Qed.

Lemma merge_dict_fill_only_absorbs (new : pydict) :
  NoDup new.*1 →
  Forall (λ kv, ∀ items, kv.2 = VDict items →
            ∀ sub, merge_dict_fill_only (merge_dict_fill_only sub items) items
                   = merge_dict_fill_only sub items) new →
  ∀ existing : pydict,
    Forall (λ kv, absorbed (merge_dict_fill_only existing new) kv.1 kv.2) new.
Proof.
  induction new as [|[k v] rest IH]; intros Hnd Hall existing; [done|].
  simpl in Hnd. apply NoDup_cons in Hnd as [Hk Hnd].
  apply Forall_cons in Hall as [Hv Hall].
  rewrite merge_dict_fill_only_cons. constructor; [|by apply IH].
  simpl. eapply absorbed_same_field; [|by apply merge_field_absorbs].
  by apply merge_dict_fill_only_other.
Qed.

Lemma merge_dict_fill_only_absorbed (items : pydict) : ∀ x : pydict,
  Forall (λ kv, absorbed x kv.1 kv.2) items →
  merge_dict_fill_only x items = x.
Proof.
  induction items as [|[k v] rest IH]; intros x Hall; [done|].
  apply Forall_cons in Hall as [Hkv Hall]. simpl in Hkv.
  rewrite merge_dict_fill_only_cons, absorbed_no_write by done. by apply IH.
Qed.

Lemma merge_dict_fill_only_twice (new : pydict) :
  wf_value (VDict new) = true →
  ∀ existing : pydict,
    merge_dict_fill_only (merge_dict_fill_only existing new) new
    = merge_dict_fill_only existing new.
Proof.
  remember (VDict new) as x eqn:Hx. revert new Hx.
  induction x as [| | | | |d IH] using value_ind; intros new [= ->] Hwf existing.
  apply wf_value_dict in Hwf as [Hnd Hwf].
  apply merge_dict_fill_only_absorbed, merge_dict_fill_only_absorbs; [done|].
  rewrite Forall_forall in IH. rewrite Forall_forall in Hwf.
  apply Forall_forall. intros [k v] Hkv items Hv sub. simpl in Hv. subst v.
  apply (IH (k, VDict items) Hkv items eq_refl), (Hwf (k, VDict items) Hkv).
Qed.

(** X1. The deep structural merge decides every field on its own.  A
    key that [new] does not hold reads as before.  Under a key for which
    [new] holds a scalar the merge is fill-only.  Under a key for which
    [new] holds a list the existing value stays if it is a list and is
    replaced by the empty list otherwise, so a stored scalar is lost.
    Under a key for which [new] holds a mapping the result is the merge
    of that mapping into the existing one, or into an empty mapping when
    the existing value is no mapping. *)
Theorem deep_merge_field_by_field (existing new : pydict) (k : string)
    (Hnew : NoDup new.*1) :
  match dict_get new k with
  | None =>
      dict_get (merge_dict_fill_only existing new) k = dict_get existing k
  | Some v =>
      py_get (merge_dict_fill_only existing new) k = merged_field existing k v
  end.
Proof.
  destruct (dict_get new k) as [v|] eqn:Hget.
  - by apply merge_dict_fill_only_get.
  - apply merge_dict_fill_only_other.
    intros [v Hv]%dict_get_key_Some. congruence.
Qed.

(** X2. Merging the same mapping a second time changes nothing. *)
Theorem deep_merge_idempotent (existing new : pydict)
    (Hwf : wf_value (VDict new) = true) :
  merge_dict_fill_only (merge_dict_fill_only existing new) new
  = merge_dict_fill_only existing new.
Proof. by apply merge_dict_fill_only_twice. Qed.

(** X3. The deep structural merge never removes or moves a key of the
    existing mapping: the keys of the result are the existing keys, in
    their order, followed by keys of [new], and no key gets repeated. *)
Theorem deep_merge_keeps_keys (existing new : pydict) :
  ∃ added,
    (merge_dict_fill_only existing new).*1 = existing.*1 ++ added
    ∧ added ⊆ new.*1
    ∧ (NoDup existing.*1 → NoDup (merge_dict_fill_only existing new).*1).
Proof.
  destruct (merge_dict_fill_only_keys new existing) as (added & Hk & Hsub & Hnd).
  exists added. by rewrite Hk.
Qed.

(** ** Keyed list merge: one entry per key *)

Lemma item_key_merged key (t d : pydict) sid :
  NoDup d.*1 →
  is_scalar (py_get d key) = true →
  item_key key (VDict t) = Some sid →
  item_key key (VDict d) = Some sid →
  item_key key (VDict (merge_dict_fill_only t d)) = Some sid.
Proof.
  intros Hnd Hscalar Ht Hd. simpl in *.
  destruct (usable_key (py_get t key)) eqn:Hut; [|done].
  destruct (usable_key (py_get d key)) eqn:Hud; [|done].
  destruct (dict_get d key) as [v|] eqn:Hget;
    [|by unfold py_get in Hud; rewrite Hget in Hud].
  assert (Hv : py_get d key = v) by (unfold py_get; by rewrite Hget).
  rewrite Hv in *.
  rewrite (merge_dict_fill_only_get d t key v Hnd Hget).
  unfold merged_field. destruct v as [|b|n|s|l|items]; try done;
    destruct (is_blank (py_get t key) && _); by rewrite ?Hut, ?Hud.
Qed.

Lemma omap_insert_same {A B} (f : A → option B) (l : list A) i x y :
  l !! i = Some x → f y = f x → omap f (<[i:=y]> l) = omap f l.
Proof.
  revert i. induction l as [|a l IH]; intros i Hi Hf; [done|].
  destruct i as [|i]; simpl in *.
  - injection Hi as ->. by rewrite Hf.
  - by rewrite IH.
Qed.

Lemma elem_of_list_insert_inv {A} (l : list A) i y x :
  x ∈ <[i:=y]> l → x = y ∨ x ∈ l.
Proof.
  intros [j Hj]%list_elem_of_lookup.
  destruct (decide (i = j)) as [->|Hne].
  - destruct (decide (j < length l)%nat) as [Hlt|Hge].
    + rewrite list_lookup_insert_eq in Hj by done. left. congruence.
    + rewrite list_insert_ge in Hj by lia. right.
      apply list_elem_of_lookup. eauto.
  - rewrite list_lookup_insert_ne in Hj by done. right.
    apply list_elem_of_lookup. eauto.
Qed.

Lemma keys_of_snoc key l x :
  keys_of key (l ++ [x])
  = keys_of key l ++ (if item_key key x is Some sid then [sid] else []).
Proof. unfold keys_of. rewrite omap_app. simpl. by destruct (item_key key x). Qed.

Lemma unique_keys_keep_plain key seen l index item :
  item_key key item = None →
  unique_keys_inv key seen (l, index) →
  unique_keys_inv key seen (append_if_absent l item, index).
Proof.
  intros Hk (He & Hc & Hnd & Hseen).
  destruct (append_if_absent_cases l item) as [-> | ->]; [done|].
  split_and!; simpl in *.
  - intros sid i Hi. destruct (He sid i Hi) as (x & Hx & Hkx). exists x.
    split; [|done]. rewrite lookup_app_l; [done|]. by eapply lookup_lt_Some.
  - intros x sid [Hx|Hx]%elem_of_app Hkx; [by eapply Hc|].
    apply list_elem_of_singleton in Hx. subst. congruence.
  - rewrite keys_of_snoc, Hk, app_nil_r. done.
  - done.
Qed.

Lemma unique_keys_update key seen l index sid i y :
  unique_keys_inv key seen (l, index) →
  index !! sid = Some i →
  item_key key y = Some sid →
  unique_keys_inv key (seen ++ [sid]) (<[i:=y]> l, index).
Proof.
  intros (He & Hc & Hnd & Hseen) Hi Hky. simpl in *.
  destruct (He sid i Hi) as (x & Hx & Hkx).
  split_and!; simpl.
  - intros sid' j Hj. destruct (He sid' j Hj) as (z & Hz & Hkz).
    destruct (decide (i = j)) as [->|Hne].
    + exists y. rewrite list_lookup_insert_eq by (by eapply lookup_lt_Some).
      split; [done|]. congruence.
    + exists z. by rewrite list_lookup_insert_ne.
  - intros z sid' [->|Hz]%elem_of_list_insert_inv Hkz; [|by eapply Hc].
    rewrite Hky in Hkz. injection Hkz as <-. by rewrite Hi.
  - unfold keys_of. rewrite (omap_insert_same _ _ _ x); [done..|]. congruence.
  - intros sid' [Hs|Hs]%elem_of_app; [by apply Hseen|].
    apply list_elem_of_singleton in Hs. subst. by rewrite Hi.
Qed.

Lemma unique_keys_append key seen l index sid y :
  unique_keys_inv key seen (l, index) →
  index !! sid = None →
  item_key key y = Some sid →
  unique_keys_inv key (seen ++ [sid]) (l ++ [y], <[sid:=length l]> index).
Proof.
  intros (He & Hc & Hnd & Hseen) Hi Hky. simpl in *.
  split_and!; simpl.
  - intros sid' j. rewrite lookup_insert. case_decide as Hs.
    + intros [= <-]. exists y. rewrite list_lookup_middle by done.
      split; [done|]. by rewrite <-Hs.
    + intros Hj. destruct (He sid' j Hj) as (z & Hz & Hkz). exists z.
      split; [|done]. rewrite lookup_app_l; [done|]. by eapply lookup_lt_Some.
  - intros z sid' Hz Hkz. rewrite lookup_insert. case_decide as Hs; [done|].
    apply elem_of_app in Hz as [Hz|Hz]; [by eapply Hc|].
    apply list_elem_of_singleton in Hz as ->. exfalso. apply Hs. congruence.
  - rewrite keys_of_snoc, Hky. apply NoDup_app. split_and!; [done| |].
    + intros s Hs [->|[]%elem_of_nil]%elem_of_cons.
      apply list_elem_of_omap in Hs as (z & Hz & Hkz).
      destruct (Hc z sid Hz Hkz) as [j Hj]. congruence.
    + apply NoDup_singleton.
  - intros sid' Hs. rewrite lookup_insert. case_decide as Hne; [done|].
    apply elem_of_app in Hs as [Hs|Hs]; [by apply Hseen|].
    apply list_elem_of_singleton in Hs. by destruct Hne.
Qed.

Lemma merge_item_by_key_unique key seen l index item st' :
  (∀ d, item = VDict d → NoDup d.*1 ∧ is_scalar (py_get d key) = true) →
  unique_keys_inv key seen (l, index) →
  merge_item_by_key key (l, index) item = Some st' →
  unique_keys_inv key
    (seen ++ (if item_key key item is Some sid then [sid] else [])) st'.
Proof.
  intros Hitem Hinv Hrun. unfold merge_item_by_key in Hrun.
  destruct item as [| | | | |d];
    try (injection Hrun as <-; simpl; rewrite app_nil_r;
         by apply unique_keys_keep_plain).
  destruct (Hitem d eq_refl) as [Hd Hscalar]. simpl.
  destruct (usable_key (py_get d key)) eqn:Hu.
  2: { injection Hrun as <-. rewrite app_nil_r.
       apply unique_keys_keep_plain; [|done]. simpl. by rewrite Hu. }
  assert (Hkd : item_key key (VDict d) = Some (py_str (py_get d key)))
    by (simpl; by rewrite Hu).
  destruct (index !! py_str (py_get d key)) as [i|] eqn:Hi.
  - destruct Hinv as (He & Hrest). destruct (He _ i Hi) as (x & Hx & Hkx).
    simpl in Hx. rewrite Hx in Hrun.
    destruct x as [| | | | |t]; try done. injection Hrun as <-.
    apply unique_keys_update; [done..|]. by apply item_key_merged.
  - injection Hrun as <-. by apply unique_keys_append.
Qed.

Lemma merge_items_by_key_unique key news : ∀ seen st st',
  Forall (λ x, ∀ d, x = VDict d →
            NoDup d.*1 ∧ is_scalar (py_get d key) = true) news →
  unique_keys_inv key seen st →
  merge_items_by_key key news st = Some st' →
  unique_keys_inv key (seen ++ keys_of key news) st'.
Proof.
  induction news as [|item rest IH]; intros seen st st' Hall Hinv Hrun.
  - injection Hrun as <-. by rewrite app_nil_r.
  - apply Forall_cons in Hall as [Hitem Hall].
    cbn [merge_items_by_key] in Hrun. destruct st as [l index].
    destruct (merge_item_by_key key (l, index) item) as [st1|] eqn:Hstep; [|done].
    cbn [mbind option_bind] in Hrun.
    pose proof (merge_item_by_key_unique _ _ _ _ _ _ Hitem Hinv Hstep) as Hinv1.
    pose proof (IH _ _ _ Hall Hinv1 Hrun) as Hinv'.
    unfold keys_of in *. simpl.
    destruct (item_key key item); rewrite <-?app_assoc in Hinv'; simpl in Hinv';
      done.
Qed.

Lemma scalar_keys_items key news :
  wf_value (VList news) = true →
  scalar_keys key news = true →
  Forall (λ x, ∀ d, x = VDict d →
            NoDup d.*1 ∧ is_scalar (py_get d key) = true) news.
Proof.
  intros Hwf%wf_value_list Hs. apply Forall_forall. intros x Hx d ->.
  rewrite Forall_forall in Hwf. split.
  - by apply wf_value_dict, Hwf.
  - unfold scalar_keys in Hs.
    apply (proj1 (forallb_forall _ _) Hs (VDict d)). by apply list_elem_of_In.
Qed.

(** X4. Keyed list merge keeps one entry per key.  When no two entries
    of the existing list share a canonical key and the ids of the new
    items are scalars, no two entries of the result share one, and every
    key of the existing list and of the new list is the key of an
    entry of the result. *)
Theorem merge_list_by_key_unique_keys (existing news : list value)
    (key : string)
    (Hnew : wf_value (VList news) = true)
    (Hscalar : scalar_keys key news = true)
    (Hunique : NoDup (keys_of key existing)) :
  ∃ r, merge_list_by_key (VList existing) (VList news) key = Some r
       ∧ NoDup (keys_of key r)
       ∧ ∀ sid, sid ∈ keys_of key existing ++ keys_of key news →
                sid ∈ keys_of key r.
Proof.
  destruct (merge_list_by_key_returns (VList existing) (VList news) key)
    as [r Hr].
  exists r. split; [done|]. unfold merge_list_by_key in Hr.
  destruct (merge_items_by_key key news
              (existing, index_by_key key 0 existing ∅))
    as [[l index]|] eqn:Hrun; [|done].
  injection Hr as <-.
  assert (Hinit : unique_keys_inv key (keys_of key existing)
                    (existing, index_by_key key 0 existing ∅)).
  { split_and!; simpl.
    - apply (index_by_key_exact key existing []). by intros sid i.
    - apply index_by_key_covers.
    - done.
    - intros sid (x & Hx & Hkx)%list_elem_of_omap.
      by eapply (proj2 (index_by_key_covers key existing 0 ∅)). }
  destruct (merge_items_by_key_unique key news _ _ _
              (scalar_keys_items key news Hnew Hscalar) Hinit Hrun)
    as (He & _ & Hnd & Hseen). simpl in *.
  split; [done|]. intros sid Hsid. destruct (Hseen sid Hsid) as [i Hi].
  destruct (He sid i Hi) as (x & Hx & Hkx).
  apply list_elem_of_omap. exists x. split; [|done].
  apply list_elem_of_lookup. eauto.
Qed.

(** ** Fingerprint list merge: order, failure and identification *)

Lemma merge_item_by_fingerprint_order news existing done l idx item st' :
  item ∈ news →
  fp_merge_inv news existing done (l, idx) →
  merge_item_by_fingerprint (l, idx) item = Some st' →
  fp_merge_inv news existing (done ++ [item]) st'.
Proof.
  intros Hin [Hinv (origin & Hsub & HF)] Hrun. simpl in *.
  split; [by destruct (merge_item_by_fingerprint_inv _ _ _ _ Hinv Hrun)|].
  unfold merge_item_by_fingerprint in Hrun.
  destruct (fingerprint item) as [fp|]; [|done]. simpl in Hrun.
  destruct (idx !! fp) as [i|].
  - destruct (l !! i) as [target|] eqn:Ht; [|done]. simpl in Hrun.
    assert (Hsame : ∃ origin', origin' `sublist_of` done ++ [item]
                      ∧ Forall2 (filled_from news) (existing ++ origin') l).
    { exists origin. split; [by apply sublist_inserts_r|done]. }
    destruct target as [| | | | |t], item as [| | | | |d];
      injection Hrun as <-; try done. simpl.
    exists origin. split; [by apply sublist_inserts_r|].
    destruct (Forall2_lookup_r _ _ _ _ _ HF Ht) as (x & Hx & Hfilled).
    eapply Forall2_update_r; [done..|]. by constructor.
  - injection Hrun as <-. simpl. exists (origin ++ [item]).
    split; [by apply sublist_app|].
    rewrite app_assoc. apply Forall2_app; [done|]. repeat constructor.
Qed.

Lemma merge_items_by_fingerprint_order news existing rest : ∀ done st st',
  news = done ++ rest →
  fp_merge_inv news existing done st →
  merge_items_by_fingerprint rest st = Some st' →
  fp_merge_inv news existing news st'.
Proof.
  induction rest as [|item rest IH]; intros done st st' Hnews Hinv Hrun.
  - rewrite app_nil_r in Hnews. injection Hrun as <-. by rewrite <-Hnews in Hinv.
  - cbn [merge_items_by_fingerprint] in Hrun. destruct st as [l idx].
    destruct (merge_item_by_fingerprint (l, idx) item) as [st1|] eqn:Hstep; [|done].
    cbn [mbind option_bind] in Hrun.
    apply (IH (done ++ [item]) st1); [by rewrite <-app_assoc| |done].
    eapply merge_item_by_fingerprint_order; [|done..].
    rewrite Hnews. apply elem_of_app. right. by left.
Qed.

Lemma index_by_fingerprint_needs items : ∀ i idx,
  is_Some (index_by_fingerprint i items idx) →
  Forall (λ x, is_Some (fingerprint x)) items.
Proof.
  induction items as [|x items IH]; intros i idx Hrun; [done|].
  simpl in Hrun. destruct (fingerprint x) as [fp|] eqn:Hfp;
    [|by destruct Hrun]. constructor; [by rewrite Hfp|by eapply IH].
Qed.

Lemma merge_items_by_fingerprint_needs news : ∀ st,
  is_Some (merge_items_by_fingerprint news st) →
  Forall (λ x, is_Some (fingerprint x)) news.
Proof.
  induction news as [|x news IH]; intros st Hrun; [done|].
  cbn [merge_items_by_fingerprint] in Hrun.
  destruct (merge_item_by_fingerprint st x) as [st1|] eqn:Hstep;
    [|by destruct Hrun].
  constructor; [|by eapply IH].
  unfold merge_item_by_fingerprint in Hstep. destruct st as [l idx].
  by destruct (fingerprint x).
Qed.

(** A known fingerprint: the item is merged into the entry that the
    index names, or dropped; the list keeps its length. *)
Lemma merge_item_by_fingerprint_hit l idx b fp :
  fp_index_inv l idx →
  fingerprint b = Some fp →
  is_Some (idx !! fp) →
  ∃ l', merge_item_by_fingerprint (l, idx) b = Some (l', idx)
        ∧ Forall2 (filled_from [b]) l l'.
Proof.
  intros Hinv Hfp [i Hi]. unfold merge_item_by_fingerprint.
  rewrite Hfp. simpl. rewrite Hi.
  destruct (lookup_lt_is_Some_2 l i (Hinv _ _ Hi)) as [target Ht].
  rewrite Ht. simpl.
  assert (Hrefl : Forall2 (filled_from [b]) l l).
  { apply Forall_Forall2_diag, Forall_true. by constructor. }
  destruct target as [| | | | |t], b as [| | | | |d]; try (by eexists).
  eexists. split; [done|].
  eapply Forall2_update_r; [done..|]. constructor; [by constructor|by left].
Qed.

Lemma first_id_field_first_id (item : pydict) ks :
  first_id_field item ks
  = (λ kv : string * value, kv.1 +:+ ":" +:+ py_str kv.2) <$> first_id item ks.
Proof.
  induction ks as [|k ks IH]; [done|]. simpl.
  by destruct (is_blank (py_get item k)).
Qed.

Lemma first_id_field_in (item : pydict) ks k v :
  first_id item ks = Some (k, v) → k ∈ ks ∧ v = py_get item k ∧ is_blank v = false.
Proof.
  induction ks as [|k' ks IH]; [done|]. simpl.
  destruct (is_blank (py_get item k')) eqn:Hb.
  - intros (? & ? & ?)%IH. split_and!; [by right|done..].
  - intros [= <- <-]. split_and!; [by left|done..].
Qed.

Lemma fingerprint_first_id (item : pydict) k v :
  first_id item id_fields = Some (k, v) →
  fingerprint (VDict item) = Some (k +:+ ":" +:+ py_str v).
Proof.
  intros H. unfold fingerprint.
  change ["id"; "notice_id"; "_id"; "update_id"] with id_fields.
  by rewrite first_id_field_first_id, H.
Qed.

Lemma tagged_inj k1 k2 s1 s2 :
  k1 ∈ id_fields → k2 ∈ id_fields →
  k1 +:+ ":" +:+ s1 = k2 +:+ ":" +:+ s2 → k1 = k2 ∧ s1 = s2.
Proof.
  unfold id_fields. intros H1 H2.
  repeat (apply elem_of_cons in H1 as [->|H1]);
    try (by apply elem_of_nil in H1);
    repeat (apply elem_of_cons in H2 as [->|H2]);
    try (by apply elem_of_nil in H2);
    simpl; intros [=]; done.
Qed.

(** X5. Merge by fingerprint keeps order, and raises only on an item
    without a fingerprint.  When it returns, every item of both lists
    has a fingerprint and the result is [kept ++ appended]: [kept] has
    the existing entries, each at its position and changed at most by
    deep structural merges with new items; [appended] comes after them
    and follows the order of the new list.  When it raises, some item of
    the two lists has no fingerprint (the hash of its body raises). *)
Theorem merge_list_by_fingerprint_keeps_order (existing news : list value) :
  match merge_list_by_fingerprint (VList existing) (VList news) with
  | Some r =>
      Forall (λ x, is_Some (fingerprint x)) (existing ++ news)
      ∧ ∃ kept appended origin,
          r = kept ++ appended
          ∧ Forall2 (filled_from news) existing kept
          ∧ origin `sublist_of` news
          ∧ Forall2 (filled_from news) origin appended
  | None => ∃ item, item ∈ existing ++ news ∧ fingerprint item = None
  end.
Proof.
  destruct (merge_list_by_fingerprint (VList existing) (VList news))
    as [r|] eqn:Hrun.
  - unfold merge_list_by_fingerprint in Hrun.
    destruct (index_by_fingerprint 0 existing ∅) as [idx|] eqn:Hidx; [|done].
    cbn [mbind option_bind] in Hrun.
    destruct (merge_items_by_fingerprint news (existing, idx))
      as [[l idx']|] eqn:Hloop; [|done].
    injection Hrun as <-. split.
    + apply Forall_app. split.
      * apply (index_by_fingerprint_needs existing 0 ∅). by rewrite Hidx.
      * apply (merge_items_by_fingerprint_needs news (existing, idx)).
        by rewrite Hloop.
    + destruct (index_by_fingerprint_inv existing [] ∅ idx) as (Hinv & _);
        [by intros fp j|done|]. simpl in Hinv.
      destruct (merge_items_by_fingerprint_order news existing news []
                  (existing, idx) (l, idx')) as (_ & origin & Hsub & HF);
        [done| |done|].
      { split; [done|]. exists []. split; [done|]. rewrite app_nil_r.
        apply Forall_Forall2_diag, Forall_true. by constructor. }
      simpl in HF.
      apply Forall2_app_inv_l in HF as (kept & appended & Hk & Ha & ->).
      by exists kept, appended, origin.
  - destruct (decide (Forall (λ x, is_Some (fingerprint x)) (existing ++ news)))
      as [Hall|Hnot].
    + apply merge_list_by_fingerprint_returns in Hall.
      rewrite Hrun in Hall. by destruct Hall.
    + apply not_Forall_Exists in Hnot; [|apply _].
      apply Exists_exists in Hnot as (item & Hin & Hfp).
      exists item. split; [done|].
      simpl in Hfp. destruct (fingerprint item); [|done].
      exfalso. apply Hfp. eauto.
Qed.

(** X6. Announcements are identified by their tagged identifier.  The
    fingerprint of a mapping with a non-blank identifier field is the
    name of the first such field, a colon and the string form of its
    value; so two mappings have the same fingerprint exactly when they
    use the same field and the values have the same string form (the
    number 5 and the string 5 alike), and the same value under two
    different fields never identifies them.  An item whose fingerprint
    is that of an earlier item is never appended: the list keeps its
    length and the item is at most merged into an entry. *)
Theorem fingerprint_merge_identifies_ids :
  (∀ a b k1 v1 k2 v2,
     first_id a id_fields = Some (k1, v1) →
     first_id b id_fields = Some (k2, v2) →
     fingerprint (VDict a) = Some (k1 +:+ ":" +:+ py_str v1)
     ∧ (fingerprint (VDict a) = fingerprint (VDict b)
        ↔ k1 = k2 ∧ py_str v1 = py_str v2))
  ∧ (∀ existing news a b,
       a ∈ existing ++ news →
       fingerprint a = fingerprint b →
       match merge_list_by_fingerprint (VList existing) (VList news),
             merge_list_by_fingerprint (VList existing) (VList (news ++ [b]))
       with
       | Some r, Some r' => Forall2 (filled_from [b]) r r'
       | None, None => True
       | _, _ => False
       end).
Proof.
  split.
  - intros a b k1 v1 k2 v2 Ha Hb.
    rewrite (fingerprint_first_id a k1 v1 Ha), (fingerprint_first_id b k2 v2 Hb).
    split; [done|]. split.
    + intros [= Heq]. apply tagged_inj in Heq; [done|..].
      * by apply first_id_field_in in Ha as [? _].
      * by apply first_id_field_in in Hb as [? _].
    + by intros [-> ->].
  - intros existing news a b Hin Hfp. unfold merge_list_by_fingerprint.
    destruct (index_by_fingerprint 0 existing ∅) as [idx|] eqn:Hidx; [|done].
    cbn [mbind option_bind]. rewrite merge_items_by_fingerprint_app.
    destruct (index_by_fingerprint_inv existing [] ∅ idx) as (Hinv & _ & Hcov);
      [by intros fp j|done|]. simpl in Hinv.
    destruct (merge_items_by_fingerprint news (existing, idx))
      as [[l idx']|] eqn:Hrun; [|done].
    destruct (merge_items_by_fingerprint_inv _ _ _ _ Hinv Hrun)
      as (Hinv' & Hmono & Hcov').
    cbn [mbind option_bind merge_items_by_fingerprint fmap option_fmap option_map].
    assert (Hfpa : is_Some (fingerprint a)).
    { apply elem_of_app in Hin as [Hin|Hin].
      - pose proof (index_by_fingerprint_needs existing 0 ∅) as Hall.
        rewrite Hidx in Hall. specialize (Hall ltac:(done)).
        by apply (proj1 (Forall_forall _ _) Hall).
      - pose proof (merge_items_by_fingerprint_needs news (existing, idx)) as Hall.
        rewrite Hrun in Hall. specialize (Hall ltac:(done)).
        by apply (proj1 (Forall_forall _ _) Hall). }
    destruct Hfpa as [fp Hfpa].
    destruct (merge_item_by_fingerprint_hit l idx' b fp) as (l' & -> & HF);
      [done|congruence| |done].
    apply elem_of_app in Hin as [Hin|Hin].
    + apply Hmono. by eapply Hcov.
    + by eapply Hcov'.
Qed.

(** ** Entity merge: what it leaves alone *)

Lemma keeps_fields_refl (d : pydict) : keeps_fields d d.
Proof. exists []. by rewrite app_nil_r. Qed.

Lemma keeps_fields_trans (d r s : pydict) :
  keeps_fields d r → keeps_fields r s → keeps_fields d s.
Proof.
  intros (a1 & H1 & N1) (a2 & H2 & N2). exists (a1 ++ a2).
  split; [by rewrite H2, H1, app_assoc|auto].
Qed.

Lemma keeps_fields_set (d : pydict) k v : keeps_fields d (dict_set d k v).
Proof.
  destruct (dict_set_keys_cases d k v) as [H|[Hk H]].
  - exists []. rewrite app_nil_r. split; [done|]. by rewrite H.
  - exists [k]. split; [done|]. rewrite H. intros Hnd.
    apply NoDup_app. split_and!; [done| |apply NoDup_singleton].
    intros x Hx ->%list_elem_of_singleton. done.
Qed.

Lemma keeps_fields_merge (existing new : pydict) :
  keeps_fields existing (merge_dict_fill_only existing new).
Proof.
  destruct (merge_dict_fill_only_keys new existing) as (added & H & _ & Hnd).
  exists added. split; [done|]. by rewrite H.
Qed.

Lemma merge_classroom_section_frame existing_course new_course r :
  merge_classroom_section existing_course new_course = Some r →
  keeps_fields existing_course r
  ∧ ∀ k, k ∉ ["classroom"; "lessons"; "lesson_count"] →
         dict_get r k = dict_get existing_course k.
Proof.
  unfold merge_classroom_section. intros H.
  destruct (merge_list_by_key _ _ "id") as [classroom|]; [|done].
  cbn [mbind option_bind] in H.
  destruct (merge_lessons _ _) as [[lessons idx]|]; [|done].
  cbn [mbind option_bind fst] in H.
  destruct (sum_lesson_counts lessons 0) as [total|]; [|done].
  injection H as <-. split.
  - eapply keeps_fields_trans; [|apply keeps_fields_set].
    eapply keeps_fields_trans; [|apply keeps_fields_set].
    apply keeps_fields_set.
  - intros k Hk. rewrite !dict_get_set_ne; [done|..];
      intros ->; apply Hk; repeat constructor.
Qed.

Lemma merge_updates_section_frame existing_course new_course r :
  merge_updates_section existing_course new_course = Some r →
  keeps_fields existing_course r
  ∧ ∀ k, k ≠ "announcements" → dict_get r k = dict_get existing_course k.
Proof.
  unfold merge_updates_section. intros H.
  destruct (merge_list_by_fingerprint _ _) as [announcements|]; [|done].
  injection H as <-. split; [apply keeps_fields_set|].
  intros k Hk. by rewrite dict_get_set_ne.
Qed.

Lemma without_ok_keys new_course : "_ok" ∉ (without_ok new_course).*1.
Proof.
  unfold without_ok. intros ([k v] & Hk & Hin)%list_elem_of_fmap.
  apply list_elem_of_filter in Hin as [Hne _]. simpl in *. congruence.
Qed.

Lemma without_ok_get new_course k :
  k ≠ "_ok" → dict_get (without_ok new_course) k = dict_get new_course k.
Proof.
  intros Hk. unfold without_ok.
  induction new_course as [|[k' v] rest IH]; [done|].
  rewrite filter_cons. simpl. destruct (decide (k' ≠ "_ok")) as [Hd|Hd]; simpl.
  - by rewrite IH.
  - apply dec_stable in Hd. rewrite IH.
    destruct (String.eqb k' k) eqn:E; [|done].
    apply String.eqb_eq in E. congruence.
Qed.

Lemma without_ok_NoDup new_course :
  NoDup new_course.*1 → NoDup (without_ok new_course).*1.
Proof.
  intros H. eapply sublist_NoDup; [done|].
  unfold without_ok. apply fmap_sublist, sublist_filter.
Qed.

Lemma merge_course_frame_fields existing new_course r :
  merge_course existing new_course = Some r →
  keeps_fields existing r
  ∧ ∀ k, k ∉ section_keys →
         dict_get r k
         = dict_get (merge_dict_fill_only existing (without_ok new_course)) k.
Proof.
  unfold merge_course. intros H.
  set (filled := merge_dict_fill_only existing (without_ok new_course)) in *.
  pose proof (keeps_fields_merge existing (without_ok new_course)) as Hfilled.
  fold filled in Hfilled.
  destruct (py_or (py_get new_course "_ok") (VDict [])) as [| | | | |ok];
    try done.
  assert (Hfirst : ∀ r1,
    (if truthy (py_get ok "classroom")
     then merge_classroom_section filled new_course else Some filled) = Some r1 →
    keeps_fields existing r1
    ∧ ∀ k, k ∉ section_keys → dict_get r1 k = dict_get filled k).
  { intros r1 H1. destruct (truthy (py_get ok "classroom")).
    - apply merge_classroom_section_frame in H1 as [Hk Hf].
      split; [by eapply keeps_fields_trans|].
      intros k Hk'. apply Hf. intros Hin. apply Hk'. unfold section_keys.
      repeat (apply elem_of_cons in Hin as [->|Hin]);
        try (by repeat constructor); by apply elem_of_nil in Hin.
    - by injection H1 as <-. }
  destruct (if truthy (py_get ok "classroom") then _ else _) as [r1|]; [|done].
  cbn [mbind option_bind] in H.
  destruct (Hfirst r1 eq_refl) as [Hk1 Hf1].
  destruct (truthy (py_get ok "updates")); [|by injection H as <-].
  apply merge_updates_section_frame in H as [Hk Hf].
  split; [by eapply keeps_fields_trans|].
  intros k Hk'. rewrite Hf; [by apply Hf1|].
  intros ->. apply Hk'. unfold section_keys. repeat constructor.
Qed.

Lemma merge_course_keeps_flags existing new_course r :
  merge_course existing new_course = Some r →
  dict_get r "_ok" = dict_get existing "_ok".
Proof.
  intros [_ Hf]%merge_course_frame_fields. rewrite Hf.
  - apply merge_dict_fill_only_other, without_ok_keys.
  - unfold section_keys. intros Hin.
    repeat (apply elem_of_cons in Hin as [Hin|Hin]; [done|]).
    by apply elem_of_nil in Hin.
Qed.

(** ** Entity merge: no entry is dropped *)

Lemma merge_list_by_key_length existing_list new_list key r :
  merge_list_by_key existing_list new_list key = Some r →
  (length (as_list existing_list) ≤ length r)%nat.
Proof.
  rewrite merge_list_by_key_as_list.
  set (existing := as_list existing_list). set (news := as_list new_list).
  unfold merge_list_by_key.
  destruct (merge_items_by_key_inv key news existing news []
              (existing, index_by_key key 0 existing ∅))
    as ([l index] & Hrun & _ & origin & Hsub & HF); [done| |].
  { split; simpl.
    - apply (index_by_key_sound key [] existing). by intros sid i.
    - exists []. split; [done|]. rewrite app_nil_r.
      apply Forall_Forall2_diag, Forall_true. by constructor. }
  rewrite Hrun. intros [= <-]. simpl in *.
  apply Forall2_length in HF. rewrite length_app in HF. lia.
Qed.

Lemma entries_get_or (d : pydict) k :
  as_list (py_get_or d k (VList [])) = entries d k.
Proof. apply as_list_get_or. Qed.

Lemma append_if_absent_length l x :
  (length l ≤ length (append_if_absent l x))%nat.
Proof.
  destruct (append_if_absent_cases l x) as [-> | ->]; [done|].
  rewrite length_app. lia.
Qed.

Lemma merge_lesson_length l idx lesson st' :
  merge_lesson (l, idx) lesson = Some st' → (length l ≤ length st'.1)%nat.
Proof.
  unfold merge_lesson. intros H.
  destruct lesson as [| | | | |d];
    try (injection H as <-; apply append_if_absent_length).
  destruct (usable_key (py_get d "lesson_id"));
    [|injection H as <-; apply append_if_absent_length].
  destruct (idx !! py_str (py_get d "lesson_id")) as [i|].
  - destruct (l !! i) as [[| | | | |target]|]; try done.
    destruct (merge_list_by_key _ _ "id") as [videos|]; [|done].
    cbn [mbind option_bind] in H.
    destruct (merge_list_by_key _ _ "id") as [notes|]; [|done].
    injection H as <-. simpl. by rewrite length_insert.
  - injection H as <-. simpl. rewrite length_app. lia.
Qed.

Lemma merge_lessons_length new_lessons : ∀ st st',
  merge_lessons new_lessons st = Some st' → (length st.1 ≤ length st'.1)%nat.
Proof.
  induction new_lessons as [|lesson rest IH]; intros st st' H.
  - by injection H as <-.
  - cbn [merge_lessons] in H. destruct st as [l idx].
    destruct (merge_lesson (l, idx) lesson) as [st1|] eqn:Hstep; [|done].
    cbn [mbind option_bind] in H.
    apply merge_lesson_length in Hstep. apply IH in H. simpl in *. lia.
Qed.

Lemma merge_list_by_fingerprint_length existing_list new_list r :
  merge_list_by_fingerprint existing_list new_list = Some r →
  (length (as_list existing_list) ≤ length r)%nat.
Proof.
  unfold merge_list_by_fingerprint.
  set (existing := match existing_list with VList l => l | _ => [] end).
  assert (as_list existing_list = existing) as -> by done.
  destruct new_list as [| | | |news|]; try by intros [= <-].
  destruct (index_by_fingerprint 0 existing ∅) as [idx|] eqn:Hidx; [|done].
  cbn [mbind option_bind].
  destruct (merge_items_by_fingerprint news (existing, idx))
    as [[l idx']|] eqn:Hloop; [|done].
  intros [= <-].
  destruct (index_by_fingerprint_inv existing [] ∅ idx) as (Hinv & _);
    [by intros fp j|done|]. simpl in Hinv.
  destruct (merge_items_by_fingerprint_order news existing news []
              (existing, idx) (l, idx')) as (_ & origin & Hsub & HF);
    [done| |done|].
  { split; [done|]. exists []. split; [done|]. rewrite app_nil_r.
    apply Forall_Forall2_diag, Forall_true. by constructor. }
  simpl in *. apply Forall2_length in HF. rewrite length_app in HF. lia.
Qed.

Lemma entries_filled existing new_course k :
  field_ok is_list k new_course = true →
  (length (entries existing k)
   ≤ length (entries (merge_dict_fill_only existing (without_ok new_course)) k))%nat.
Proof.
  intros Hk. unfold entries.
  destruct (is_list (py_get existing k)) eqn:Hl.
  - unfold py_get.
    rewrite (merge_dict_fill_only_keeps_list k (without_ok new_course) existing);
      [done..|by apply field_ok_without_ok].
  - destruct (py_get existing k); try done; simpl; lia.
Qed.

Lemma entries_same (r r' : pydict) k :
  dict_get r' k = dict_get r k → entries r' k = entries r k.
Proof. intros H. unfold entries, py_get. by rewrite H. Qed.

Lemma merge_classroom_section_grows existing_course new_course r k :
  k ≠ "lesson_count" →
  merge_classroom_section existing_course new_course = Some r →
  (length (entries existing_course k) ≤ length (entries r k))%nat.
Proof.
  intros Hk H.
  destruct (decide (k ∈ ["classroom"; "lessons"; "lesson_count"])) as [Hin|Hout].
  2: { apply merge_classroom_section_frame in H as [_ Hf].
       by rewrite (entries_same existing_course r k) by (by apply Hf). }
  unfold merge_classroom_section in H.
  destruct (merge_list_by_key _ _ "id") as [classroom|] eqn:Hc; [|done].
  cbn [mbind option_bind] in H.
  destruct (merge_lessons _ _) as [[lessons idx]|] eqn:Hl; [|done].
  cbn [mbind option_bind fst] in H.
  destruct (sum_lesson_counts lessons 0) as [total|]; [|done].
  injection H as <-.
  apply merge_list_by_key_length in Hc. rewrite entries_get_or in Hc.
  apply merge_lessons_length in Hl. simpl in Hl.
  rewrite as_list_get_or, py_get_set_ne in Hl by done.
  fold (entries existing_course "lessons") in Hl.
  repeat (apply elem_of_cons in Hin as [->|Hin]); try done.
  - unfold entries at 2. do 2 rewrite py_get_set_ne by done.
    by rewrite py_get_set_eq.
  - unfold entries at 2. rewrite py_get_set_ne by done.
    by rewrite py_get_set_eq.
  - by apply elem_of_nil in Hin.
Qed.

Lemma merge_updates_section_grows existing_course new_course r k :
  merge_updates_section existing_course new_course = Some r →
  (length (entries existing_course k) ≤ length (entries r k))%nat.
Proof.
  intros H. destruct (decide (k = "announcements")) as [->|Hne].
  2: { apply merge_updates_section_frame in H as [_ Hf].
       by rewrite (entries_same existing_course r k) by (by apply Hf). }
  unfold merge_updates_section in H.
  destruct (merge_list_by_fingerprint _ _) as [announcements|] eqn:Ha; [|done].
  injection H as <-. unfold entries at 2. rewrite py_get_set_eq.
  apply merge_list_by_fingerprint_length in Ha.
  by rewrite entries_get_or in Ha.
Qed.

(** X7. What the entity merge leaves alone.  Whenever [merge_course]
    returns, the record has its former fields in their former order
    (new ones come after, none is removed or repeated); the transient
    flags [_ok] of the snapshot are not copied into the record; and a
    field other than [classroom], [lessons], [lesson_count] and
    [announcements] is exactly what the deep structural merge with the
    snapshot makes of it. *)
Theorem merge_course_frame (existing new_course r : pydict)
    (Hr : merge_course existing new_course = Some r) :
  keeps_fields existing r
  ∧ dict_get r "_ok" = dict_get existing "_ok"
  ∧ ∀ k, k ∉ section_keys →
         dict_get r k
         = dict_get (merge_dict_fill_only existing (without_ok new_course)) k.
Proof.
  split_and!.
  - by apply merge_course_frame_fields in Hr as [? _].
  - by eapply merge_course_keeps_flags.
  - by apply merge_course_frame_fields in Hr as [_ ?].
Qed.

(** X8. The section guard for announcements.  When the updates flag of
    the snapshot is false, whatever [merge_course] returns stores under
    [announcements] the list stored before, whether or not the
    classroom section was merged. *)
Theorem merge_course_updates_guard (existing new_course r : pydict)
    (Hlist : is_list (py_get existing "announcements") = true)
    (Hsnapshot : field_ok is_list "announcements" new_course = true)
    (Hflag : ok_flag new_course "updates" = Some false)
    (Hr : merge_course existing new_course = Some r) :
  dict_get r "announcements" = dict_get existing "announcements".
Proof.
  set (filled := merge_dict_fill_only existing (without_ok new_course)).
  assert (Hfilled : dict_get filled "announcements"
                    = dict_get existing "announcements")
    by (by apply merge_dict_fill_only_keeps_list, field_ok_without_ok).
  unfold ok_flag in Hflag. unfold merge_course in Hr. fold filled in Hr.
  destruct (py_or (py_get new_course "_ok") (VDict [])) as [| | | | |ok];
    try done.
  injection Hflag as Hu. rewrite Hu in Hr.
  destruct (truthy (py_get ok "classroom")); cbn [mbind option_bind] in Hr.
  - destruct (merge_classroom_section filled new_course) as [r1|] eqn:H1; [|done].
    cbn [mbind option_bind] in Hr. injection Hr as <-.
    apply merge_classroom_section_frame in H1 as [_ Hf]. rewrite Hf; [done|].
    intros Hin. repeat (apply elem_of_cons in Hin as [Hin|Hin]; [done|]).
    by apply elem_of_nil in Hin.
  - by injection Hr as <-.
Qed.

(** X9. The entity merge never drops an entry.  When the snapshot
    carries its classroom entries, lessons and announcements as lists,
    whatever [merge_course] returns has at least as many classroom
    entries, lessons and announcements as the record had. *)
Theorem merge_course_never_drops (existing new_course r : pydict)
    (k : string)
    (Hsnapshot : snapshot_lists new_course = true)
    (Hr : merge_course existing new_course = Some r)
    (Hk : k ∈ ["classroom"; "lessons"; "announcements"]) :
  (length (entries existing k) ≤ length (entries r k))%nat.
Proof.
  assert (Hfield : field_ok is_list k new_course = true).
  { apply andb_prop in Hsnapshot as [[Hc Hl]%andb_prop Ha].
    pose proof Hk as Hk'.
    repeat (apply elem_of_cons in Hk' as [->|Hk']); try done.
    by apply elem_of_nil in Hk'. }
  pose proof (entries_filled existing new_course k Hfield) as Hfilled.
  unfold merge_course in Hr.
  set (filled := merge_dict_fill_only existing (without_ok new_course)) in *.
  destruct (py_or (py_get new_course "_ok") (VDict [])) as [| | | | |ok];
    try done.
  assert (Hfirst : ∀ r1,
    (if truthy (py_get ok "classroom")
     then merge_classroom_section filled new_course else Some filled) = Some r1 →
    (length (entries filled k) ≤ length (entries r1 k))%nat).
  { intros r1 H1. destruct (truthy (py_get ok "classroom")).
    - eapply merge_classroom_section_grows; [|done].
      intros ->. repeat (apply elem_of_cons in Hk as [Hk|Hk]; [done|]).
      by apply elem_of_nil in Hk.
    - by injection H1 as <-. }
  destruct (if truthy (py_get ok "classroom") then _ else _) as [r1|]; [|done].
  cbn [mbind option_bind] in Hr. specialize (Hfirst r1 eq_refl).
  destruct (truthy (py_get ok "updates")).
  - apply (merge_updates_section_grows _ _ _ k) in Hr. lia.
  - injection Hr as <-. lia.
Qed.

(** ** Upsert into the store *)

Lemma upsert_loop_spec sid new_course : ∀ master_json,
  match upsert_loop master_json sid new_course with
  | Some r =>
      (∃ before c after c',
         master_json = before ++ VDict c :: after
         ∧ Forall (λ x, is_dict x = true) before
         ∧ (sid ∉ store_ids before)
         ∧ record_id (VDict c) = Some sid
         ∧ merge_course c new_course = Some c'
         ∧ r = before ++ VDict c' :: after)
      ∨ (Forall (λ x, is_dict x = true) master_json
         ∧ (sid ∉ store_ids master_json)
         ∧ r = master_json ++ [VDict new_course])
  | None =>
      ∃ before x after,
        master_json = before ++ x :: after
        ∧ Forall (λ x, is_dict x = true) before
        ∧ (sid ∉ store_ids before)
        ∧ (is_dict x = false
           ∨ ∃ c, x = VDict c ∧ record_id x = Some sid
                  ∧ merge_course c new_course = None)
  end.
Proof.
  induction master_json as [|x rest IH].
  - right. split_and!; [done| |done]. by intros ?%elem_of_nil.
  - cbn [upsert_loop]. destruct x as [| | | | |c];
      try (eexists [], _, rest; split_and!; [done|done| |by left];
           by intros ?%elem_of_nil).
    destruct (String.eqb (py_str (py_get c "course_id")) sid) eqn:E.
    + apply String.eqb_eq in E.
      destruct (merge_course c new_course) as [c'|] eqn:Hm;
        cbn [mbind option_bind].
      * left. exists [], c, rest, c'. split_and!; try done.
        -- by intros ?%elem_of_nil.
        -- simpl. by rewrite E.
      * exists [], (VDict c), rest. split_and!; try done.
        -- by intros ?%elem_of_nil.
        -- right. exists c. split_and!; [done| |done]. simpl. by rewrite E.
    + apply String.eqb_neq in E.
      assert (Hcons : ∀ before, sid ∉ store_ids before →
                sid ∉ store_ids (VDict c :: before)).
      { intros before Hb [Hhd|Htl]%elem_of_cons; [congruence|done]. }
      destruct (upsert_loop rest sid new_course) as [r|];
        cbn [mbind option_bind].
      * destruct IH as [(before & c0 & after & c' & -> & Hd & Hb & Hc & Hm & ->)
                       |(Hd & Hb & ->)].
        -- left. exists (VDict c :: before), c0, after, c'.
           split_and!; try done; [by constructor|by apply Hcons].
        -- right. split_and!; [by constructor|by apply Hcons|done].
      * destruct IH as (before & x & after & -> & Hd & Hb & Hx).
        exists (VDict c :: before), x, after.
        split_and!; try done; [by constructor|by apply Hcons].
Qed.

Lemma merge_course_keeps_id existing new_course r course_id :
  upsert_args course_id new_course →
  py_str (py_get existing "course_id") = py_str course_id →
  merge_course existing new_course = Some r →
  py_str (py_get r "course_id") = py_str course_id.
Proof.
  intros (Hnd & Hcid & Hscalar) Hid [_ Hf]%merge_course_frame_fields.
  assert (Hk : dict_get r "course_id"
               = dict_get (merge_dict_fill_only existing (without_ok new_course))
                   "course_id").
  { apply Hf. unfold section_keys. intros Hin.
    repeat (apply elem_of_cons in Hin as [Hin|Hin]; [done|]).
    by apply elem_of_nil in Hin. }
  unfold py_get at 1. rewrite Hk.
  fold (py_get (merge_dict_fill_only existing (without_ok new_course)) "course_id").
  destruct (dict_get (without_ok new_course) "course_id") as [v|] eqn:Hget.
  - rewrite (merge_dict_fill_only_get _ existing "course_id" v);
      [|by apply without_ok_NoDup|done].
    rewrite without_ok_get in Hget by done.
    assert (v = course_id) as -> by (unfold py_get in Hcid; by rewrite Hget in Hcid).
    unfold merged_field.
    destruct course_id; try done; by destruct (is_blank (py_get existing _) && _).
  - unfold py_get. rewrite merge_dict_fill_only_other; [done|].
    intros [v Hv]%dict_get_key_Some. congruence.
Qed.

Lemma store_ids_app l k : store_ids (l ++ k) = store_ids l ++ store_ids k.
Proof. apply omap_app. Qed.

Lemma upsert_loop_ids course_id new_course master_json r :
  upsert_args course_id new_course →
  upsert_loop master_json (py_str course_id) new_course = Some r →
  store_ids r
  = if bool_decide (py_str course_id ∈ store_ids master_json)
    then store_ids master_json
    else store_ids master_json ++ [py_str course_id].
Proof.
  intros Hargs Hr.
  pose proof (upsert_loop_spec (py_str course_id) new_course master_json) as Hspec.
  rewrite Hr in Hspec.
  destruct Hspec as [(before & c & after & c' & -> & Hd & Hb & Hc & Hm & ->)
                    |(Hd & Hb & ->)].
  - injection Hc as Hc.
    pose proof (merge_course_keeps_id c new_course c' course_id Hargs Hc Hm) as Hc'.
    rewrite !store_ids_app. simpl. rewrite Hc, Hc'.
    rewrite bool_decide_eq_true_2; [done|].
    apply elem_of_app. right. by left.
  - rewrite bool_decide_eq_false_2 by done.
    rewrite store_ids_app. simpl. destruct Hargs as (_ & -> & _). done.
Qed.

(** X10. [upsert_course] merges into the first record with the entity's
    id, or appends the snapshot.  When it returns, either the store is
    what it was but for the first record whose [str(course_id)] is the
    given id, which holds the result of [merge_course], or no record
    has the id and the snapshot is appended at the end.  When it raises,
    the loop met, before any record with the id, a record that is no
    mapping, or [merge_course] raised on the first record with the
    id. *)
Theorem upsert_course_first_match (master_json : list value)
    (course_id : value) (new_course : pydict) :
  match upsert_course master_json course_id new_course with
  | Some r =>
      (∃ before c after c',
         master_json = before ++ VDict c :: after
         ∧ Forall (λ x, is_dict x = true) before
         ∧ (py_str course_id ∉ store_ids before)
         ∧ record_id (VDict c) = Some (py_str course_id)
         ∧ merge_course c new_course = Some c'
         ∧ r = before ++ VDict c' :: after)
      ∨ (Forall (λ x, is_dict x = true) master_json
         ∧ (py_str course_id ∉ store_ids master_json)
         ∧ r = master_json ++ [VDict new_course])
  | None =>
      ∃ before x after,
        master_json = before ++ x :: after
        ∧ Forall (λ x, is_dict x = true) before
        ∧ (py_str course_id ∉ store_ids before)
        ∧ (is_dict x = false
           ∨ ∃ c, x = VDict c ∧ record_id x = Some (py_str course_id)
                  ∧ merge_course c new_course = None)
  end.
Proof. apply upsert_loop_spec. Qed.

(** X11. One record per entity.  When [upsert_course] is called as
    [main] calls it, with the [course_id] of the snapshot, a scalar, the
    ids of the store afterwards are the ids before, followed by the
    given id when it was not among them; so the given id is in the
    store, and a store without two records of the same id stays so. *)
Theorem upsert_course_one_record_per_id (master_json : list value)
    (course_id : value) (new_course : pydict) (r : list value)
    (Hargs : upsert_args course_id new_course)
    (Hr : upsert_course master_json course_id new_course = Some r) :
  store_ids r
  = (if bool_decide (py_str course_id ∈ store_ids master_json)
     then store_ids master_json
     else store_ids master_json ++ [py_str course_id])
  ∧ py_str course_id ∈ store_ids r
  ∧ (NoDup (store_ids master_json) → NoDup (store_ids r)).
Proof.
  pose proof (upsert_loop_ids course_id new_course master_json r Hargs Hr) as Hids.
  split; [done|]. rewrite Hids. case_bool_decide as Hin.
  - done.
  - split.
    + apply elem_of_app. right. by left.
    + intros Hnd. apply NoDup_app. split_and!; [done| |apply NoDup_singleton].
      intros x Hx ->%list_elem_of_singleton. done.
Qed.

(** ** The store file *)

Lemma dict_set_set (d : pydict) k v v' :
  dict_set (dict_set d k v) k v' = dict_set d k v'.
Proof.
  induction d as [|[k' w] d IH]; simpl.
  - by rewrite String.eqb_refl.
  - destruct (String.eqb k' k) eqn:E; simpl; rewrite E; [done|by rewrite IH].
Qed.

Lemma canonical_course_id_idem c :
  canonical_course_id (canonical_course_id c) = canonical_course_id c.
Proof.
  destruct c as [| | | | |d]; try done. simpl.
  destruct (py_get d "course_id") eqn:E; simpl; rewrite ?E; try done;
    by rewrite py_get_set_eq, dict_set_set.
Qed.

Lemma dict_set_keys_present (d : pydict) k v :
  is_Some (dict_get d k) → (dict_set d k v).*1 = d.*1.
Proof. intros [w Hw]. by rewrite dict_set_keys, Hw. Qed.

Lemma canonical_course_id_reloaded c : reloaded c (canonical_course_id c).
Proof.
  destruct c as [| | | | |d]; try done.
  assert (Hcases : py_get d "course_id" = VNone
                   ∨ (py_get d "course_id" ≠ VNone
                      ∧ is_Some (dict_get d "course_id"))).
  { unfold py_get. destruct (dict_get d "course_id") as [id|]; [|by left].
    destruct id; (by left) || (right; split; [done|by eexists]). }
  simpl. destruct Hcases as [Hn|[Hn Hsome]].
  - rewrite Hn. by exists d.
  - destruct (py_get d "course_id") eqn:E; try done;
      (eexists; split; [done|]; split_and!;
       [by apply dict_set_keys_present
       |by intros k Hk; rewrite dict_get_set_ne
       |by rewrite py_get_set_eq]).
Qed.

Lemma record_id_canonical c : record_id (canonical_course_id c) = record_id c.
Proof.
  destruct c as [| | | | |d]; try done. simpl.
  destruct (py_get d "course_id") eqn:E; simpl; rewrite ?E; try done;
    by rewrite py_get_set_eq.
Qed.

Lemma store_ids_cons c data :
  store_ids (c :: data)
  = match record_id c with
    | Some sid => sid :: store_ids data
    | None => store_ids data
    end.
Proof. done. Qed.

Lemma store_ids_canonical data :
  store_ids (map canonical_course_id data) = store_ids data.
Proof.
  induction data as [|c data IH]; [done|].
  cbn [map]. by rewrite !store_ids_cons, record_id_canonical, IH.
Qed.

Lemma dict_pop_get_ne (d : pydict) k k' :
  k' ≠ k → dict_get (dict_pop d k) k' = dict_get d k'.
Proof.
  intros Hne. induction d as [|[k0 v] d IH]; [done|]. simpl.
  destruct (String.eqb k0 k) eqn:E; simpl.
  - apply String.eqb_eq in E. subst k0.
    by assert (String.eqb k k' = false) as -> by (apply String.eqb_neq; congruence).
  - by rewrite IH.
Qed.

Lemma dict_pop_get_eq (d : pydict) k :
  NoDup d.*1 → dict_get (dict_pop d k) k = None.
Proof.
  induction d as [|[k0 v] d IH]; [done|]. rewrite fmap_cons. simpl.
  intros [Hk0 Hnd]%NoDup_cons. destruct (String.eqb k0 k) eqn:E; simpl.
  - apply String.eqb_eq in E. subst k0. by apply dict_get_not_key.
  - rewrite E. by apply IH.
Qed.

Lemma dict_pop_keys (d : pydict) k : (dict_pop d k).*1 `sublist_of` d.*1.
Proof.
  induction d as [|[k0 v] d IH]; [done|]. simpl.
  destruct (String.eqb k0 k); rewrite ?fmap_cons; simpl.
  - by apply sublist_cons.
  - by apply sublist_skip.
Qed.

Lemma record_id_strip_ok c : record_id (strip_ok c) = record_id c.
Proof.
  destruct c as [| | | | |d]; try done. simpl. unfold py_get.
  by rewrite dict_pop_get_ne.
Qed.

Lemma store_ids_strip_ok data : store_ids (map strip_ok data) = store_ids data.
Proof.
  induction data as [|c data IH]; [done|].
  cbn [map]. by rewrite !store_ids_cons, record_id_strip_ok, IH.
Qed.

(** ** The calls of the pipeline *)

Lemma upsert_all_log results : ∀ master_json log res log',
  upsert_all results master_json log = (res, log') →
  ∃ upserts, log' = log ++ upserts ∧ Forall is_upsert upserts.
Proof.
  induction results as [|r results IH]; intros master_json log res log' H.
  - injection H as <- <-. exists []. by rewrite app_nil_r.
  - simpl in H. destruct (truthy (py_get r "course_id")); [|by eapply IH].
    destruct (upsert_course master_json _ r) as [master_json'|].
    + apply IH in H as (upserts & -> & Hall).
      exists (CallUpsert (py_get r "course_id") :: upserts).
      split; [by rewrite <-app_assoc|]. constructor; [by eexists|done].
    + injection H as <- <-. exists [CallUpsert (py_get r "course_id")].
      split; [done|]. repeat constructor. by eexists.
Qed.

Lemma main_after_harvest_paths master_json results fs :
  match main_after_harvest master_json results fs with
  | (Uncaught, fs', log) => fs' = fs
  | (SystemExit code, fs', log) =>
      code = 0 ∧ fs' = write_skip_push fs ∧ log = [CallSkipPush]
  | (Returned, fs', log) =>
      ∃ data upserts,
        log = upserts ++ [CallSave data]
        ∧ save_master_json data fs = Some fs'
        ∧ Forall is_upsert upserts
  end.
Proof.
  unfold main_after_harvest.
  destruct (any_ok_anywhere results) as [[]|]; [|done..].
  destruct (upsert_all results master_json []) as [[data|] log] eqn:Hrun; [|done].
  apply upsert_all_log in Hrun as (upserts & -> & Hall).
  destruct (save_master_json (map strip_ok data) fs) as [fs'|] eqn:Hsave; [|done].
  by eexists _, upserts.
Qed.

Lemma save_master_json_Some data fs fs' :
  save_master_json data fs = Some fs' →
  fs' = mk_files (FileJson (VList data)) (skip_push fs).
Proof. unfold save_master_json. destruct (json_writable _); by intros [=]. Qed.

(** ** The store across a run *)

Lemma upsert_course_fields_unique master_json course_id new_course r :
  NoDup new_course.*1 →
  Forall record_fields_unique master_json →
  upsert_course master_json course_id new_course = Some r →
  Forall record_fields_unique r.
Proof.
  intros Hnew Hall Hr. unfold upsert_course in Hr.
  pose proof (upsert_loop_spec (py_str course_id) new_course master_json) as Hspec.
  rewrite Hr in Hspec.
  destruct Hspec as [(before & c & after & c' & -> & _ & _ & _ & Hm & ->)
                    |(_ & _ & ->)].
  - apply Forall_app in Hall as [Hb [Hc Ha]%Forall_cons].
    apply Forall_app. split; [done|]. constructor; [|done].
    intros d [= <-]. apply merge_course_frame_fields in Hm as [(added & _ & Hk) _].
    by apply Hk, Hc.
  - apply Forall_app. split; [done|]. repeat constructor. by intros d [= <-].
Qed.

Lemma upsert_all_store results : ∀ master_json log data log',
  Forall harvested results →
  Forall record_fields_unique master_json →
  upsert_all results master_json log = (Some data, log') →
  Forall record_fields_unique data
  ∧ (NoDup (store_ids master_json) → NoDup (store_ids data))
  ∧ (∀ sid, sid ∈ store_ids master_json → sid ∈ store_ids data)
  ∧ (∀ r, r ∈ results → truthy (py_get r "course_id") = true →
          py_str (py_get r "course_id") ∈ store_ids data).
Proof.
  induction results as [|r results IH]; intros master_json log data log' Hres Hst H.
  - injection H as <- <-. split_and!; [done..|]. by intros r ?%elem_of_nil.
  - apply Forall_cons in Hres as [[Hnd Hscalar] Hres]. simpl in H.
    destruct (truthy (py_get r "course_id")) eqn:Ht.
    + destruct (upsert_course master_json _ r) as [master_json'|] eqn:Hup; [|done].
      assert (Hargs : upsert_args (py_get r "course_id") r) by done.
      pose proof (upsert_loop_ids _ _ _ _ Hargs Hup) as Hids.
      pose proof (upsert_course_fields_unique _ _ _ _ Hnd Hst Hup) as Hst'.
      destruct (IH _ _ _ _ Hres Hst' H) as (Hu & Hn & Hm & Hin).
      assert (Hgrow : ∀ sid, sid ∈ store_ids master_json →
                             sid ∈ store_ids master_json').
      { intros sid Hsid. rewrite Hids. case_bool_decide; [done|].
        apply elem_of_app. by left. }
      assert (Hhere : py_str (py_get r "course_id") ∈ store_ids master_json').
      { rewrite Hids. case_bool_decide; [done|]. apply elem_of_app. right. by left. }
      split_and!; [done| |by auto|].
      * intros Hnd0. apply Hn. rewrite Hids. case_bool_decide as Hc; [done|].
        apply NoDup_app. split_and!; [done| |apply NoDup_singleton].
        intros x Hx ->%list_elem_of_singleton. done.
      * intros r' [->|Hr']%elem_of_cons Ht'; [by apply Hm|by apply Hin].
    + destruct (IH _ _ _ _ Hres Hst H) as (Hu & Hn & Hm & Hin).
      split_and!; [done..|].
      intros r' [->|Hr']%elem_of_cons Ht'; [congruence|by apply Hin].
Qed.

(** X12. What loading does to the store.  [load_master_json] returns
    the records of the file in their order, each as it is but for
    [course_id], which is rewritten to its string form when it is not
    [None]: every other field reads as before, no field is added or
    moved, and the id under which [upsert_course] finds the record is
    the same.  The rewriting changes nothing when done again, so what
    was loaded is loaded unchanged the next time.  The function raises
    exactly on a file whose content does not parse or is no list; a
    missing file is an empty store. *)
Theorem load_master_json_rewrites_ids (fs : files) :
  match load_master_json fs with
  | Some data =>
      ∃ raw,
        (master_file fs = FileMissing ∧ raw = []
         ∨ master_file fs = FileJson (VList raw))
        ∧ Forall2 reloaded raw data
        ∧ store_ids data = store_ids raw
        ∧ map canonical_course_id data = data
  | None =>
      master_file fs = FileGarbage
      ∨ ∃ x, master_file fs = FileJson x ∧ is_list x = false
  end.
Proof.
  assert (Hall : ∀ raw,
    Forall2 reloaded raw (map canonical_course_id raw)
    ∧ store_ids (map canonical_course_id raw) = store_ids raw
    ∧ map canonical_course_id (map canonical_course_id raw)
      = map canonical_course_id raw).
  { intros raw. split_and!.
    - apply Forall2_fmap_r, Forall_Forall2_diag, Forall_forall.
      intros c _. apply canonical_course_id_reloaded.
    - apply store_ids_canonical.
    - rewrite <-list_fmap_compose. apply list_fmap_ext.
      intros i c _. apply canonical_course_id_idem. }
  unfold load_master_json. destruct (master_file fs) as [|x|].
  - exists []. split_and!; [by left|constructor|done..].
  - destruct x as [| | | |raw|];
      try (right; eexists; split; [done|done]).
    exists raw. destruct (Hall raw) as (? & ? & ?). split_and!; [by right|done..].
  - by left.
Qed.

(** X13. How [main] can end, over every path.  An uncaught exception
    leaves both files as they were; an exit is always with status 0,
    after writing the outage signal and nothing else; a normal return
    has saved the store once, as its last call and after nothing but
    [upsert_course] calls, and has not written the outage signal. *)
Theorem main_touches_store_only_on_success (w : network) (fs : files) :
  match main w fs with
  | (Uncaught, fs', log) => fs' = fs
  | (SystemExit code, fs', log) =>
      code = 0 ∧ fs' = write_skip_push fs ∧ log = [CallSkipPush]
      ∧ master_file fs' = master_file fs
  | (Returned, fs', log) =>
      ∃ data upserts,
        log = upserts ++ [CallSave data]
        ∧ save_master_json data fs = Some fs'
        ∧ Forall is_upsert upserts
        ∧ skip_push fs' = skip_push fs
  end.
Proof.
  unfold main.
  destruct (safe_get BATCHES_URL w) as [[[[batches_data batches_ok]|]|] w'];
    [|done..].
  destruct (negb batches_ok || negb (truthy (VList (ensure_list batches_data))));
    [done|].
  destruct (filter_courses (ensure_list batches_data)) as [[|c cs]|]; [| |done].
  - destruct (load_master_json fs) as [data|]; [|done].
    destruct (save_master_json data fs) as [fs'|] eqn:Hsave; [|done].
    exists data, []. split_and!; [done..|].
    by rewrite (save_master_json_Some _ _ _ Hsave).
  - destruct (load_master_json fs) as [master_json|]; [|done].
    pose proof (main_after_harvest_paths master_json (harvest (c :: cs)) fs) as H.
    destruct (main_after_harvest master_json (harvest (c :: cs)) fs)
      as [[[| |] fs'] log]; [|by destruct H as (-> & -> & ->)|done].
    destruct H as (data & upserts & -> & Hsave & Hall). exists data, upserts.
    split_and!; [done..|]. by rewrite (save_master_json_Some _ _ _ Hsave).
Qed.

(** X14. The store after a run that saved.  When the records of the
    store and the collected snapshots are mappings without repeated
    field and every snapshot has a scalar [course_id], a run of [main]
    that gets past the outage check and returns has saved a store in
    which no record carries the transient flags [_ok], every id of the
    store before is still present, every snapshot with a truthy id has
    its record, and no two records share an id if none did before. *)
Theorem main_after_harvest_store (master_json : list value)
    (results : list pydict) (fs fs' : files) (log : list call)
    (Hstore : Forall record_fields_unique master_json)
    (Hresults : Forall harvested results)
    (Hrun : main_after_harvest master_json results fs = (Returned, fs', log)) :
  ∃ data,
    master_file fs' = FileJson (VList data)
    ∧ Forall no_flags data
    ∧ (NoDup (store_ids master_json) → NoDup (store_ids data))
    ∧ (∀ sid, sid ∈ store_ids master_json → sid ∈ store_ids data)
    ∧ (∀ r, r ∈ results → truthy (py_get r "course_id") = true →
            py_str (py_get r "course_id") ∈ store_ids data).
Proof.
  unfold main_after_harvest in Hrun.
  destruct (any_ok_anywhere results) as [[]|]; [|done..].
  destruct (upsert_all results master_json []) as [[data|] log0] eqn:Hup; [|done].
  destruct (save_master_json (map strip_ok data) fs) as [fs0|] eqn:Hsave; [|done].
  apply save_master_json_Some in Hsave. injection Hrun as <- <-. subst fs0.
  destruct (upsert_all_store _ _ _ _ _ Hresults Hstore Hup) as (Hu & Hn & Hm & Hin).
  exists (map strip_ok data). rewrite store_ids_strip_ok.
  split_and!; [done| |done..].
  apply Forall_fmap. eapply Forall_impl; [exact Hu|].
  intros c Hc d Hd. destruct c as [| | | | |d0]; try done.
  injection Hd as <-. by apply dict_pop_get_eq, Hc.
Qed.

(** ** Retrying fetcher: how many requests *)

Lemma safe_get_loop_attempts url : ∀ remaining attempt w,
  remaining = 0%nat ∨ attempt + Z.of_nat remaining = MAX_RETRIES + 1 →
  ∃ n, (n ≤ remaining)%nat
       ∧ (safe_get_loop remaining attempt url w).2 = run_attempts n url w
       ∧ (∀ j, (S j < n)%nat → retryable (outcome_at j url w) = true)
       ∧ (remaining = 0%nat →
          n = 0%nat ∧ (safe_get_loop remaining attempt url w).1 = Gives None)
       ∧ ((0 < remaining)%nat →
          (1 ≤ n)%nat ∧ (safe_get_loop remaining attempt url w).1 ≠ Gives None).
Proof.
  induction remaining as [|remaining IH]; intros attempt w Hsum.
  - exists 0%nat. split_and!; try done; lia.
  - destruct Hsum as [?|Hsum]; [done|].
    rewrite safe_get_loop_step. cbv zeta.
    assert (Hone : ∀ e : safe_get_end, e ≠ Gives None →
      ∃ n, (n ≤ S remaining)%nat
           ∧ (e, (session_get url w).2).2 = run_attempts n url w
           ∧ (∀ j, (S j < n)%nat → retryable (outcome_at j url w) = true)
           ∧ (S remaining = 0%nat →
              n = 0%nat ∧ (e, (session_get url w).2).1 = Gives None)
           ∧ ((0 < S remaining)%nat →
              (1 ≤ n)%nat ∧ (e, (session_get url w).2).1 ≠ Gives None)).
    { intros e He. exists 1%nat. split_and!; try done; try lia. }
    destruct (retryable (session_get url w).1) eqn:Hretry; [|by apply Hone].
    destruct (wait_overflows attempt); [by apply Hone|].
    destruct (attempt <? MAX_RETRIES) eqn:Hlt; [|by apply Hone].
    destruct (IH (attempt + 1) (session_get url w).2) as (n & Hn & Hw & Hbefore & _ & Hpos);
      [right; lia|].
    destruct Hpos as [Hn1 Hsome]; [lia|].
    exists (S n). split_and!; [lia|exact Hw| |done|].
    + intros [|j] Hj; [done|]. apply (Hbefore j). lia.
    + intros _. split; [lia|done].
Qed.

(** ** Resource resolver: the flags and the failed sections *)

Lemma safe_get_pair_Some url w r w' :
  safe_get_pair url w = Some (r, w') ↔ safe_get url w = (Gives (Some r), w').
Proof.
  unfold safe_get_pair. destruct (safe_get url w) as [[[r0|]|] w0]; split;
    intros [=]; by subst.
Qed.

Lemma fetch_course_details_parts course rank total fetched_at w out w' :
  fetch_course_details course rank total fetched_at w = Some (out, w') →
  ∃ classroom_data classroom_ok w1 classroom lessons w2 updates_data updates_ok
      count,
    safe_get_pair (API_BASE +:+ "/classroom/" +:+ py_str (py_get course "id")) w
    = Some ((classroom_data, classroom_ok), w1)
    ∧ safe_get_pair (API_BASE +:+ "/updates/" +:+ py_str (py_get course "id")) w2
      = Some ((updates_data, updates_ok), w')
    ∧ out = snapshot_of course rank fetched_at classroom lessons
              (if updates_ok then ensure_list updates_data else [])
              count classroom_ok updates_ok
    ∧ sum_lesson_counts lessons 0 = Some count
    ∧ (classroom_ok = false → classroom = [] ∧ lessons = [] ∧ w2 = w1).
Proof.
  unfold fetch_course_details. intros H.
  apply fetch_bind_Some in H as ([classroom_data classroom_ok] & w1 & Hc & H).
  apply fetch_bind_Some in H as (out1 & w2 & Hout1 & H).
  apply fetch_bind_Some in H as ([updates_data updates_ok] & w3 & Hu & H).
  assert (Hshape : ∃ classroom lessons,
    out1 = snapshot_of course rank fetched_at classroom lessons [] 0 classroom_ok false
    ∧ (classroom_ok = false → classroom = [] ∧ lessons = [] ∧ w2 = w1)).
  { destruct classroom_data as [| | | | |payload], classroom_ok;
      try (injection Hout1 as <- <-; by exists [], []).
    apply fetch_bind_Some in Hout1 as (lessons & w4 & Hl & Hout1).
    injection Hout1 as <- <-. by eexists _, lessons. }
  destruct Hshape as (classroom & lessons & -> & Hoff).
  destruct updates_ok; simpl in H;
    destruct (sum_lesson_counts lessons 0) as [count|] eqn:Hsum; try done;
    injection H as <- <-;
    by eexists classroom_data, classroom_ok, w1, classroom, lessons, w2,
         updates_data, _, count.
Qed.

(** ** Outage *)

Section outage.
Hypothesis Hbudget : 1 ≤ MAX_RETRIES ≤ 1024.
Hypothesis Hdown : network_down.

Lemma settle_down url w : settle (session_get url w).1 = (VNone, false).
Proof using Hdown.
  pose proof (Hdown url w) as H.
  destruct (session_get url w).1 as [|code [data|]]; try done. simpl.
  destruct (code =? 200) eqn:E; [|done].
  apply Z.eqb_eq in E. subst. by destruct (H data).
Qed.

Lemma safe_get_loop_down url n : ∀ attempt w,
  attempt + Z.of_nat n = MAX_RETRIES →
  ∃ w', safe_get_loop (S n) attempt url w = (Gives (Some (VNone, false)), w').
Proof using Hbudget Hdown.
  induction n as [|n IH]; intros attempt w Hsum;
    rewrite safe_get_loop_step; cbv zeta; rewrite settle_down;
    rewrite wait_in_range by lia.
  - assert ((attempt <? MAX_RETRIES) = false) as -> by lia.
    destruct (retryable _); by eexists.
  - assert ((attempt <? MAX_RETRIES) = true) as -> by lia.
    destruct (retryable _); [|by eexists]. apply IH. lia.
Qed.

Lemma safe_get_down url w :
  ∃ w', safe_get url w = (Gives (Some (VNone, false)), w').
Proof using Hbudget Hdown.
  unfold safe_get. destruct (Z.to_nat MAX_RETRIES) as [|n] eqn:Hn; [lia|].
  apply safe_get_loop_down. lia.
Qed.

Lemma fetch_course_details_down course rank total fetched_at w :
  ∃ w', fetch_course_details course rank total fetched_at w
        = Some (snapshot_of course rank fetched_at [] [] [] 0 false false, w').
Proof using Hbudget Hdown.
  unfold fetch_course_details, fetch_bind.
  destruct (safe_get_down (API_BASE +:+ "/classroom/" +:+ py_str (py_get course "id")) w)
    as [w1 H1].
  apply safe_get_pair_Some in H1. rewrite H1. simpl.
  destruct (safe_get_down (API_BASE +:+ "/updates/" +:+ py_str (py_get course "id")) w1)
    as [w2 H2].
  apply safe_get_pair_Some in H2. rewrite H2. simpl. by exists w2.
Qed.

Lemma main_down w fs :
  main w fs = (SystemExit 0, write_skip_push fs, [CallSkipPush]).
Proof using Hbudget Hdown.
  unfold main. by destruct (safe_get_down BATCHES_URL w) as [w' ->].
Qed.

End outage.

(** ** Keyword filter *)

Lemma filter_courses_spec batches :
  match filter_courses batches with
  | Some r =>
      r = List.filter wanted (omap as_dict batches)
      ∧ Forall (λ item, truthy (py_get item "title") = true
                        → is_str (py_get item "title") = true)
               (omap as_dict batches)
  | None =>
      ∃ item, item ∈ omap as_dict batches
              ∧ truthy (py_get item "title") = true
              ∧ is_str (py_get item "title") = false
  end.
Proof.
  induction batches as [|x batches IH]; [done|]. cbn [filter_courses].
  destruct x as [| | | | |item]; try exact IH. cbn [omap as_dict].
  assert (Hbad : is_str (title_of item) = false →
                 truthy (py_get item "title") = true
                 ∧ is_str (py_get item "title") = false).
  { unfold title_of, py_or. by destruct (truthy (py_get item "title")). }
  assert (Hgood : is_str (title_of item) = true →
                  truthy (py_get item "title") = true →
                  is_str (py_get item "title") = true).
  { unfold title_of, py_or. intros Hs Htr. by rewrite Htr in Hs. }
  fold (title_of item).
  destruct (title_of item) as [| | |title| |] eqn:Ht;
    try (exists item; split; [by left|by apply Hbad]).
  destruct (filter_courses batches) as [rest|]; cbn [mbind option_bind].
  - destruct IH as [-> Hall]. split.
    + simpl.
      assert (wanted item = title_matches title) as ->
        by (unfold wanted; by rewrite Ht).
      done.
    + constructor; [by apply Hgood|done].
  - destruct IH as (bad & Hin & Hbad'). exists bad. split; [by right|done].
Qed.


(** X15. The requests of [safe_get].  The function sends at most
    [MAX_RETRIES] requests, all to the given address, one after the
    other; every request but the last one failed transiently; it sends
    none, and returns no pair, exactly when the budget is zero or
    negative. *)
Theorem safe_get_attempts (url : string) (w : network) :
  ∃ n, (n ≤ Z.to_nat MAX_RETRIES)%nat
       ∧ (safe_get url w).2 = run_attempts n url w
       ∧ (∀ j, (S j < n)%nat → retryable (outcome_at j url w) = true)
       ∧ ((safe_get url w).1 = Gives None ↔ MAX_RETRIES ≤ 0)
       ∧ (n = 0%nat ↔ MAX_RETRIES ≤ 0).
Proof.
  unfold safe_get.
  destruct (safe_get_loop_attempts url (Z.to_nat MAX_RETRIES) 1 w)
    as (n & Hn & Hw & Hbefore & Hzero & Hpos); [lia|].
  exists n. split_and!; [done..| |].
  - split.
    + intros Hnone. destruct (decide (MAX_RETRIES ≤ 0)) as [|Hgt]; [done|].
      destruct Hpos as [_ Hr]; [lia|]. done.
    + intros Hle. apply Hzero. lia.
  - split.
    + intros ->. destruct (decide (MAX_RETRIES ≤ 0)) as [|Hgt]; [done|].
      destruct Hpos as [? _]; lia.
    + intros Hle. apply Hzero. lia.
Qed.

(** X16. The flags of a snapshot and its failed sections.  The
    classroom flag of a snapshot is the success flag of the classroom
    request and the updates flag that of the updates request, whatever
    the lesson and detail requests did.  A snapshot whose classroom
    request failed has no classroom entry and no lesson, a count of 0,
    and sent no lesson request; its announcements are the updates
    payload as a list when the updates request succeeded, and none
    otherwise. *)
Theorem fetch_course_details_flags (course : pydict) (rank total : Z)
    (fetched_at : string) (w w' : network) (out : pydict)
    (Hrun : fetch_course_details course rank total fetched_at w = Some (out, w')) :
  ∃ classroom_data classroom_ok w1 updates_data updates_ok w2,
    safe_get (API_BASE +:+ "/classroom/" +:+ py_str (py_get course "id")) w
    = (Gives (Some (classroom_data, classroom_ok)), w1)
    ∧ safe_get (API_BASE +:+ "/updates/" +:+ py_str (py_get course "id")) w2
      = (Gives (Some (updates_data, updates_ok)), w')
    ∧ ok_flag out "classroom" = Some classroom_ok
    ∧ ok_flag out "updates" = Some updates_ok
    ∧ (classroom_ok = false →
       w2 = w1 ∧ entries out "classroom" = [] ∧ entries out "lessons" = []
       ∧ py_get out "lesson_count" = VInt 0)
    ∧ entries out "announcements"
      = (if updates_ok then ensure_list updates_data else []).
Proof.
  apply fetch_course_details_parts in Hrun
    as (classroom_data & classroom_ok & w1 & classroom & lessons & w2
        & updates_data & updates_ok & count & Hc & Hu & -> & Hsum & Hoff).
  apply safe_get_pair_Some in Hc. apply safe_get_pair_Some in Hu.
  exists classroom_data, classroom_ok, w1, updates_data, updates_ok, w2.
  split_and!; [done|done| | | |done].
  - by destruct classroom_ok.
  - by destruct updates_ok.
  - intros Hfalse. destruct (Hoff Hfalse) as (-> & -> & ->).
    injection Hsum as <-. done.
Qed.



(** X19. The keyword filter of [main].  When the loop over the
    catalogue returns, the courses it kept are the mappings of the
    catalogue whose title (the empty string for a missing or falsy
    title) matches a keyword pattern, in the order of the catalogue;
    items that are no mapping are skipped.  The loop raises exactly when
    some mapping has a truthy title that is no string: when it returns,
    every truthy title of a mapping is a string, and when it raises,
    some mapping has a truthy title that is none. *)
Theorem filter_courses_keeps_matching (batches : list value) :
  match filter_courses batches with
  | Some r =>
      r = List.filter wanted (omap as_dict batches)
      ∧ r `sublist_of` omap as_dict batches
      ∧ Forall (λ item, truthy (py_get item "title") = true
                        → is_str (py_get item "title") = true)
               (omap as_dict batches)
  | None =>
      ∃ item, item ∈ omap as_dict batches
              ∧ truthy (py_get item "title") = true
              ∧ is_str (py_get item "title") = false
  end.
Proof.
  pose proof (filter_courses_spec batches) as H.
  destruct (filter_courses batches) as [r|]; [|done].
  destruct H as [H Hall]. split_and!; [done| |done]. rewrite H. clear H Hall.
  induction (omap as_dict batches) as [|item l IH]; [done|]. simpl.
  destruct (wanted item); by constructor.
Qed.

(** ** Resource resolver: what a snapshot is made of *)

Lemma length_omap_le {A B} (f : A → option B) (l : list A) :
  (length (omap f l) ≤ length l)%nat.
Proof.
  induction l as [|x l IH]; [done|].
  change (omap f (x :: l))
    with (match f x with Some y => y :: omap f l | None => omap f l end).
  destruct (f x); simpl; lia.
Qed.

Lemma fetch_items_records record items : ∀ out w r w',
  fetch_items record items out w = Some (r, w') →
  ∃ added, r = out ++ added
           ∧ Forall2 (built_by record) (omap as_dict items) added.
Proof.
  induction items as [|item items IH]; intros out w r w' H.
  - injection H as <- <-. exists []. by rewrite app_nil_r.
  - destruct item as [| | | | |v]; try by apply IH in H.
    cbn [fetch_items] in H.
    apply fetch_bind_Some in H as ([vd vd_ok] & w1 & _ & H).
    apply IH in H as (added & -> & HF).
    exists (record v vd vd_ok :: added). split; [by rewrite <-app_assoc|].
    cbn [omap as_dict]. constructor; [by eexists _, _|done].
Qed.

Lemma fetch_lessons_records classroom : ∀ lessons w r w',
  fetch_lessons classroom lessons w = Some (r, w') →
  ∃ kept added,
    r = lessons ++ added
    ∧ kept `sublist_of` omap as_dict classroom
    ∧ Forall2 lesson_built_from kept added.
Proof.
  induction classroom as [|cls classroom IH]; intros lessons w r w' H.
  - injection H as <- <-. exists [], []. by rewrite app_nil_r.
  - assert (Hskip : ∀ w1 (c : pydict),
      fetch_lessons classroom lessons w1 = Some (r, w') →
      ∃ kept added,
        r = lessons ++ added
        ∧ kept `sublist_of` c :: omap as_dict classroom
        ∧ Forall2 lesson_built_from kept added).
    { intros w1 c (kept & added & -> & Hsub & HF)%IH.
      exists kept, added. split_and!; [done| |done]. by apply sublist_cons. }
    destruct cls as [| | | | |cls]; try by apply IH in H.
    cbn [fetch_lessons omap as_dict] in *.
    destruct (truthy (py_get cls "id")) eqn:Hid; simpl in H; [|by eapply Hskip].
    apply fetch_bind_Some in H as ([lesson_data lesson_ok] & w1 & _ & H).
    destruct lesson_data as [| | | | |lesson_data], lesson_ok;
      try by eapply Hskip.
    apply fetch_bind_Some in H as (videos & w2 & Hv & H).
    apply fetch_bind_Some in H as (notes & w3 & Hn & H).
    apply fetch_items_records in Hv as (videos' & -> & HFv).
    apply fetch_items_records in Hn as (notes' & -> & HFn).
    apply IH in H as (kept & added & -> & Hsub & HF).
    eexists (cls :: kept), (_ :: added).
    split_and!; [by rewrite <-app_assoc|by apply sublist_skip|].
    constructor; [|done]. split; [done|]. by eexists lesson_data, _, _.
Qed.

(** ** Entity merge: one lesson per id *)

Lemma item_key_recount (d : pydict) :
  item_key "lesson_id" (VDict (recount d)) = item_key "lesson_id" (VDict d).
Proof. unfold recount. simpl. by rewrite !py_get_set_ne. Qed.

Lemma merge_lesson_unique seen l idx lesson st' :
  (∀ d, lesson = VDict d →
        NoDup d.*1 ∧ is_scalar (py_get d "lesson_id") = true) →
  unique_keys_inv "lesson_id" seen (l, idx) →
  merge_lesson (l, idx) lesson = Some st' →
  unique_keys_inv "lesson_id"
    (seen ++ (if item_key "lesson_id" lesson is Some sid then [sid] else [])) st'.
Proof.
  intros Hitem Hinv Hrun. unfold merge_lesson in Hrun.
  destruct lesson as [| | | | |d];
    try (injection Hrun as <-; simpl; rewrite app_nil_r;
         by apply unique_keys_keep_plain).
  destruct (Hitem d eq_refl) as [Hd Hscalar]. simpl.
  destruct (usable_key (py_get d "lesson_id")) eqn:Hu.
  2: { injection Hrun as <-. rewrite app_nil_r.
       apply unique_keys_keep_plain; [|done]. simpl. by rewrite Hu. }
  assert (Hkd : item_key "lesson_id" (VDict d)
                = Some (py_str (py_get d "lesson_id")))
    by (simpl; by rewrite Hu).
  destruct (idx !! py_str (py_get d "lesson_id")) as [i|] eqn:Hi.
  - destruct Hinv as (He & Hrest). destruct (He _ i Hi) as (x & Hx & Hkx).
    simpl in Hx. rewrite Hx in Hrun.
    destruct x as [| | | | |t]; try done.
    destruct (merge_list_by_key _ _ "id") as [videos|]; [|done].
    cbn [mbind option_bind] in Hrun.
    destruct (merge_list_by_key _ _ "id") as [notes|]; [|done].
    injection Hrun as <-.
    apply unique_keys_update; [done..|].
    rewrite item_key_recount.
    assert (Hm : item_key "lesson_id" (VDict (merge_dict_fill_only t d))
                 = Some (py_str (py_get d "lesson_id")))
      by (by apply item_key_merged).
    simpl in *. by rewrite !py_get_set_ne.
  - injection Hrun as <-. apply unique_keys_append; [done..|].
    by rewrite item_key_recount.
Qed.

Lemma merge_lessons_unique new_lessons : ∀ seen st st',
  Forall (λ x, ∀ d, x = VDict d →
            NoDup d.*1 ∧ is_scalar (py_get d "lesson_id") = true) new_lessons →
  unique_keys_inv "lesson_id" seen st →
  merge_lessons new_lessons st = Some st' →
  unique_keys_inv "lesson_id" (seen ++ keys_of "lesson_id" new_lessons) st'.
Proof.
  induction new_lessons as [|lesson rest IH]; intros seen st st' Hall Hinv Hrun.
  - injection Hrun as <-. by rewrite app_nil_r.
  - apply Forall_cons in Hall as [Hitem Hall].
    cbn [merge_lessons] in Hrun. destruct st as [l idx].
    destruct (merge_lesson (l, idx) lesson) as [st1|] eqn:Hstep; [|done].
    cbn [mbind option_bind] in Hrun.
    pose proof (merge_lesson_unique _ _ _ _ _ Hitem Hinv Hstep) as Hinv1.
    pose proof (IH _ _ _ Hall Hinv1 Hrun) as Hinv'.
    unfold keys_of in *. simpl.
    destruct (item_key "lesson_id" lesson);
      rewrite <-?app_assoc in Hinv'; simpl in Hinv'; done.
Qed.

Lemma entries_filled_list existing new_course k :
  field_ok is_list k new_course = true →
  entries (merge_dict_fill_only existing (without_ok new_course)) k
  = entries existing k.
Proof.
  intros Hk. destruct (is_list (py_get existing k)) eqn:Hl.
  - apply entries_same.
    by apply merge_dict_fill_only_keeps_list, field_ok_without_ok.
  - unfold entries.
    destruct (py_get (merge_dict_fill_only existing (without_ok new_course)) k)
      as [| | | |l|] eqn:E; try by destruct (py_get existing k).
    apply merge_dict_fill_only_list_field in E as [->|E].
    + by destruct (py_get existing k).
    + by rewrite E in Hl.
Qed.

Lemma merge_classroom_section_lessons existing_course new_course r :
  wf_value (VList (entries new_course "lessons")) = true →
  scalar_keys "lesson_id" (entries new_course "lessons") = true →
  NoDup (keys_of "lesson_id" (entries existing_course "lessons")) →
  merge_classroom_section existing_course new_course = Some r →
  NoDup (keys_of "lesson_id" (entries r "lessons"))
  ∧ ∀ sid, sid ∈ keys_of "lesson_id" (entries existing_course "lessons")
                 ++ keys_of "lesson_id" (entries new_course "lessons") →
           sid ∈ keys_of "lesson_id" (entries r "lessons").
Proof.
  intros Hwf Hscalar Hnd H. unfold merge_classroom_section in H.
  destruct (merge_list_by_key _ _ "id") as [classroom|]; [|done].
  cbn [mbind option_bind] in H.
  rewrite !as_list_get_or, py_get_set_ne in H by done.
  fold (entries existing_course "lessons") in H.
  fold (entries new_course "lessons") in H.
  set (old := entries existing_course "lessons") in *.
  set (new := entries new_course "lessons") in *.
  destruct (merge_lessons new (old, index_by_key "lesson_id" 0 old ∅))
    as [[lessons idx]|] eqn:Hl; [|done].
  cbn [mbind option_bind fst] in H.
  destruct (sum_lesson_counts lessons 0) as [total|]; [|done].
  injection H as <-.
  assert (entries
            (dict_set
               (dict_set (dict_set existing_course "classroom" (VList classroom))
                  "lessons" (VList lessons))
               "lesson_count" (VInt total)) "lessons" = lessons) as ->.
  { unfold entries. rewrite py_get_set_ne by done. by rewrite py_get_set_eq. }
  assert (Hinit : unique_keys_inv "lesson_id" (keys_of "lesson_id" old)
                    (old, index_by_key "lesson_id" 0 old ∅)).
  { split_and!; simpl.
    - apply (index_by_key_exact "lesson_id" old []). by intros sid i.
    - apply index_by_key_covers.
    - done.
    - intros sid (x & Hx & Hkx)%list_elem_of_omap.
      by eapply (proj2 (index_by_key_covers "lesson_id" old 0 ∅)). }
  destruct (merge_lessons_unique new _ _ _
              (scalar_keys_items "lesson_id" new Hwf Hscalar) Hinit Hl)
    as (He & _ & Hnd' & Hseen). simpl in *.
  split; [done|]. intros sid Hsid. destruct (Hseen sid Hsid) as [i Hi].
  destruct (He sid i Hi) as (x & Hx & Hkx).
  apply list_elem_of_omap. exists x. split; [|done].
  apply list_elem_of_lookup. eauto.
Qed.

(** X20. One lesson per id.  When the lessons of the snapshot are
    mappings with scalar lesson ids and no two lessons of the record
    share a lesson id, whatever [merge_course] returns has no two
    lessons with the same id and still has every lesson id of the
    record; when the classroom flag is set it also has every lesson id
    of the snapshot. *)
Theorem merge_course_one_lesson_per_id (existing new_course r : pydict)
    (Hlist : field_ok is_list "lessons" new_course = true)
    (Hnew : wf_value (VList (entries new_course "lessons")) = true)
    (Hscalar : scalar_keys "lesson_id" (entries new_course "lessons") = true)
    (Hunique : NoDup (keys_of "lesson_id" (entries existing "lessons")))
    (Hr : merge_course existing new_course = Some r) :
  NoDup (keys_of "lesson_id" (entries r "lessons"))
  ∧ (∀ sid, sid ∈ keys_of "lesson_id" (entries existing "lessons") →
            sid ∈ keys_of "lesson_id" (entries r "lessons"))
  ∧ (ok_flag new_course "classroom" = Some true →
     ∀ sid, sid ∈ keys_of "lesson_id" (entries new_course "lessons") →
            sid ∈ keys_of "lesson_id" (entries r "lessons")).
Proof.
  pose proof (entries_filled_list existing new_course "lessons" Hlist) as Hfilled.
  unfold ok_flag. unfold merge_course in Hr.
  set (filled := merge_dict_fill_only existing (without_ok new_course)) in *.
  destruct (py_or (py_get new_course "_ok") (VDict [])) as [| | | | |ok];
    try done.
  assert (Hlast : ∀ r1,
    (if truthy (py_get ok "updates")
     then merge_updates_section r1 new_course else Some r1) = Some r →
    entries r "lessons" = entries r1 "lessons").
  { intros r1 H. destruct (truthy (py_get ok "updates")).
    - apply merge_updates_section_frame in H as [_ Hf].
      by apply entries_same, Hf.
    - by injection H as <-. }
  destruct (truthy (py_get ok "classroom")) eqn:Hc.
  - destruct (merge_classroom_section filled new_course) as [r1|] eqn:H1; [|done].
    cbn [mbind option_bind] in Hr. rewrite (Hlast r1 Hr).
    apply merge_classroom_section_lessons in H1 as [Hnd Hin];
      [|done|done|by rewrite Hfilled].
    rewrite Hfilled in Hin. split_and!; [done| |].
    + intros sid Hsid. apply Hin, elem_of_app. by left.
    + intros _ sid Hsid. apply Hin, elem_of_app. by right.
  - cbn [mbind option_bind] in Hr. rewrite (Hlast filled Hr), Hfilled.
    split_and!; [done..|]. by intros [=].
Qed.

(** X21. The lessons of a snapshot follow its classroom.  The lessons
    of a snapshot come from classroom entries that are mappings with a
    truthy id, at most one lesson per entry and in the order of the
    classroom; each is the record built from its entry and the lesson
    payload, with one video record per mapping of the payload's videos
    and one note record per mapping of its notes, in their order,
    whether or not the detail lookups succeeded. *)
Theorem fetch_course_details_lessons (course : pydict) (rank total : Z)
    (fetched_at : string) (w w' : network) (out : pydict)
    (Hrun : fetch_course_details course rank total fetched_at w = Some (out, w')) :
  ∃ kept,
    kept `sublist_of` omap as_dict (entries out "classroom")
    ∧ Forall2 lesson_built_from kept (entries out "lessons")
    ∧ (length (entries out "lessons") ≤ length (entries out "classroom"))%nat.
Proof.
  apply fetch_course_details_shape in Hrun
    as (classroom & lessons & announcements & count & cok & uok
        & -> & _ & Hlessons).
  change (entries (snapshot_of course rank fetched_at classroom lessons
                     announcements count cok uok) "classroom") with classroom.
  change (entries (snapshot_of course rank fetched_at classroom lessons
                     announcements count cok uok) "lessons") with lessons.
  destruct Hlessons as [->|(w1 & w2 & Hl)].
  - exists []. split_and!; [apply sublist_nil_l|constructor|simpl; lia].
  - apply fetch_lessons_records in Hl as (kept & added & Heq & Hsub & HF).
    simpl in Heq. subst added. exists kept. split_and!; [done..|].
    rewrite <-(Forall2_length _ _ _ HF).
    apply sublist_length in Hsub.
    etrans; [exact Hsub|]. apply length_omap_le.
Qed.

(** X22. A snapshot is what the merges expect.  Whatever
    [fetch_course_details] returns has exactly the fourteen fields of
    the literal, none repeated; its classroom, lessons and
    announcements are lists; its [course_id] is a string or [None]; and
    it records the rank and the clock reading it was given. *)
Theorem fetch_course_details_snapshot (course : pydict) (rank total : Z)
    (fetched_at : string) (w w' : network) (out : pydict)
    (Hrun : fetch_course_details course rank total fetched_at w = Some (out, w')) :
  out.*1 = snapshot_fields
  ∧ harvested out
  ∧ snapshot_lists out = true
  ∧ upsert_args (py_get out "course_id") out
  ∧ py_get out "course_id" = str_or_none (py_get course "id")
  ∧ py_get out "ranking" = VInt rank
  ∧ py_get out "fetched_at" = VStr fetched_at.
Proof.
  apply fetch_course_details_shape in Hrun
    as (classroom & lessons & announcements & count & cok & uok & -> & _).
  assert (Hnd : NoDup (snapshot_of course rank fetched_at classroom lessons
                         announcements count cok uok).*1).
  { change (NoDup snapshot_fields). apply (bool_decide_unpack _). by vm_compute. }
  assert (Hid : is_scalar (str_or_none (py_get course "id")) = true)
    by (by destruct (py_get course "id")).
  split_and!; done.
Qed.

(** * Keyed list merge of one list object into itself *)

Lemma omap_lookup_seq {A} (l : list A) : ∀ pre,
  omap (λ a, (pre ++ l) !! a) (seq (length pre) (length l)) = l.
Proof.
  induction l as [|x l IH]; intros pre; [done|]. simpl.
  rewrite list_lookup_middle by done. simpl. f_equal.
  specialize (IH (pre ++ [x])).
  rewrite length_app, <-app_assoc, Nat.add_1_r in IH. exact IH.
Qed.

Lemma contents_share l : contents (share l) = l.
Proof. apply (omap_lookup_seq l []). Qed.

Lemma share_slot l p : (p < length l)%nat → slots (share l) !! p = Some p.
Proof. intros Hp. simpl. by apply lookup_seq_lt. Qed.

Lemma share_slot_end l p : (length l ≤ p)%nat → slots (share l) !! p = None.
Proof. intros Hp. simpl. by apply lookup_seq_ge. Qed.

Lemma obj_in_share l p item : (p < length l)%nat → obj_in (share l) p item = true.
Proof.
  intros Hp. unfold obj_in. apply existsb_exists. exists p. split.
  - simpl. apply in_seq. lia.
  - by rewrite Nat.eqb_refl.
Qed.

Lemma merge_object_by_key_self key l p :
  NoDup (keys_of key l) →
  (p < length l)%nat →
  merge_object_by_key key (share l, index_by_key key 0 l ∅) p
  = Some (share l, index_by_key key 0 l ∅).
Proof.
  intros Hnd Hp. destruct (lookup_lt_is_Some_2 l p Hp) as [item Hitem].
  assert (Hsame : append_object_if_absent (share l) p item = share l).
  { unfold append_object_if_absent. by rewrite obj_in_share. }
  unfold merge_object_by_key. cbn [cells share]. rewrite Hitem.
  destruct item as [| | | | |d]; try by rewrite Hsame.
  destruct (usable_key (py_get d key)) eqn:Hu; [|by rewrite Hsame].
  rewrite (index_by_key_lookup key _ l 0 ∅ p (VDict d) Hnd Hitem);
    [|simpl; by rewrite Hu].
  rewrite Nat.add_0_l, share_slot by done. cbn [cells share].
  by rewrite Hitem, Nat.eqb_refl.
Qed.

Lemma merge_objects_by_key_self key l : ∀ n p rounds,
  NoDup (keys_of key l) →
  (p + n = length l)%nat →
  (n ≤ rounds)%nat →
  merge_objects_by_key rounds key p (share l, index_by_key key 0 l ∅)
  = Finished (share l, index_by_key key 0 l ∅).
Proof.
  induction n as [|n IH]; intros p rounds Hnd Hp Hr.
  - destruct rounds; simpl; by rewrite lookup_seq_ge by lia.
  - destruct rounds as [|rounds]; [lia|]. cbn [merge_objects_by_key fst].
    rewrite share_slot, merge_object_by_key_self by (done || lia).
    apply IH; [done|lia..].
Qed.

Lemma merge_list_by_key_shared_self key l rounds :
  NoDup (keys_of key l) →
  (length l ≤ rounds)%nat →
  merge_list_by_key_shared rounds (share l) key = Finished (share l).
Proof.
  intros Hnd Hr. unfold merge_list_by_key_shared. rewrite contents_share.
  by rewrite (merge_objects_by_key_self key l (length l) 0 rounds).
Qed.

(** C4 (amended). Keyed list merge is idempotent on a list whose
    mappings with a usable key carry pairwise distinct canonical keys.
    Merging such a list into itself returns exactly the list: when one
    list object is handed in as both arguments the walk over it ends
    after one round per entry, and leaves the list object, its entries
    and their order as they were, so that merging it into itself once
    more does the same; when the second argument is an equal list that
    shares no object with the first, the result is the list, and merging
    the second argument into that result once more gives the list
    again.  No entry is added and none is changed. *)
Theorem merge_list_by_key_self (l : list value) (key : string)
    (Hwf : wf_value (VList l) = true)
    (Hkeys : NoDup (keys_of key l)) :
  (∀ rounds, (length l ≤ rounds)%nat →
     merge_list_by_key_shared rounds (share l) key = Finished (share l)
     ∧ match merge_list_by_key_shared rounds (share l) key with
       | Finished s => merge_list_by_key_shared rounds s key
       | e => e
       end = Finished (share l))
  ∧ contents (share l) = l
  ∧ merge_list_by_key (VList l) (VList l) key = Some l
  ∧ (r ← merge_list_by_key (VList l) (VList l) key;
     merge_list_by_key (VList r) (VList l) key) = Some l.
Proof.
  assert (H : merge_list_by_key (VList l) (VList l) key = Some l).
  { unfold merge_list_by_key. by rewrite merge_items_by_key_self. }
  split_and!.
  - intros rounds Hr.
    by rewrite !(merge_list_by_key_shared_self key l rounds Hkeys Hr).
  - apply contents_share.
  - done.
  - rewrite H. simpl. done.
Qed.

(** * The recount of the lessons *)

Lemma keys_of_lookup_inj key l : ∀ i j x y sid,
  NoDup (keys_of key l) →
  l !! i = Some x → l !! j = Some y →
  item_key key x = Some sid → item_key key y = Some sid → i = j.
Proof.
  induction l as [|a l IH]; intros i j x y sid Hnd Hi Hj Hx Hy; [done|].
  assert (Htail : NoDup (keys_of key l)).
  { unfold keys_of in *. simpl in Hnd.
    destruct (item_key key a); [by apply NoDup_cons in Hnd as [_ ?]|done]. }
  assert (Hin : ∀ n z, l !! n = Some z → item_key key z = Some sid →
                       item_key key a = Some sid → False).
  { intros n z Hn Hz Ha. unfold keys_of in Hnd. simpl in Hnd.
    rewrite Ha in Hnd. apply NoDup_cons in Hnd as [Hnotin _].
    apply Hnotin, list_elem_of_omap. exists z. split; [|done].
    apply list_elem_of_lookup. eauto. }
  destruct i as [|i], j as [|j]; simpl in *.
  - done.
  - injection Hi as ->. exfalso. eauto.
  - injection Hj as ->. exfalso. eauto.
  - f_equal. eauto.
Qed.

Lemma lesson_settled_other old news processed sid x :
  item_key "lesson_id" x ≠ Some sid →
  lesson_settled old news processed x →
  lesson_settled old news (processed ++ [sid]) x.
Proof.
  unfold lesson_settled. intros Hne H.
  destruct (item_key "lesson_id" x) as [s|]; [|done].
  destruct H as [Hin Hout]. split.
  - intros [Hs|Hs]%elem_of_app; [by apply Hin|].
    apply list_elem_of_singleton in Hs. congruence.
  - intros Hs. apply Hout. intros Hp. apply Hs, elem_of_app. by left.
Qed.

Lemma lesson_settled_recounted old news processed sid d :
  item_key "lesson_id" (VDict (recount d)) = Some sid →
  lesson_settled old news (processed ++ [sid]) (VDict (recount d)).
Proof.
  unfold lesson_settled. intros ->. split; [intros _; apply recount_ok|].
  intros Hs. exfalso. apply Hs, elem_of_app. right. by apply list_elem_of_singleton.
Qed.

Lemma merge_lesson_settled old news seen processed l idx lesson st' :
  (∀ d, lesson = VDict d →
        NoDup d.*1 ∧ is_scalar (py_get d "lesson_id") = true) →
  lesson ∈ news →
  unique_keys_inv "lesson_id" seen (l, idx) →
  Forall (lesson_settled old news processed) l →
  merge_lesson (l, idx) lesson = Some st' →
  Forall (lesson_settled old news
            (processed
             ++ (if item_key "lesson_id" lesson is Some sid then [sid] else [])))
    st'.1.
Proof.
  intros Hitem Hin Hinv Hall Hrun.
  assert (Hplain : item_key "lesson_id" lesson = None →
                   Forall (lesson_settled old news (processed ++ []))
                     (append_if_absent l lesson)).
  { intros Hk. rewrite app_nil_r.
    destruct (append_if_absent_cases l lesson) as [-> | ->]; [done|].
    apply Forall_app. split; [done|]. apply Forall_singleton.
    unfold lesson_settled. rewrite Hk. by right. }
  unfold merge_lesson in Hrun.
  destruct lesson as [| | | | |d];
    try (injection Hrun as <-; simpl; by apply Hplain).
  destruct (Hitem d eq_refl) as [Hd Hscalar]. simpl.
  destruct (usable_key (py_get d "lesson_id")) eqn:Hu.
  2: { injection Hrun as <-. apply Hplain. simpl. by rewrite Hu. }
  set (sid := py_str (py_get d "lesson_id")) in *.
  assert (Hkd : item_key "lesson_id" (VDict d) = Some sid)
    by (simpl; by rewrite Hu).
  destruct Hinv as (He & Hc & Hnd & _). simpl in He, Hc, Hnd.
  destruct (idx !! sid) as [i|] eqn:Hi.
  - destruct (He _ i Hi) as (x & Hx & Hkx). rewrite Hx in Hrun.
    destruct x as [| | | | |t]; try done.
    destruct (merge_list_by_key _ _ "id") as [videos|]; [|done].
    cbn [mbind option_bind] in Hrun.
    destruct (merge_list_by_key _ _ "id") as [notes|]; [|done].
    injection Hrun as <-. simpl.
    apply Forall_lookup. intros j y Hj.
    apply list_lookup_insert_Some in Hj as [(-> & <- & _)|[Hne Hj]].
    + apply lesson_settled_recounted. rewrite item_key_recount.
      assert (Hm : item_key "lesson_id" (VDict (merge_dict_fill_only t d))
                   = Some sid) by (by apply item_key_merged).
      simpl in *. by rewrite !py_get_set_ne.
    + apply lesson_settled_other; [|by eapply (proj1 (Forall_lookup _ _))].
      intros Hky. apply Hne.
      by eapply (keys_of_lookup_inj "lesson_id" l i j (VDict t) y sid).
  - injection Hrun as <-. simpl. apply Forall_app. split.
    + apply Forall_forall. intros y Hy.
      apply lesson_settled_other; [|by eapply (proj1 (Forall_forall _ _))].
      intros Hky. destruct (Hc y sid Hy Hky) as [j Hj]. congruence.
    + apply Forall_singleton, lesson_settled_recounted.
      by rewrite item_key_recount.
Qed.

Lemma merge_lessons_settled old news new_lessons : ∀ seen processed st st',
  Forall (λ x, ∀ d, x = VDict d →
            NoDup d.*1 ∧ is_scalar (py_get d "lesson_id") = true) new_lessons →
  Forall (λ x, x ∈ news) new_lessons →
  unique_keys_inv "lesson_id" seen st →
  Forall (lesson_settled old news processed) st.1 →
  merge_lessons new_lessons st = Some st' →
  Forall (lesson_settled old news (processed ++ keys_of "lesson_id" new_lessons))
    st'.1.
Proof.
  induction new_lessons as [|lesson rest IH];
    intros seen processed st st' Hall Hin Hinv Hset Hrun.
  - injection Hrun as <-. by rewrite app_nil_r.
  - apply Forall_cons in Hall as [Hitem Hall].
    apply Forall_cons in Hin as [Hl Hin].
    cbn [merge_lessons] in Hrun. destruct st as [l idx].
    destruct (merge_lesson (l, idx) lesson) as [st1|] eqn:Hstep; [|done].
    cbn [mbind option_bind] in Hrun.
    pose proof (merge_lesson_unique _ _ _ _ _ Hitem Hinv Hstep) as Hinv1.
    pose proof (merge_lesson_settled old news _ processed _ _ _ _
                  Hitem Hl Hinv Hset Hstep) as Hset1.
    pose proof (IH _ _ _ _ Hall Hin Hinv1 Hset1 Hrun) as Hset'.
    unfold keys_of in *. simpl.
    destruct (item_key "lesson_id" lesson);
      rewrite <-?app_assoc in Hset'; simpl in Hset'; done.
Qed.

Lemma lesson_settled_start old news x :
  x ∈ old → lesson_settled old news [] x.
Proof.
  intros Hx. unfold lesson_settled.
  destruct (item_key "lesson_id" x); [|by left].
  split; [by intros ?%elem_of_nil|done].
Qed.

Lemma merge_classroom_section_recount existing_course new_course r :
  wf_value (VList (lessons_of new_course)) = true →
  scalar_keys "lesson_id" (lessons_of new_course) = true →
  NoDup (keys_of "lesson_id" (lessons_of existing_course)) →
  merge_classroom_section existing_course new_course = Some r →
  Forall (lesson_settled (lessons_of existing_course) (lessons_of new_course)
            (keys_of "lesson_id" (lessons_of new_course))) (lessons_of r)
  ∧ ∃ total, sum_lesson_counts (lessons_of r) 0 = Some total
             ∧ py_get r "lesson_count" = VInt total.
Proof.
  intros Hwf Hscalar Hnd H. unfold merge_classroom_section in H.
  destruct (merge_list_by_key _ _ "id") as [classroom|]; [|done].
  cbn [mbind option_bind] in H.
  rewrite !as_list_get_or, py_get_set_ne in H by done.
  fold (lessons_of existing_course) in H. fold (lessons_of new_course) in H.
  set (old := lessons_of existing_course) in *.
  set (new := lessons_of new_course) in *.
  destruct (merge_lessons new (old, index_by_key "lesson_id" 0 old ∅))
    as [[lessons idx]|] eqn:Hl; [|done].
  cbn [mbind option_bind fst] in H.
  destruct (sum_lesson_counts lessons 0) as [total|] eqn:Hsum; [|done].
  injection H as <-.
  assert (lessons_of
            (dict_set
               (dict_set (dict_set existing_course "classroom" (VList classroom))
                  "lessons" (VList lessons))
               "lesson_count" (VInt total)) = lessons) as ->.
  { unfold lessons_of. rewrite py_get_set_ne by done. by rewrite py_get_set_eq. }
  assert (Hinit : unique_keys_inv "lesson_id" (keys_of "lesson_id" old)
                    (old, index_by_key "lesson_id" 0 old ∅)).
  { split_and!; simpl.
    - apply (index_by_key_exact "lesson_id" old []). by intros sid i.
    - apply index_by_key_covers.
    - done.
    - intros sid (x & Hx & Hkx)%list_elem_of_omap.
      by eapply (proj2 (index_by_key_covers "lesson_id" old 0 ∅)). }
  split.
  - apply (merge_lessons_settled old new new (keys_of "lesson_id" old) [] _ _
             (scalar_keys_items "lesson_id" new Hwf Hscalar)) in Hl;
      [done| |done|].
    + by apply Forall_forall.
    + simpl. apply Forall_forall. intros x Hx. by apply lesson_settled_start.
  - exists total. split; [done|]. by rewrite py_get_set_eq.
Qed.

Lemma merge_course_recount existing new_course r :
  field_ok is_list "lessons" new_course = true →
  wf_value (VList (lessons_of new_course)) = true →
  scalar_keys "lesson_id" (lessons_of new_course) = true →
  NoDup (keys_of "lesson_id" (lessons_of existing)) →
  ok_flag new_course "classroom" = Some true →
  merge_course existing new_course = Some r →
  Forall (lesson_settled (lessons_of existing) (lessons_of new_course)
            (keys_of "lesson_id" (lessons_of new_course))) (lessons_of r)
  ∧ ∃ total, sum_lesson_counts (lessons_of r) 0 = Some total
             ∧ py_get r "lesson_count" = VInt total.
Proof.
  intros Hlist Hwf Hscalar Hnd Hflag Hr.
  pose proof (entries_filled_list existing new_course "lessons" Hlist) as Hfilled.
  unfold entries in Hfilled. fold (lessons_of existing) in Hfilled.
  rewrite merge_course_classroom_on in Hr by done.
  set (filled := merge_dict_fill_only existing (without_ok new_course)) in *.
  fold (lessons_of filled) in Hfilled.
  destruct (merge_classroom_section filled new_course) as [r1|] eqn:H1; [|done].
  cbn [mbind option_bind] in Hr.
  apply merge_classroom_section_recount in H1; [|done|done|by rewrite Hfilled].
  rewrite Hfilled in H1.
  destruct (ok_flag new_course "updates") as [[]|]; try by injection Hr as <-.
  unfold merge_updates_section in Hr.
  destruct (merge_list_by_fingerprint _ _) as [announcements|]; [|done].
  injection Hr as <-. unfold lessons_of in *. by rewrite !py_get_set_ne.
Qed.


(** * Identifiers in the persisted record *)

Lemma Forall_forallb {A} (p : A → bool) l :
  forallb p l = true → Forall (λ x, p x = true) l.
Proof.
  induction l as [|x l IH]; [done|]. simpl.
  intros [Hx Hl]%andb_true_iff. constructor; auto.
Qed.

Lemma merge_dict_fill_only_scalar_field (p : value → bool) k
    (existing new : pydict) :
  NoDup new.*1 →
  (∀ x, p x = true → is_scalar x = true) →
  p (py_get existing k) = true →
  (∀ v, dict_get new k = Some v → p v = true) →
  p (py_get (merge_dict_fill_only existing new) k) = true.
Proof.
  intros Hnd Hp He Hn. destruct (dict_get new k) as [v|] eqn:Hget.
  - rewrite (merge_dict_fill_only_get new existing k v Hnd Hget).
    pose proof (Hn v eq_refl) as Hv. pose proof (Hp v Hv) as Hs.
    unfold merged_field.
    destruct v as [| | | | |]; try done; by destruct (_ && _).
  - unfold py_get. rewrite merge_dict_fill_only_other; [done|].
    intros Hk. apply dict_get_key_Some in Hk as [? ?]. congruence.
Qed.

Lemma as_list_filled (P : value → Prop) (existing new : pydict) k :
  Forall P (as_list (py_get existing k)) →
  Forall P (as_list (py_get (merge_dict_fill_only existing new) k)).
Proof.
  intros H.
  destruct (py_get (merge_dict_fill_only existing new) k)
    as [| | | |l|] eqn:E; try done.
  apply merge_dict_fill_only_list_field in E as [->|E]; [done|].
  by rewrite E in H.
Qed.

Lemma as_list_py_get_or (d : pydict) k :
  as_list (py_get_or d k (VList [])) = as_list (py_get d k).
Proof. apply as_list_get_or. Qed.

Lemma filled_from_keeps (P Q : value → Prop) news x y :
  (∀ t d, P (VDict t) → Q (VDict d) → P (VDict (merge_dict_fill_only t d))) →
  Forall Q news → P x → filled_from news x y → P y.
Proof.
  intros Hstep HQ Hx H. induction H as [|x t d H IH Hin]; [done|].
  apply Hstep; [by apply IH|]. by eapply (proj1 (Forall_forall _ _)).
Qed.

Lemma merge_list_by_key_filled existing_list new_list key r :
  merge_list_by_key existing_list new_list key = Some r →
  ∃ origin,
    origin `sublist_of` as_list new_list
    ∧ Forall2 (filled_from (as_list new_list))
        (as_list existing_list ++ origin) r.
Proof.
  rewrite merge_list_by_key_as_list.
  set (existing := as_list existing_list). set (news := as_list new_list).
  unfold merge_list_by_key.
  destruct (merge_items_by_key_inv key news existing news []
              (existing, index_by_key key 0 existing ∅))
    as ([l index] & Hrun & _ & origin & Hsub & HF); [done| |].
  { split; simpl.
    - apply (index_by_key_sound key [] existing). by intros sid i.
    - exists []. split; [done|]. rewrite app_nil_r.
      apply Forall_Forall2_diag, Forall_true. by constructor. }
  rewrite Hrun. intros [= <-]. by exists origin.
Qed.

Lemma item_built_canonical x : item_built x → item_id_canonical x = true.
Proof. destruct x as [| | | | |d]; try done. intros H. by apply (H d eq_refl). Qed.

Lemma merge_list_by_key_ids existing_list new_list r :
  Forall (λ x, item_id_canonical x = true) (as_list existing_list) →
  Forall item_built (as_list new_list) →
  merge_list_by_key existing_list new_list "id" = Some r →
  Forall (λ x, item_id_canonical x = true) r.
Proof.
  intros He Hn (origin & Hsub & HF)%merge_list_by_key_filled.
  assert (Hstart : Forall (λ x, item_id_canonical x = true)
                     (as_list existing_list ++ origin)).
  { apply Forall_app. split; [done|]. apply Forall_forall. intros x Hx.
    apply item_built_canonical. eapply (proj1 (Forall_forall _ _)); [done|].
    by eapply elem_of_sublist. }
  apply Forall_lookup. intros i y Hi.
  destruct (Forall2_lookup_r _ _ _ _ _ HF Hi) as (x & Hx & Hfilled).
  eapply (filled_from_keeps (λ x, item_id_canonical x = true) item_built);
    [|done| |done].
  - intros t d Ht Hd. simpl in *. destruct (Hd d eq_refl) as [Hnd Hid].
    apply merge_dict_fill_only_scalar_field; [done|by intros []|done|].
    intros v Hv. unfold py_get in Hid. by rewrite Hv in Hid.
  - exact (proj1 (Forall_lookup _ _) Hstart i x Hx).
Qed.

Lemma lesson_ids_canonical_parts (d : pydict) :
  lesson_ids_canonical (VDict d) = true
  ↔ is_str (py_get d "lesson_id") = true
    ∧ Forall (λ x, item_id_canonical x = true) (as_list (py_get d "videos"))
    ∧ Forall (λ x, item_id_canonical x = true) (as_list (py_get d "notes")).
Proof.
  simpl. rewrite !andb_true_iff. split.
  - intros [[Hid Hv] Hn]. split_and!; [done|by apply Forall_forallb..].
  - intros (Hid & Hv & Hn). split_and!; [done|by apply forallb_Forall..].
Qed.

Lemma lesson_ids_canonical_recount (d : pydict) :
  lesson_ids_canonical (VDict (recount d)) = lesson_ids_canonical (VDict d).
Proof. unfold recount. simpl. by rewrite !py_get_set_ne. Qed.

Lemma lesson_built_canonical x : lesson_built x → lesson_ids_canonical x = true.
Proof.
  destruct x as [| | | | |d]; try done. intros H.
  destruct (H d eq_refl) as (_ & Hid & Hv & Hn).
  apply lesson_ids_canonical_parts. split_and!; [done|..];
    (eapply Forall_impl; [done|apply item_built_canonical]).
Qed.

Lemma merge_lesson_ids l idx lesson st' :
  lesson_built lesson →
  Forall (λ x, lesson_ids_canonical x = true) l →
  merge_lesson (l, idx) lesson = Some st' →
  Forall (λ x, lesson_ids_canonical x = true) st'.1.
Proof.
  intros Hb Hall Hrun.
  assert (Hplain : Forall (λ x, lesson_ids_canonical x = true)
                     (append_if_absent l lesson)).
  { destruct (append_if_absent_cases l lesson) as [-> | ->]; [done|].
    apply Forall_app. split; [done|].
    apply Forall_singleton. by apply lesson_built_canonical. }
  unfold merge_lesson in Hrun.
  destruct lesson as [| | | | |d]; try (by injection Hrun as <-).
  destruct (Hb d eq_refl) as (Hnd & Hid & Hv & Hn).
  destruct (usable_key (py_get d "lesson_id")); [|by injection Hrun as <-].
  destruct (idx !! py_str (py_get d "lesson_id")) as [i|].
  - destruct (l !! i) as [[| | | | |t]|] eqn:Hi; try done.
    destruct (merge_list_by_key _ _ "id") as [videos|] eqn:Hvid; [|done].
    cbn [mbind option_bind] in Hrun.
    destruct (merge_list_by_key (py_get_or (dict_set _ _ _) _ _) _ "id")
      as [notes|] eqn:Hnot; [|done].
    injection Hrun as <-. simpl.
    apply Forall_insert; [done|]. rewrite lesson_ids_canonical_recount.
    pose proof (proj1 (Forall_lookup _ _) Hall i _ Hi) as Ht.
    apply lesson_ids_canonical_parts in Ht as (Htid & Htv & Htn).
    apply lesson_ids_canonical_parts. split_and!.
    + rewrite !py_get_set_ne by done.
      apply merge_dict_fill_only_scalar_field; [done|by intros []|done|].
      intros v Hget. unfold py_get in Hid. by rewrite Hget in Hid.
    + rewrite py_get_set_ne, py_get_set_eq by done. simpl.
      eapply merge_list_by_key_ids; [| |exact Hvid].
      * rewrite as_list_py_get_or. by apply as_list_filled.
      * by rewrite as_list_py_get_or.
    + rewrite py_get_set_eq. simpl.
      eapply merge_list_by_key_ids; [| |exact Hnot].
      * rewrite as_list_py_get_or, py_get_set_ne by done.
        by apply as_list_filled.
      * by rewrite as_list_py_get_or.
  - injection Hrun as <-. simpl. apply Forall_app. split; [done|].
    apply Forall_singleton. rewrite lesson_ids_canonical_recount.
    by apply lesson_built_canonical.
Qed.

Lemma merge_lessons_ids new_lessons : ∀ st st',
  Forall lesson_built new_lessons →
  Forall (λ x, lesson_ids_canonical x = true) st.1 →
  merge_lessons new_lessons st = Some st' →
  Forall (λ x, lesson_ids_canonical x = true) st'.1.
Proof.
  induction new_lessons as [|lesson rest IH]; intros st st' Hnew Hall Hrun.
  - by injection Hrun as <-.
  - apply Forall_cons in Hnew as [Hl Hrest].
    cbn [merge_lessons] in Hrun. destruct st as [l idx].
    destruct (merge_lesson (l, idx) lesson) as [st1|] eqn:Hstep; [|done].
    cbn [mbind option_bind] in Hrun.
    eapply IH; [done| |done]. by eapply merge_lesson_ids.
Qed.

Lemma merge_classroom_section_ids existing_course new_course r :
  built_ids_canonical existing_course = true →
  Forall lesson_built (lessons_of new_course) →
  merge_classroom_section existing_course new_course = Some r →
  built_ids_canonical r = true.
Proof.
  intros [Hid Hls]%andb_true_iff Hnew H. unfold merge_classroom_section in H.
  destruct (merge_list_by_key _ _ "id") as [classroom|]; [|done].
  cbn [mbind option_bind] in H.
  rewrite !as_list_get_or, py_get_set_ne in H by done.
  fold (lessons_of existing_course) in H. fold (lessons_of new_course) in H.
  destruct (merge_lessons _ _) as [[lessons idx]|] eqn:Hl; [|done].
  cbn [mbind option_bind fst] in H.
  destruct (sum_lesson_counts lessons 0) as [total|]; [|done].
  injection H as <-. unfold built_ids_canonical, lessons_of.
  rewrite !(py_get_set_ne _ _ "course_id") by done. rewrite Hid. simpl.
  rewrite py_get_set_ne, py_get_set_eq by done. simpl.
  apply forallb_Forall.
  apply merge_lessons_ids in Hl; [done|done|]. by apply Forall_forallb.
Qed.

Lemma merge_updates_section_ids r new_course r' :
  built_ids_canonical r = true →
  merge_updates_section r new_course = Some r' →
  built_ids_canonical r' = true.
Proof.
  unfold merge_updates_section. intros Hr H.
  destruct (merge_list_by_fingerprint _ _) as [announcements|]; [|done].
  injection H as <-. unfold built_ids_canonical, lessons_of in *.
  by rewrite !py_get_set_ne.
Qed.

Lemma merge_course_ids existing new_course r :
  built_ids_canonical existing = true →
  snapshot_built new_course →
  merge_course existing new_course = Some r →
  built_ids_canonical r = true.
Proof.
  intros He (Hnd & Hid & Hl) Hr. unfold merge_course in Hr.
  set (filled := merge_dict_fill_only existing (without_ok new_course)) in *.
  assert (Hf : built_ids_canonical filled = true).
  { apply andb_true_iff in He as [Hc Hls].
    unfold built_ids_canonical. apply andb_true_iff. split.
    - apply merge_dict_fill_only_scalar_field;
        [by apply without_ok_NoDup|by intros []|done|].
      intros v Hv. rewrite without_ok_get in Hv by done.
      unfold py_get in Hid. by rewrite Hv in Hid.
    - apply forallb_Forall, lessons_of_filled. by apply Forall_forallb. }
  destruct (py_or (py_get new_course "_ok") (VDict [])) as [| | | | |ok];
    try done.
  destruct (truthy (py_get ok "classroom")).
  - destruct (merge_classroom_section filled new_course) as [r1|] eqn:H1; [|done].
    cbn [mbind option_bind] in Hr.
    apply merge_classroom_section_ids in H1; [|done|done].
    destruct (truthy (py_get ok "updates")); [|by injection Hr as <-].
    exact (merge_updates_section_ids _ _ _ H1 Hr).
  - cbn [mbind option_bind] in Hr.
    destruct (truthy (py_get ok "updates")); [|by injection Hr as <-].
    exact (merge_updates_section_ids _ _ _ Hf Hr).
Qed.

Lemma snapshot_built_canonical r : snapshot_built r → built_ids_canonical r = true.
Proof.
  intros (_ & Hid & Hl). unfold built_ids_canonical. rewrite Hid. simpl.
  apply forallb_Forall. eapply Forall_impl; [done|apply lesson_built_canonical].
Qed.

Lemma upsert_course_ids master_json course_id new_course r :
  snapshot_built new_course →
  Forall record_ids_canonical master_json →
  upsert_course master_json course_id new_course = Some r →
  Forall record_ids_canonical r.
Proof.
  intros Hnew Hall Hr. unfold upsert_course in Hr.
  pose proof (upsert_loop_spec (py_str course_id) new_course master_json) as Hspec.
  rewrite Hr in Hspec.
  destruct Hspec as [(before & c & after & c' & -> & _ & _ & _ & Hm & ->)
                    |(_ & _ & ->)].
  - apply Forall_app in Hall as [Hb [Hc Ha]%Forall_cons].
    apply Forall_app. split; [done|]. constructor; [|done].
    intros d [= <-]. eapply merge_course_ids; [|done..]. by apply Hc.
  - apply Forall_app. split; [done|]. apply Forall_singleton.
    intros d [= <-]. by apply snapshot_built_canonical.
Qed.

Lemma upsert_all_ids results : ∀ master_json log data log',
  Forall snapshot_built results →
  Forall record_ids_canonical master_json →
  upsert_all results master_json log = (Some data, log') →
  Forall record_ids_canonical data.
Proof.
  induction results as [|r results IH]; intros master_json log data log' Hres Hst H.
  - by injection H as <- <-.
  - apply Forall_cons in Hres as [Hr Hres]. simpl in H.
    destruct (truthy (py_get r "course_id")); [|by eapply IH].
    destruct (upsert_course master_json _ r) as [master_json'|] eqn:Hup; [|done].
    eapply IH; [done| |done]. by eapply upsert_course_ids.
Qed.

Lemma strip_ok_ids c : record_ids_canonical c → record_ids_canonical (strip_ok c).
Proof.
  destruct c as [| | | | |d]; try done. intros H d' [= <-].
  specialize (H d eq_refl). unfold built_ids_canonical, lessons_of, py_get in *.
  by rewrite !dict_pop_get_ne.
Qed.

Lemma main_after_harvest_ids master_json results fs fs' log :
  Forall record_ids_canonical master_json →
  Forall snapshot_built results →
  main_after_harvest master_json results fs = (Returned, fs', log) →
  ∃ data, master_file fs' = FileJson (VList data)
          ∧ Forall record_ids_canonical data.
Proof.
  intros Hst Hres H. unfold main_after_harvest in H.
  destruct (any_ok_anywhere results) as [[]|]; [|done..].
  destruct (upsert_all results master_json []) as [[data|] log0] eqn:Hrun; [|done].
  destruct (save_master_json (map strip_ok data) fs) as [fs1|] eqn:Hsave; [|done].
  injection H as <- <-. apply save_master_json_Some in Hsave as ->.
  exists (map strip_ok data). split; [done|].
  apply Forall_fmap. eapply Forall_impl; [by eapply upsert_all_ids|].
  intros c Hc. by apply strip_ok_ids.
Qed.

Lemma video_record_built v vd ok : item_built (video_record v vd ok).
Proof.
  intros d [= <-]. split; [|apply str_or_none_canonical].
  apply (bool_decide_unpack _). by vm_compute.
Qed.

Lemma note_record_built n nd ok : item_built (note_record n nd ok).
Proof.
  intros d [= <-]. split; [|apply str_or_none_canonical].
  apply (bool_decide_unpack _). by vm_compute.
Qed.

Lemma lesson_record_built cls lesson_data lesson_id videos_out notes_out :
  Forall item_built videos_out →
  Forall item_built notes_out →
  lesson_built (lesson_record cls lesson_data lesson_id videos_out notes_out).
Proof.
  intros Hv Hn d [= <-]. split_and!; [|done..].
  apply (bool_decide_unpack _). by vm_compute.
Qed.

Lemma fetch_course_details_built course rank total fetched_at w out w' :
  fetch_course_details course rank total fetched_at w = Some (out, w') →
  snapshot_built out.
Proof.
  intros (classroom & lessons & announcements & count & cok & uok
          & -> & Hsum & Hlessons)%fetch_course_details_shape.
  split_and!.
  - change (NoDup snapshot_fields). apply (bool_decide_unpack _). by vm_compute.
  - apply str_or_none_canonical.
  - change (Forall lesson_built lessons).
    destruct Hlessons as [->|(w1 & w2 & Hrun)]; [done|].
    eapply (fetch_lessons_all item_built item_built); [| | |done|done].
    + apply video_record_built.
    + apply note_record_built.
    + apply lesson_record_built.
Qed.

Lemma canonical_course_id_ids c :
  lessons_canonical c → record_ids_canonical (canonical_course_id c).
Proof.
  destruct c as [| | | | |d]; try done. intros H d'. specialize (H d eq_refl).
  simpl. unfold built_ids_canonical.
  destruct (py_get d "course_id") eqn:E; intros [= <-];
    unfold lessons_of in *;
    by rewrite ?E, ?py_get_set_eq, ?py_get_set_ne.
Qed.


End program.

(** * Worked instances *)

(** ** Keyed list merge of a list into itself *)

(** C4 on [distinct_items], whose keys ["1"] and ["2"] differ. *)
Lemma merge_list_by_key_self_witness :
  (∀ rounds, (length distinct_items ≤ rounds)%nat →
     merge_list_by_key_shared quote_repr rounds (share distinct_items) "id"
     = Finished (share distinct_items)
     ∧ match merge_list_by_key_shared quote_repr rounds (share distinct_items) "id"
       with
       | Finished s => merge_list_by_key_shared quote_repr rounds s "id"
       | e => e
       end = Finished (share distinct_items))
  ∧ contents (share distinct_items) = distinct_items
  ∧ merge_list_by_key quote_repr (VList distinct_items) (VList distinct_items) "id"
    = Some distinct_items
  ∧ (r ← merge_list_by_key quote_repr (VList distinct_items)
           (VList distinct_items) "id";
     merge_list_by_key quote_repr (VList r) (VList distinct_items) "id")
    = Some distinct_items.
Proof.
  apply (merge_list_by_key_self quote_repr distinct_items "id").
  - vm_compute. reflexivity.
  - apply (bool_decide_unpack _). vm_compute. exact I.
Defined.

(** Against C4 as first stated.  The two entries of [twin_items] share
    the id 1: the index sends ["1"] to the second one, and merging the
    first one into it fills its blank field, so the content changes,
    whether one list object is handed in twice or two equal lists.  In
    [alias_items] the second id is the string form of the first, a
    list: handed in as one list object, the list comes back with a
    third entry, which is the second entry once more. *)
Lemma merge_list_by_key_self_not_idempotent :
  wf_value (VList twin_items) = true
  ∧ merge_list_by_key_shared quote_repr 2 (share twin_items) "id"
    = Finished (mk_shared twin_items_merged [0; 1]%nat)
  ∧ contents (mk_shared twin_items_merged [0; 1]%nat) = twin_items_merged
  ∧ merge_list_by_key quote_repr (VList twin_items) (VList twin_items) "id"
    = Some twin_items_merged
  ∧ twin_items_merged ≠ twin_items
  ∧ wf_value (VList alias_items) = true
  ∧ merge_list_by_key_shared quote_repr 3 (share alias_items) "id"
    = Finished (mk_shared [VDict [("id", VList [VInt 1; VInt 2])];
                           VDict [("id", VList [])]] [0; 1; 1]%nat)
  ∧ contents (mk_shared [VDict [("id", VList [VInt 1; VInt 2])];
                         VDict [("id", VList [])]] [0; 1; 1]%nat)
    = [VDict [("id", VList [VInt 1; VInt 2])];
       VDict [("id", VList [])];
       VDict [("id", VList [])]].
Proof. split_and!; try (vm_compute; reflexivity). discriminate. Qed.

(** ** Section guard *)

(** C1 on a re-run where only the updates section succeeded. *)
Lemma merge_course_section_guard_witness :
  let filled :=
    merge_dict_fill_only persisted_course (without_ok updates_only_snapshot) in
  merge_course quote_repr flat_hash 0 persisted_course updates_only_snapshot
  = (if ok_flag updates_only_snapshot "updates" is Some true
     then merge_updates_section quote_repr flat_hash 0 filled updates_only_snapshot
     else Some filled)
  ∧ ∀ r, (r = filled
          ∨ merge_course quote_repr flat_hash 0 persisted_course
              updates_only_snapshot = Some r) →
         dict_get r "classroom" = dict_get persisted_course "classroom"
         ∧ dict_get r "lessons" = dict_get persisted_course "lessons"
         ∧ dict_get r "lesson_count" = dict_get persisted_course "lesson_count".
Proof.
  apply (merge_course_section_guard quote_repr flat_hash 0
           persisted_course updates_only_snapshot);
    vm_compute; reflexivity.
Defined.

Example merge_course_updates_only :
  merge_course quote_repr flat_hash 0 persisted_course updates_only_snapshot
  = Some
      [("course_id", VStr "5");
       ("course_name", VStr "72 bpsc prelims");
       ("classroom", VList [VDict [("id", VStr "c1")]]);
       ("lessons",
        VList [VDict [("lesson_id", VStr "L1"); ("video_count", VInt 1);
                      ("note_count", VInt 0); ("lesson_count", VInt 1);
                      ("videos", VList [VDict [("id", VStr "v1")]]);
                      ("notes", VList [])]]);
       ("announcements",
        VList [VDict [("id", VInt 9); ("content", VStr "hello")]]);
       ("lesson_count", VInt 1)].
Proof. vm_compute. reflexivity. Qed.

(** ** Retrying fetcher *)


Example safe_get_after_two_retries :
  safe_get nat flaky_session 5 "https://api/classroom/5" 0%nat
  = (Gives (Some (VDict [("classroom", VList [])], true)), 3%nat).
Proof. vm_compute. reflexivity. Qed.

(** With a budget of no attempt the loop body never runs and the
    function returns no pair. *)
Example safe_get_without_budget :
  safe_get nat flaky_session 0 "https://api/classroom/5" 0%nat
  = (Gives None, 0%nat).
Proof. vm_compute. reflexivity. Qed.

(** With a budget of 1025 attempts and a server that answers every
    request with status 503, the call ends in an [OverflowError] after
    1025 requests; with a budget of 1024 attempts it returns
    [(None, False)]. *)
Example safe_get_overflows_at_1025 :
  safe_get nat down_session 1025 "https://api/batches" 0%nat
  = (Overflows, 1025%nat).
Proof. vm_compute. reflexivity. Qed.

Example safe_get_largest_budget :
  safe_get nat down_session 1024 "https://api/batches" 0%nat
  = (Gives (Some (VNone, false)), 1024%nat).
Proof. vm_compute. reflexivity. Qed.

(** ** Outage gating *)

(** C2 on a run whose two snapshots failed in both sections. *)
Lemma outage_skips_merge_and_save_witness :
  main_after_harvest quote_repr flat_hash 0 (λ _, true) [VDict persisted_course]
    [failed_snapshot; failed_snapshot] store_before
  = (SystemExit 0, write_skip_push store_before, [CallSkipPush])
  ∧ master_file (write_skip_push store_before) = master_file store_before
  ∧ (∀ w batches_data w' c cs,
       safe_get nat flaky_session 5 "https://api/batches" w
       = (Gives (Some (batches_data, true)), w') →
       filter_courses (λ _, true) (ensure_list batches_data) = Some (c :: cs) →
       load_master_json quote_repr store_before = Some [VDict persisted_course] →
       (λ _, [failed_snapshot; failed_snapshot]) (c :: cs)
       = [failed_snapshot; failed_snapshot] →
       main quote_repr flat_hash 0 nat flaky_session 5 (λ _, true) (λ _, true)
         "https://api/batches" (λ _, [failed_snapshot; failed_snapshot]) w
         store_before
       = (SystemExit 0, write_skip_push store_before, [CallSkipPush])).
Proof.
  apply (outage_skips_merge_and_save quote_repr flat_hash 0 nat flaky_session 5
           (λ _, true) (λ _, true) "https://api/batches"
           (λ _, [failed_snapshot; failed_snapshot])
           [VDict persisted_course] [failed_snapshot; failed_snapshot]
           store_before).
  repeat constructor.
Defined.

(** ** Identifiers of classroom entries and announcement items *)


(** ** Derived counts *)



Example merge_course_recounts :
  merge_course quote_repr flat_hash 0 persisted_course classroom_snapshot
  = Some
      [("course_id", VStr "5");
       ("course_name", VStr "");
       ("classroom", VList [VDict [("id", VStr "c1")]; VDict [("id", VStr "c2")]]);
       ("lessons",
        VList [VDict [("lesson_id", VStr "L1"); ("video_count", VInt 2);
                      ("note_count", VInt 1); ("lesson_count", VInt 3);
                      ("videos",
                       VList [VDict [("id", VStr "v1")]; VDict [("id", VStr "v2")]]);
                      ("notes", VList [VDict [("id", VStr "n1")]])];
               VDict [("lesson_id", VStr "L2"); ("video_count", VInt 0);
                      ("note_count", VInt 0); ("lesson_count", VInt 0);
                      ("videos", VList []); ("notes", VList [])]]);
       ("announcements", VList []);
       ("lesson_count", VInt 3)].
Proof. vm_compute. reflexivity. Qed.

(** ** End-to-end scenario: empty store, one matching catalog entry *)

Example scenario_fetch :
  fetch_course_details quote_repr nat scenario_session 5 "https://api"
    [("id", VStr "5"); ("title", VStr "72 bpsc prelims")] 1 1
    "2026-01-01T00:00:00+00:00" 0%nat
  = Some (scenario_record true, 4%nat).
Proof. vm_compute. reflexivity. Qed.

Example scenario_persisted :
  main_after_harvest quote_repr flat_hash 0 (λ _, true) [] [scenario_record true]
    (mk_files FileMissing None)
  = (Returned,
     mk_files (FileJson (VList [VDict (scenario_record false)])) None,
     [CallUpsert (VStr "5"); CallSave [VDict (scenario_record false)]]).
Proof. vm_compute. reflexivity. Qed.

(** ** Instances of the further properties *)

(** ** Deep structural merge *)

(** X1 on a stored name met by an empty mapping: the name is replaced
    by the empty mapping. *)
Lemma deep_merge_field_by_field_witness :
  py_get (merge_dict_fill_only named_teacher blank_teacher) "teacher"
  = merged_field named_teacher "teacher" (VDict [])
  ∧ merged_field named_teacher "teacher" (VDict []) = VDict [].
Proof.
  split; [|reflexivity].
  apply (deep_merge_field_by_field named_teacher blank_teacher "teacher").
  apply (bool_decide_unpack _). vm_compute. exact I.
Defined.

(** X2 on the persisted record and the later snapshot. *)
Lemma deep_merge_idempotent_witness :
  merge_dict_fill_only
    (merge_dict_fill_only persisted_course (without_ok classroom_snapshot))
    (without_ok classroom_snapshot)
  = merge_dict_fill_only persisted_course (without_ok classroom_snapshot).
Proof.
  apply (deep_merge_idempotent persisted_course (without_ok classroom_snapshot)).
  vm_compute. reflexivity.
Defined.

(** ** Keyed list merge *)

(** X4 on [distinct_items], merged with two items of key ["1"]. *)
Lemma merge_list_by_key_unique_keys_witness :
  ∃ r, merge_list_by_key quote_repr (VList distinct_items) (VList twin_items) "id"
       = Some r
       ∧ NoDup (keys_of quote_repr "id" r)
       ∧ ∀ sid, sid ∈ keys_of quote_repr "id" distinct_items
                      ++ keys_of quote_repr "id" twin_items →
                sid ∈ keys_of quote_repr "id" r.
Proof.
  apply (merge_list_by_key_unique_keys quote_repr distinct_items twin_items "id").
  - vm_compute. reflexivity.
  - vm_compute. reflexivity.
  - apply (bool_decide_unpack _). vm_compute. exact I.
Defined.

(** ** Entity merge *)

(** X7 on a re-run where only the updates section succeeded. *)
Lemma merge_course_frame_witness :
  keeps_fields persisted_course persisted_after_updates
  ∧ dict_get persisted_after_updates "_ok" = dict_get persisted_course "_ok"
  ∧ ∀ k, k ∉ section_keys →
         dict_get persisted_after_updates k
         = dict_get (merge_dict_fill_only persisted_course
                       (without_ok updates_only_snapshot)) k.
Proof.
  apply (merge_course_frame quote_repr flat_hash 0 persisted_course
           updates_only_snapshot persisted_after_updates).
  vm_compute. reflexivity.
Defined.

(** X8 on a re-run where only the classroom section succeeded. *)
Lemma merge_course_updates_guard_witness :
  dict_get persisted_after_classroom "announcements"
  = dict_get persisted_course "announcements".
Proof.
  apply (merge_course_updates_guard quote_repr flat_hash 0 persisted_course
           classroom_snapshot persisted_after_classroom);
    vm_compute; reflexivity.
Defined.

(** X9 on the lessons of the same re-run. *)
Lemma merge_course_never_drops_witness :
  (length (entries persisted_course "lessons")
   ≤ length (entries persisted_after_classroom "lessons"))%nat.
Proof.
  apply (merge_course_never_drops quote_repr flat_hash 0 persisted_course
           classroom_snapshot persisted_after_classroom "lessons").
  - vm_compute. reflexivity.
  - vm_compute. reflexivity.
  - right. left.
Defined.

(** ** Upsert *)

(** X11 on a store that holds the entity already. *)
Lemma upsert_course_one_record_per_id_witness :
  store_ids quote_repr [VDict persisted_after_updates]
  = (if bool_decide (py_str quote_repr (VStr "5")
                     ∈ store_ids quote_repr [VDict persisted_course])
     then store_ids quote_repr [VDict persisted_course]
     else store_ids quote_repr [VDict persisted_course]
          ++ [py_str quote_repr (VStr "5")])
  ∧ py_str quote_repr (VStr "5") ∈ store_ids quote_repr [VDict persisted_after_updates]
  ∧ (NoDup (store_ids quote_repr [VDict persisted_course]) →
     NoDup (store_ids quote_repr [VDict persisted_after_updates])).
Proof.
  apply (upsert_course_one_record_per_id quote_repr flat_hash 0
           [VDict persisted_course] (VStr "5") updates_only_snapshot
           [VDict persisted_after_updates]).
  - split_and!; [|reflexivity..].
    apply (bool_decide_unpack _). vm_compute. exact I.
  - vm_compute. reflexivity.
Defined.

(** ** The store after a run *)

(** X14 on the end-to-end scenario: an empty store and one snapshot. *)
Lemma main_after_harvest_store_witness :
  ∃ data,
    master_file (mk_files (FileJson (VList [VDict (scenario_record false)])) None)
    = FileJson (VList data)
    ∧ Forall no_flags data
    ∧ (NoDup (store_ids quote_repr []) → NoDup (store_ids quote_repr data))
    ∧ (∀ sid, sid ∈ store_ids quote_repr [] → sid ∈ store_ids quote_repr data)
    ∧ (∀ r, r ∈ [scenario_record true] →
            truthy (py_get r "course_id") = true →
            py_str quote_repr (py_get r "course_id") ∈ store_ids quote_repr data).
Proof.
  apply (main_after_harvest_store quote_repr flat_hash 0 (λ _, true) []
           [scenario_record true]
           (mk_files FileMissing None)
           (mk_files (FileJson (VList [VDict (scenario_record false)])) None)
           [CallUpsert (VStr "5"); CallSave [VDict (scenario_record false)]]).
  - constructor.
  - apply Forall_singleton. split; [|reflexivity].
    apply (bool_decide_unpack _). vm_compute. exact I.
  - vm_compute. reflexivity.
Defined.

(** ** Resource resolver *)

(** X16 on the end-to-end scenario, whose updates request fails. *)
Lemma fetch_course_details_flags_witness :
  ∃ classroom_data classroom_ok w1 updates_data updates_ok w2,
    safe_get nat scenario_session 5
      ("https://api" +:+ "/classroom/" +:+ py_str quote_repr (VStr "5")) 0%nat
    = (Gives (Some (classroom_data, classroom_ok)), w1)
    ∧ safe_get nat scenario_session 5
        ("https://api" +:+ "/updates/" +:+ py_str quote_repr (VStr "5")) w2
      = (Gives (Some (updates_data, updates_ok)), 4%nat)
    ∧ ok_flag (scenario_record true) "classroom" = Some classroom_ok
    ∧ ok_flag (scenario_record true) "updates" = Some updates_ok
    ∧ (classroom_ok = false →
       w2 = w1 ∧ entries (scenario_record true) "classroom" = []
       ∧ entries (scenario_record true) "lessons" = []
       ∧ py_get (scenario_record true) "lesson_count" = VInt 0)
    ∧ entries (scenario_record true) "announcements"
      = (if updates_ok then ensure_list updates_data else []).
Proof.
  apply (fetch_course_details_flags quote_repr nat scenario_session 5 "https://api"
           [("id", VStr "5"); ("title", VStr "72 bpsc prelims")] 1 1
           "2026-01-01T00:00:00+00:00" 0%nat 4%nat (scenario_record true)).
  vm_compute. reflexivity.
Defined.

(** ** Outage *)



(** ** Lessons *)

(** X20 on the re-run that brings a second lesson. *)
Lemma merge_course_one_lesson_per_id_witness :
  NoDup (keys_of quote_repr "lesson_id" (entries persisted_after_classroom "lessons"))
  ∧ (∀ sid, sid ∈ keys_of quote_repr "lesson_id" (entries persisted_course "lessons") →
            sid ∈ keys_of quote_repr "lesson_id"
                    (entries persisted_after_classroom "lessons"))
  ∧ (ok_flag classroom_snapshot "classroom" = Some true →
     ∀ sid, sid ∈ keys_of quote_repr "lesson_id" (entries classroom_snapshot "lessons") →
            sid ∈ keys_of quote_repr "lesson_id"
                    (entries persisted_after_classroom "lessons")).
Proof.
  apply (merge_course_one_lesson_per_id quote_repr flat_hash 0 persisted_course
           classroom_snapshot persisted_after_classroom).
  - vm_compute. reflexivity.
  - vm_compute. reflexivity.
  - vm_compute. reflexivity.
  - apply (bool_decide_unpack _). vm_compute. exact I.
  - vm_compute. reflexivity.
Defined.

(** X21 and X22 on the end-to-end scenario. *)
Lemma fetch_course_details_lessons_witness :
  ∃ kept,
    kept `sublist_of` omap as_dict (entries (scenario_record true) "classroom")
    ∧ Forall2 (lesson_built_from quote_repr) kept
        (entries (scenario_record true) "lessons")
    ∧ (length (entries (scenario_record true) "lessons")
       ≤ length (entries (scenario_record true) "classroom"))%nat.
Proof.
  apply (fetch_course_details_lessons quote_repr nat scenario_session 5 "https://api"
           [("id", VStr "5"); ("title", VStr "72 bpsc prelims")] 1 1
           "2026-01-01T00:00:00+00:00" 0%nat 4%nat (scenario_record true)).
  vm_compute. reflexivity.
Defined.

Lemma fetch_course_details_snapshot_witness :
  (scenario_record true).*1 = snapshot_fields
  ∧ harvested (scenario_record true)
  ∧ snapshot_lists (scenario_record true) = true
  ∧ upsert_args (py_get (scenario_record true) "course_id") (scenario_record true)
  ∧ py_get (scenario_record true) "course_id"
    = str_or_none quote_repr
        (py_get [("id", VStr "5"); ("title", VStr "72 bpsc prelims")] "id")
  ∧ py_get (scenario_record true) "ranking" = VInt 1
  ∧ py_get (scenario_record true) "fetched_at" = VStr "2026-01-01T00:00:00+00:00".
Proof.
  apply (fetch_course_details_snapshot quote_repr nat scenario_session 5 "https://api"
           [("id", VStr "5"); ("title", VStr "72 bpsc prelims")] 1 1
           "2026-01-01T00:00:00+00:00" 0%nat 4%nat (scenario_record true)).
  vm_compute. reflexivity.
Defined.
